(** * Title generator: orchestration loop, response cleaner and validation

    A shallow embedding of [src/aiService.ts], [src/validation.ts] and the
    constants and types they import, followed by the properties of the
    generation loop, the response cleaner and the validation service.

    Conventions of the embedding.
    - A JavaScript string is a [string]; every character stands for one
      UTF-16 code unit in the range 0..255, so [String.length] is [.length].
    - A JavaScript [number] is [number] below (NaN, the two infinities, or a
      finite rational; every finite double is such a rational).  The two
      length settings are stored by the settings tab from [parseInt], so the
      settings record keeps them as [Z].
    - An exception is a value of [exn]; a computation that may throw returns
      a [result]; the orchestrator runs in a small state-and-exception monad
      whose state logs notices and provider calls. *)

From Stdlib Require Import Strings.String Strings.Ascii ZArith QArith List Bool Lia.
From Stdlib Require Import Numbers.DecimalString.
From Stdlib Require Numbers.DecimalPos.
Import ListNotations.

Local Open Scope string_scope.
Local Open Scope Z_scope.

(** ** JavaScript primitives used by the sources *)

Module JS.

Definition LF : ascii := "010"%char.
Definition DQUOTE : ascii := "034"%char.

Definition code (c : ascii) : Z := Z.of_N (N_of_ascii c).

(** [s.length] *)
Definition len (s : string) : Z := Z.of_nat (String.length s).

Definition isEmpty (s : string) : bool :=
  match s with EmptyString => true | String _ _ => false end.

(** White space of [String.prototype.trim] and of the regex class [\s],
    within code units 0..255: TAB, LF, VT, FF, CR, SPACE, NBSP. *)
Definition isWhiteSpace (c : ascii) : bool :=
  let n := code c in
  ((9 <=? n) && (n <=? 13)) || (n =? 32) || (n =? 160).

Fixpoint dropWhileStart (p : ascii -> bool) (s : string) : string :=
  match s with
  | EmptyString => EmptyString
  | String c s' => if p c then dropWhileStart p s' else s
  end.

Fixpoint dropWhileEnd (p : ascii -> bool) (s : string) : string :=
  match s with
  | EmptyString => EmptyString
  | String c s' =>
      let r := dropWhileEnd p s' in
      if p c && isEmpty r then EmptyString else String c r
  end.

(** [s.trim()] *)
Definition trim (s : string) : string :=
  dropWhileEnd isWhiteSpace (dropWhileStart isWhiteSpace s).

Fixpoint take (n : nat) (s : string) : string :=
  match n, s with
  | S n', String c s' => String c (take n' s')
  | _, _ => EmptyString
  end.

Fixpoint drop (n : nat) (s : string) : string :=
  match n, s with
  | S n', String _ s' => drop n' s'
  | _, _ => s
  end.

(** [s.slice(0, e)] for an integer [e]: a negative end counts from the
    end of the string, an end past the string is clamped. *)
Definition slice0 (s : string) (e : Z) : string :=
  let l := len s in
  let upto := if e <? 0 then Z.max (l + e) 0 else Z.min e l in
  take (Z.to_nat upto) s.

(** [s.startsWith(p)] *)
Definition startsWith (p s : string) : bool := String.prefix p s.

Definition endsWith (p s : string) : bool :=
  (String.length p <=? String.length s)%nat
  && String.eqb (drop (String.length s - String.length p) s) p.

(** [s.indexOf(p)], [None] for -1 *)
Definition indexOf (p s : string) : option nat := String.index 0 p s.

(** [s.includes(p)] *)
Definition includes (p s : string) : bool :=
  match indexOf p s with Some _ => true | None => false end.

(** The replacement text of [String.prototype.replace] when the pattern is
    a string (ECMAScript GetSubstitution with no captures): in the
    template, [$$] stands for a dollar sign, [$&] for the matched text,
    [$`] for the text before the match and [$'] for the text after it;
    any other character, a dollar sign included, stands for itself. *)
Fixpoint getSubstitution (matched preceding following template : string)
  : string :=
  match template with
  | EmptyString => EmptyString
  | String "$" (String c rest as t) =>
      if Ascii.eqb c "$" then
        String "$" (getSubstitution matched preceding following rest)
      else if Ascii.eqb c "&" then
        matched ++ getSubstitution matched preceding following rest
      else if Ascii.eqb c "`" then
        preceding ++ getSubstitution matched preceding following rest
      else if Ascii.eqb c "'" then
        following ++ getSubstitution matched preceding following rest
      else String "$" (getSubstitution matched preceding following t)
  | String c rest =>
      String c (getSubstitution matched preceding following rest)
  end.

(** [s.replace(pattern, replacement)] with a string pattern: the first
    occurrence only. *)
Definition replace (s pattern replacement : string) : string :=
  match indexOf pattern s with
  | None => s
  | Some pos =>
      let preceding := take pos s in
      let following := drop (pos + String.length pattern) s in
      preceding
        ++ getSubstitution pattern preceding following replacement
        ++ following
  end.

(** [s.replace(/[class]/g, '')] for a character class *)
Fixpoint removeChars (p : ascii -> bool) (s : string) : string :=
  match s with
  | EmptyString => EmptyString
  | String c s' =>
      if p c then removeChars p s' else String c (removeChars p s')
  end.

(** [s.split(sep)] for a one-character separator *)
Fixpoint split (sep : ascii) (s : string) : list string :=
  match s with
  | EmptyString => [EmptyString]
  | String c s' =>
      if Ascii.eqb c sep then EmptyString :: split sep s'
      else match split sep s' with
           | h :: t => String c h :: t
           | [] => [String c EmptyString]
           end
  end.

Definition isAsciiUpper (c : ascii) : bool := (65 <=? code c) && (code c <=? 90).
Definition isAsciiLower (c : ascii) : bool := (97 <=? code c) && (code c <=? 122).

Definition shift (c : ascii) (d : Z) : ascii :=
  ascii_of_N (Z.to_N (code c + d)).

(** Lower case of one code unit in 0..255: A-Z and the Latin-1 capitals
    U+00C0..U+00DE other than the multiplication sign U+00D7. *)
Definition lowerChar (c : ascii) : ascii :=
  let n := code c in
  if isAsciiUpper c then shift c 32
  else if (192 <=? n) && (n <=? 222) && negb (n =? 215) then shift c 32
  else c.

(** Upper case of an ASCII letter; the sources upper-case provider tags
    only. *)
Definition upperChar (c : ascii) : ascii :=
  if isAsciiLower c then shift c (-32) else c.

Fixpoint mapChars (f : ascii -> ascii) (s : string) : string :=
  match s with
  | EmptyString => EmptyString
  | String c s' => String (f c) (mapChars f s')
  end.

Definition toLowerCase (s : string) : string := mapChars lowerChar s.
Definition toUpperCase (s : string) : string := mapChars upperChar s.

(** Case-insensitive prefix test of a regex with the [i] flag against an
    ASCII pattern: two code units match when their canonical (upper-case)
    forms agree, and only an ASCII letter canonicalises to an ASCII
    letter. *)
Fixpoint startsWithCI (p s : string) : bool :=
  match p, s with
  | EmptyString, _ => true
  | String a p', String b s' =>
      Ascii.eqb (upperChar a) (upperChar b) && startsWithCI p' s'
  | String _ _, EmptyString => false
  end.

(** [z.toString()] of an integer-valued number: its decimal digits, which
    is what the code prints for magnitudes below 10^21 (from there on it
    switches to exponent notation). *)
Definition toString (z : Z) : string := NilZero.string_of_int (Z.to_int z).

(** *** Numbers and dynamically typed values *)

Inductive number : Type :=
| NaN
| PosInfinity
| NegInfinity
| Finite (q : Q).

Definition ofZ (z : Z) : number := Finite (inject_Z z).

(** [a < b]; every comparison with NaN is false. *)
Definition ltb (a b : number) : bool :=
  match a, b with
  | NaN, _ | _, NaN => false
  | PosInfinity, _ => false
  | _, NegInfinity => false
  | NegInfinity, _ => true
  | _, PosInfinity => true
  | Finite p, Finite q =>
      match Qcompare p q with Lt => true | _ => false end
  end.

Definition gtb (a b : number) : bool := ltb b a.

(** [a === b] on numbers *)
Definition eqb (a b : number) : bool :=
  match a, b with
  | PosInfinity, PosInfinity | NegInfinity, NegInfinity => true
  | Finite p, Finite q => Qeq_bool p q
  | _, _ => false
  end.

(** [a >= b] *)
Definition geb (a b : number) : bool := gtb a b || eqb a b.

Definition isNaN (a : number) : bool :=
  match a with NaN => true | _ => false end.

(** [Number.isInteger] *)
Definition isInteger (a : number) : bool :=
  match a with
  | Finite q => Z.rem (Qnum q) (Z.pos (Qden q)) =? 0
  | _ => false
  end.

(** A primitive value, for parameters whose run-time type the sources
    test with [typeof]. *)
Inductive value : Type :=
| Undefined
| Null
| Boolean (b : bool)
| Num (n : number)
| Str (s : string).

(** ToBoolean *)
Definition truthy (v : value) : bool :=
  match v with
  | Undefined | Null => false
  | Boolean b => b
  | Num n => negb (isNaN n || eqb n (ofZ 0))
  | Str s => negb (isEmpty s)
  end.

(** What can be thrown: a plain [Error], the repository's
    [TitleGeneratorError] (message, code, user message), the engine's
    [TypeError], and any primitive value, since [throw] and the rejection
    of a promise take any value. *)
Inductive exn : Type :=
| Error (message : string)
| TitleGeneratorError (message code userMessage : string)
| TypeError (message : string)
| Thrown (v : value).

(** [error.message] where it is a string.  A primitive has none: reading
    [message] off it gives undefined, and off null or undefined it throws,
    so that calling a method on the message throws in either case. *)
Definition message_of (e : exn) : option string :=
  match e with
  | Error m => Some m
  | TitleGeneratorError m _ _ => Some m
  | TypeError m => Some m
  | Thrown _ => None
  end.

Inductive result (A : Type) : Type :=
| Ok (a : A)
| Throw (e : exn).
Arguments Ok {A} a.
Arguments Throw {A} e.

Definition bind {A B : Type} (r : result A) (k : A -> result B) : result B :=
  match r with
  | Ok a => k a
  | Throw e => Throw e
  end.

End JS.

(** ** Constants ([src/constants.ts]) *)

Module MODEL_CONFIG.
Definition MIN_TEMPERATURE : JS.number := JS.ofZ 0.
Definition MAX_TEMPERATURE : JS.number := JS.ofZ 1.
End MODEL_CONFIG.

Module TITLE_CONFIG.
Definition MIN_MAX_LENGTH : Z := 10.
Definition MAX_MAX_LENGTH : Z := 500.
Definition MIN_MAX_CONTENT_LENGTH : Z := 100.
Definition MAX_MAX_CONTENT_LENGTH : Z := 10000.
Definition MAX_GENERATION_ATTEMPTS : Z := 3.

(** [FORBIDDEN_CHARS]: the class of the regex, that is the characters
    less-than, greater-than, colon, double quote, slash, backslash, bar,
    question mark and star, and the control characters U+0000..U+001F. *)
Definition FORBIDDEN_CHARS (c : ascii) : bool :=
  (JS.code c <=? 31)
  || existsb (Ascii.eqb c)
       ["<"; ">"; ":"; JS.DQUOTE; "/"; "\"; "|"; "?"; "*"]%char.

Definition FALLBACK_TITLE : string := "Untitled".
End TITLE_CONFIG.

Module VALIDATION_RULES.
Module API_KEY.
Definition MIN_LENGTH : Z := 10.
Definition MAX_LENGTH : Z := 200.
End API_KEY.
Module MODEL_NAME.
Definition MIN_LENGTH : Z := 1.
Definition MAX_LENGTH : Z := 100.
End MODEL_NAME.
Module PROMPT.
Definition MIN_LENGTH : Z := 10.
Definition MAX_LENGTH : Z := 1000.
Definition REQUIRED_PLACEHOLDER : string := "{max_length}".
End PROMPT.
Module REFINE_PROMPT.
Definition MIN_LENGTH : Z := 10.
Definition MAX_LENGTH : Z := 1000.
Definition REQUIRED_PLACEHOLDERS : list string := ["{max_length}"; "{title}"].
End REFINE_PROMPT.
End VALIDATION_RULES.

(** ** Types ([src/types.ts]) *)

(** [TitleGeneratorSettings], the fields the modelled code reads.  The
    provider tag is the run-time string: the type [AIProvider] is erased,
    and both sources keep a [default] branch for a tag outside it. *)
Record TitleGeneratorSettings : Type := {
  aiProvider : string;
  openAiApiKey : string;
  anthropicApiKey : string;
  googleApiKey : string;
  openAiModel : string;
  anthropicModel : string;
  googleModel : string;
  lowerCaseTitles : bool;
  removeForbiddenChars : bool;
  customPrompt : string;
  temperature : JS.number;
  maxTitleLength : Z;
  maxContentLength : Z;
  refinePrompt : string
}.

(** [settings[field]] for a field name computed at run time *)
Definition settingsGet (settings : TitleGeneratorSettings) (field : string)
  : JS.value :=
  if String.eqb field "aiProvider" then JS.Str (aiProvider settings)
  else if String.eqb field "openAiApiKey" then JS.Str (openAiApiKey settings)
  else if String.eqb field "anthropicApiKey" then JS.Str (anthropicApiKey settings)
  else if String.eqb field "googleApiKey" then JS.Str (googleApiKey settings)
  else if String.eqb field "openAiModel" then JS.Str (openAiModel settings)
  else if String.eqb field "anthropicModel" then JS.Str (anthropicModel settings)
  else if String.eqb field "googleModel" then JS.Str (googleModel settings)
  else if String.eqb field "lowerCaseTitles" then JS.Boolean (lowerCaseTitles settings)
  else if String.eqb field "removeForbiddenChars" then JS.Boolean (removeForbiddenChars settings)
  else if String.eqb field "customPrompt" then JS.Str (customPrompt settings)
  else if String.eqb field "temperature" then JS.Num (temperature settings)
  else if String.eqb field "maxTitleLength" then JS.Num (JS.ofZ (maxTitleLength settings))
  else if String.eqb field "maxContentLength" then JS.Num (JS.ofZ (maxContentLength settings))
  else if String.eqb field "refinePrompt" then JS.Str (refinePrompt settings)
  else JS.Undefined.

(** A parsed JSON payload, the [any] of [validateApiResponse]. *)
#[local] Set Warnings "-register-all".
Inductive json : Type :=
| JUndefined
| JNull
| JBool (b : bool)
| JNumber (n : JS.number)
| JString (s : string)
| JArray (items : list json)
| JObject (fields : list (string * json)).

Module Json.
Import JS.

Definition truthy (v : json) : bool :=
  match v with
  | JUndefined | JNull => false
  | JBool b => b
  | JNumber n => negb (isNaN n || eqb n (ofZ 0))
  | JString s => negb (isEmpty s)
  | JArray _ | JObject _ => true
  end.

Definition nullish (v : json) : bool :=
  match v with JUndefined | JNull => true | _ => false end.

Fixpoint lookup (k : string) (fields : list (string * json)) : json :=
  match fields with
  | [] => JUndefined
  | (k', v) :: rest => if String.eqb k k' then v else lookup k rest
  end.

(** [v.k] for one of the property names the validator reads (none of
    them is a property of a primitive or of an array): reading a property
    of [undefined] or [null] throws, an object yields its field, any
    other value yields [undefined]. *)
Definition getProp (v : json) (k : string) : result json :=
  match v with
  | JUndefined => Throw (TypeError "Cannot read properties of undefined")
  | JNull => Throw (TypeError "Cannot read properties of null")
  | JObject fields => Ok (lookup k fields)
  | _ => Ok JUndefined
  end.

(** [Array.isArray(v)] with the items *)
Definition asArray (v : json) : option (list json) :=
  match v with JArray items => Some items | _ => None end.

(** [items.find(pred)] for a predicate that may throw *)
Fixpoint find (pred : json -> result bool) (items : list json) : result json :=
  match items with
  | [] => Ok JUndefined
  | x :: rest =>
      bind (pred x) (fun b => if b then Ok x else find pred rest)
  end.
End Json.

(** ** The validation service ([src/validation.ts]) *)

Record ValidationResult : Type := {
  valid : bool;
  errors : list string;
  warnings : list string
}.

Module ValidationService.
Import JS.

(** [{ valid: true, errors: [], warnings: [] }] *)
Definition fresh : ValidationResult :=
  {| valid := true; errors := []; warnings := [] |}.

(** [result.valid = false] *)
Definition setInvalid (r : ValidationResult) : ValidationResult :=
  {| valid := false; errors := errors r; warnings := warnings r |}.

(** [result.errors.push(...msgs)] *)
Definition pushErrors (msgs : list string) (r : ValidationResult)
  : ValidationResult :=
  {| valid := valid r; errors := errors r ++ msgs; warnings := warnings r |}.

(** [result.warnings.push(...msgs)] *)
Definition pushWarnings (msgs : list string) (r : ValidationResult)
  : ValidationResult :=
  {| valid := valid r; errors := errors r; warnings := warnings r ++ msgs |}.

(** The two statements [result.valid = false; result.errors.push(msg)] *)
Definition fail (msg : string) (r : ValidationResult) : ValidationResult :=
  pushErrors [msg] (setInvalid r).

Definition warn (msg : string) (r : ValidationResult) : ValidationResult :=
  pushWarnings [msg] r.

(** The guard [!x || typeof x !== 'string'] fails exactly on a non-empty
    string, which the match below selects. *)
Definition validateApiKey (apiKey : value) (provider : string)
  : ValidationResult :=
  let result := fresh in
  match apiKey with
  | Str (String _ _ as key) =>
      let trimmedKey := trim key in
      if len trimmedKey =? 0 then fail "API key cannot be empty" result
      else
        let result :=
          if len trimmedKey <? VALIDATION_RULES.API_KEY.MIN_LENGTH then
            fail ("API key must be at least "
                    ++ toString VALIDATION_RULES.API_KEY.MIN_LENGTH
                    ++ " characters long") result
          else result in
        let result :=
          if len trimmedKey >? VALIDATION_RULES.API_KEY.MAX_LENGTH then
            fail ("API key must be no more than "
                    ++ toString VALIDATION_RULES.API_KEY.MAX_LENGTH
                    ++ " characters long") result
          else result in
        if String.eqb provider "openai" then
          if negb (startsWith "sk-" trimmedKey) then
            warn ("OpenAI API keys typically start with "
                    ++ String DQUOTE ("sk-" ++ String DQUOTE "")) result
          else result
        else if String.eqb provider "anthropic" then
          if negb (startsWith "sk-ant-" trimmedKey) then
            warn ("Anthropic API keys typically start with "
                    ++ String DQUOTE ("sk-ant-" ++ String DQUOTE "")) result
          else result
        else if String.eqb provider "google" then
          if len trimmedKey <? 20 then
            warn "Google API keys are typically longer than 20 characters" result
          else result
        else result
  | _ => fail "API key is required" result
  end.

Definition validateModelName (modelName : value) (provider : string)
  : ValidationResult :=
  let result := fresh in
  match modelName with
  | Str (String _ _ as name) =>
      let trimmedName := trim name in
      if len trimmedName =? 0 then fail "Model name cannot be empty" result
      else
        let result :=
          if len trimmedName <? VALIDATION_RULES.MODEL_NAME.MIN_LENGTH then
            fail ("Model name must be at least "
                    ++ toString VALIDATION_RULES.MODEL_NAME.MIN_LENGTH
                    ++ " character long") result
          else result in
        let result :=
          if len trimmedName >? VALIDATION_RULES.MODEL_NAME.MAX_LENGTH then
            fail ("Model name must be no more than "
                    ++ toString VALIDATION_RULES.MODEL_NAME.MAX_LENGTH
                    ++ " characters long") result
          else result in
        if String.eqb provider "openai" then
          if negb (includes "gpt" trimmedName) then
            warn ("OpenAI models typically contain "
                    ++ String DQUOTE ("gpt" ++ String DQUOTE " in the name")) result
          else result
        else if String.eqb provider "anthropic" then
          if negb (includes "claude" trimmedName) then
            warn ("Anthropic models typically contain "
                    ++ String DQUOTE ("claude" ++ String DQUOTE " in the name")) result
          else result
        else if String.eqb provider "google" then
          if negb (includes "gemini" trimmedName) then
            warn ("Google models typically contain "
                    ++ String DQUOTE ("gemini" ++ String DQUOTE " in the name")) result
          else result
        else result
  | _ => fail "Model name is required" result
  end.

Definition validatePrompt (prompt : value) (isRefinementPrompt : bool)
  : ValidationResult :=
  let result := fresh in
  match prompt with
  | Str (String _ _ as text) =>
      let trimmedPrompt := trim text in
      if len trimmedPrompt =? 0 then fail "Prompt cannot be empty" result
      else
        let MIN_LENGTH :=
          if isRefinementPrompt then VALIDATION_RULES.REFINE_PROMPT.MIN_LENGTH
          else VALIDATION_RULES.PROMPT.MIN_LENGTH in
        let MAX_LENGTH :=
          if isRefinementPrompt then VALIDATION_RULES.REFINE_PROMPT.MAX_LENGTH
          else VALIDATION_RULES.PROMPT.MAX_LENGTH in
        let result :=
          if len trimmedPrompt <? MIN_LENGTH then
            fail ("Prompt must be at least " ++ toString MIN_LENGTH
                    ++ " characters long") result
          else result in
        let result :=
          if len trimmedPrompt >? MAX_LENGTH then
            fail ("Prompt must be no more than " ++ toString MAX_LENGTH
                    ++ " characters long") result
          else result in
        if isRefinementPrompt then
          fold_left
            (fun result placeholder =>
               if negb (includes placeholder trimmedPrompt) then
                 fail ("Refinement prompt must contain placeholder: "
                         ++ placeholder) result
               else result)
            VALIDATION_RULES.REFINE_PROMPT.REQUIRED_PLACEHOLDERS result
        else
          if negb (includes VALIDATION_RULES.PROMPT.REQUIRED_PLACEHOLDER
                     trimmedPrompt) then
            fail ("Prompt must contain placeholder: "
                    ++ VALIDATION_RULES.PROMPT.REQUIRED_PLACEHOLDER) result
          else result
  | _ => fail "Prompt is required" result
  end.

(** The double nearest to the literal 0.9, as an exact fraction. *)
Definition double_0_9 : number :=
  Finite (8106479329266893 # 9007199254740992).

(** The limits print as 0 and 1 in the two messages. *)
Definition validateTemperature (temperature : value) : ValidationResult :=
  let result := fresh in
  match temperature with
  | Num t =>
      if isNaN t then fail "Temperature must be a number" result
      else
        let result :=
          if ltb t MODEL_CONFIG.MIN_TEMPERATURE then
            fail "Temperature must be at least 0" result
          else result in
        let result :=
          if gtb t MODEL_CONFIG.MAX_TEMPERATURE then
            fail "Temperature must be no more than 1" result
          else result in
        if eqb t (ofZ 0) then
          warn "Temperature of 0 will produce very predictable results" result
        else if geb t double_0_9 then
          warn "High temperature values may produce inconsistent results" result
        else result
  | _ => fail "Temperature must be a number" result
  end.

Definition validateMaxTitleLength (length : value) : ValidationResult :=
  let result := fresh in
  match length with
  | Num n =>
      if isNaN n || negb (isInteger n) then
        fail "Max title length must be a whole number" result
      else
        let result :=
          if ltb n (ofZ TITLE_CONFIG.MIN_MAX_LENGTH) then
            fail ("Max title length must be at least "
                    ++ toString TITLE_CONFIG.MIN_MAX_LENGTH) result
          else result in
        let result :=
          if gtb n (ofZ TITLE_CONFIG.MAX_MAX_LENGTH) then
            fail ("Max title length must be no more than "
                    ++ toString TITLE_CONFIG.MAX_MAX_LENGTH) result
          else result in
        if ltb n (ofZ 30) then
          warn "Short titles may not be descriptive enough" result
        else if gtb n (ofZ 100) then
          warn "Long titles may not be suitable for all file systems" result
        else result
  | _ => fail "Max title length must be a whole number" result
  end.

Definition validateMaxContentLength (length : value) : ValidationResult :=
  let result := fresh in
  match length with
  | Num n =>
      if isNaN n || negb (isInteger n) then
        fail "Max content length must be a whole number" result
      else
        let result :=
          if ltb n (ofZ TITLE_CONFIG.MIN_MAX_CONTENT_LENGTH) then
            fail ("Max content length must be at least "
                    ++ toString TITLE_CONFIG.MIN_MAX_CONTENT_LENGTH) result
          else result in
        let result :=
          if gtb n (ofZ TITLE_CONFIG.MAX_MAX_CONTENT_LENGTH) then
            fail ("Max content length must be no more than "
                    ++ toString TITLE_CONFIG.MAX_MAX_CONTENT_LENGTH) result
          else result in
        if ltb n (ofZ 500) then
          warn "Very short content may not provide enough context for good titles" result
        else if gtb n (ofZ 5000) then
          warn "Very long content may increase API costs significantly" result
        else result
  | _ => fail "Max content length must be a whole number" result
  end.

Definition unknownProvider (provider : string) : exn :=
  TitleGeneratorError ("Unknown provider: " ++ provider)
    "UNKNOWN_PROVIDER" "Unknown AI provider".

Definition getApiKeyField (provider : string) : result string :=
  if String.eqb provider "openai" then Ok "openAiApiKey"
  else if String.eqb provider "anthropic" then Ok "anthropicApiKey"
  else if String.eqb provider "google" then Ok "googleApiKey"
  else Throw (unknownProvider provider).

Definition getModelField (provider : string) : result string :=
  if String.eqb provider "openai" then Ok "openAiModel"
  else if String.eqb provider "anthropic" then Ok "anthropicModel"
  else if String.eqb provider "google" then Ok "googleModel"
  else Throw (unknownProvider provider).

(** The block repeated after each sub-validation: append its errors and
    warnings, and clear [valid] when it is invalid. *)
Definition merge (sub : ValidationResult) (result : ValidationResult)
  : ValidationResult :=
  let result := pushErrors (errors sub) result in
  let result := pushWarnings (warnings sub) result in
  if negb (valid sub) then setInvalid result else result.

Definition validateSettings (settings : TitleGeneratorSettings)
  : result ValidationResult :=
  let result := fresh in
  let provider := aiProvider settings in
  bind (getApiKeyField provider) (fun apiKeyField =>
  let apiKey := settingsGet settings apiKeyField in
  let result :=
    if truthy apiKey then merge (validateApiKey apiKey provider) result
    else fail (toUpperCase provider ++ " API key is required") result in
  bind (getModelField provider) (fun modelField =>
  let model := settingsGet settings modelField in
  let result :=
    if truthy model then merge (validateModelName model provider) result
    else fail (toUpperCase provider ++ " model is required") result in
  let result :=
    merge (validatePrompt (Str (customPrompt settings)) false) result in
  let result :=
    merge (validatePrompt (Str (refinePrompt settings)) true) result in
  let result :=
    merge (validateTemperature (Num (temperature settings))) result in
  let result :=
    merge (validateMaxTitleLength (Num (ofZ (maxTitleLength settings)))) result in
  let result :=
    merge (validateMaxContentLength (Num (ofZ (maxContentLength settings)))) result in
  Ok result)).

Definition isQuote (c : ascii) : bool :=
  Ascii.eqb c "'" || Ascii.eqb c DQUOTE.

Fixpoint escapeAmpersands (s : string) : string :=
  match s with
  | EmptyString => EmptyString
  | String c s' =>
      if Ascii.eqb c "&" then "&amp;" ++ escapeAmpersands s'
      else String c (escapeAmpersands s')
  end.

Definition sanitizeInput (input : value) : string :=
  match input with
  | Str (String _ _ as text) =>
      trim
        (removeChars isQuote
           (escapeAmpersands
              (removeChars (fun c => Ascii.eqb c "<" || Ascii.eqb c ">") text)))
  | _ => ""
  end.

(** [s.replace(/\s+/g, ' ')]: each maximal run of white space becomes one
    space; [inRun] tells that the previous character was white space. *)
Fixpoint collapseWhiteSpace (inRun : bool) (s : string) : string :=
  match s with
  | EmptyString => EmptyString
  | String c s' =>
      if isWhiteSpace c then
        if inRun then collapseWhiteSpace true s'
        else String " " (collapseWhiteSpace true s')
      else String c (collapseWhiteSpace false s')
  end.

Definition isSpaceOrDot (c : ascii) : bool :=
  Ascii.eqb c " " || Ascii.eqb c ".".

Definition sanitizeFilename (filename : value) : string :=
  match filename with
  | Str (String _ _ as name) =>
      let safe := removeChars TITLE_CONFIG.FORBIDDEN_CHARS name in
      let safe := trim (collapseWhiteSpace false safe) in
      let safe := dropWhileEnd isSpaceOrDot (dropWhileStart isSpaceOrDot safe) in
      if len safe >? 0 then safe else TITLE_CONFIG.FALLBACK_TITLE
  | _ => TITLE_CONFIG.FALLBACK_TITLE
  end.

(** [response.choices[0].message?.content] and its siblings: the first
    element is dereferenced without a guard, the later links with [?.]. *)
Definition validateApiResponse (response : json) (provider : string)
  : result ValidationResult :=
  let result := fresh in
  if negb (Json.truthy response) then Ok (fail "API response is empty" result)
  else if String.eqb provider "openai" then
    bind (Json.getProp response "choices") (fun choices =>
    match Json.asArray choices with
    | Some (first :: _) =>
        bind (Json.getProp first "message") (fun message =>
        bind (if Json.nullish message then Ok JUndefined
              else Json.getProp message "content") (fun content =>
        if negb (Json.truthy content) then
          Ok (fail "OpenAI response missing content" result)
        else Ok result))
    | _ => Ok (fail "Invalid OpenAI response format" result)
    end)
  else if String.eqb provider "anthropic" then
    bind (Json.getProp response "content") (fun content =>
    match Json.asArray content with
    | Some (first :: _) =>
        bind (Json.getProp first "text") (fun text =>
        if negb (Json.truthy text) then
          Ok (fail "Anthropic response missing text" result)
        else Ok result)
    | _ => Ok (fail "Invalid Anthropic response format" result)
    end)
  else if String.eqb provider "google" then
    bind (Json.getProp response "candidates") (fun candidates =>
    match Json.asArray candidates with
    | Some (first :: _) =>
        bind (Json.getProp first "content") (fun content =>
        bind (if Json.nullish content then Ok JUndefined
              else Json.getProp content "parts") (fun parts =>
        bind (if Json.nullish parts then Ok JUndefined
              else match Json.asArray parts with
                   | Some items =>
                       Json.find
                         (fun p =>
                            bind (Json.getProp p "text") (fun text =>
                            if Json.truthy text then
                              bind (Json.getProp p "thought") (fun thought =>
                              Ok (negb (Json.truthy thought)))
                            else Ok false))
                         items
                   | None => Throw (TypeError "find is not a function")
                   end) (fun part =>
        if negb (Json.truthy part) then
          Ok (fail "Google response missing text" result)
        else Ok result)))
    | _ => Ok (fail "Invalid Google response format" result)
    end)
  else Ok result.

End ValidationService.

(** ** Helpers of [src/utils.ts] *)

(** Modelled from the spec: [truncateTitle] of [src/utils.ts] is imported by
    [aiService.ts] but its source is not part of the modelled files.  The
    specification calls it a final hard truncation safeguard to the
    configured max length: the title is cut to its first [maxLength]
    characters, and a title already within the bound is returned as it is. *)
Definition truncateTitle (title : string) (maxLength : Z) : string :=
  JS.take (Z.to_nat maxLength) title.

(** Modelled from the spec: [sanitizeFilename] of [src/utils.ts] is imported
    by [aiService.ts] but its source is not part of the modelled files.  The
    specification names it the forbidden-character sanitation of the
    validation service, whose source is modelled above. *)
Definition sanitizeFilename (title : string) : string :=
  ValidationService.sanitizeFilename (JS.Str title).

(** ** The AI service ([src/aiService.ts]) *)

(** What the transport hands back to an adapter: the status code, the raw
    body, and what the adapter's reading of the parsed body yields (the
    extracted text, or the exception raised on a malformed body). *)
Record HttpResponse : Type := {
  status : Z;
  text : string;
  extracted : JS.result string
}.

(** [requestUrl]: the outcome of the n-th request (counted from 0) carrying
    the given full prompt; [Throw] when the request itself is rejected. *)
Definition Transport : Type := nat -> string -> JS.result HttpResponse.

(** Effects of the service that a caller can observe. *)
Record World : Type := {
  notices : list (string * option Z);   (* message, duration *)
  calls : list (string * string);       (* prompt and content of each callAI *)
  requests : list string                (* full prompt of each request sent *)
}.

Definition emptyWorld : World :=
  {| notices := []; calls := []; requests := [] |}.

Module AIService.
Import JS.

(** State and exceptions: a computation maps the world to an outcome and
    the world after it; effects made before a throw persist. *)
Definition M (A : Type) : Type := World -> result A * World.

Definition ret {A : Type} (a : A) : M A := fun w => (Ok a, w).

Definition throw {A : Type} (e : exn) : M A := fun w => (Throw e, w).

Definition bindM {A B : Type} (c : M A) (k : A -> M B) : M B :=
  fun w =>
    match c w with
    | (Ok a, w') => k a w'
    | (Throw e, w') => (Throw e, w')
    end.

(** [try { body } catch (error) { handler }] *)
Definition tryCatch {A : Type} (body : M A) (handler : exn -> M A) : M A :=
  fun w =>
    match body w with
    | (Ok a, w') => (Ok a, w')
    | (Throw e, w') => handler e w'
    end.

Declare Scope ai_scope.
Delimit Scope ai_scope with ai.
Notation "x <- c ;; k" := (bindM c (fun x => k))
  (at level 61, c at next level, right associativity) : ai_scope.
Notation "c ;; k" := (bindM c (fun _ => k))
  (at level 61, right associativity) : ai_scope.
Local Open Scope ai_scope.

(** [new Notice(message, duration)] *)
Definition Notice (message : string) (duration : option Z) : M unit :=
  fun w =>
    (Ok tt, {| notices := notices w ++ [(message, duration)];
               calls := calls w;
               requests := requests w |}).

Definition logCall (prompt content : string) : M unit :=
  fun w =>
    (Ok tt, {| notices := notices w;
               calls := calls w ++ [(prompt, content)];
               requests := requests w |}).

(** [await requestUrl(...)]: the request is recorded and the transport
    answers it. *)
Definition requestUrl (transport : Transport) (fullPrompt : string)
  : M HttpResponse :=
  fun w =>
    (transport (List.length (requests w)) fullPrompt,
     {| notices := notices w;
        calls := calls w;
        requests := requests w ++ [fullPrompt] |}).

Definition liftResult {A : Type} (r : result A) : M A := fun w => (r, w).

Section Service.
Variable settings : TitleGeneratorSettings.
Variable transport : Transport.

Definition isConfigurationValid : M bool :=
  let provider := aiProvider settings in
  if String.eqb provider "openai" then
    if isEmpty (trim (openAiApiKey settings)) then
      Notice "OpenAI API key is not set. Please configure it in plugin settings." (Some 8000) ;;
      ret false
    else if isEmpty (openAiModel settings) then
      Notice "OpenAI model is not selected. Please select a model in the plugin settings." (Some 8000) ;;
      ret false
    else ret true
  else if String.eqb provider "anthropic" then
    if isEmpty (trim (anthropicApiKey settings)) then
      Notice "Anthropic API key is not set. Please configure it in plugin settings." (Some 8000) ;;
      ret false
    else if isEmpty (anthropicModel settings) then
      Notice "Anthropic model is not selected. Please select a model in the plugin settings." (Some 8000) ;;
      ret false
    else ret true
  else if String.eqb provider "google" then
    if isEmpty (trim (googleApiKey settings)) then
      Notice "Google Gemini API key is not set. Please configure it in plugin settings." (Some 8000) ;;
      ret false
    else if isEmpty (googleModel settings) then
      Notice "Google Gemini model is not selected. Please select a model in the plugin settings." (Some 8000) ;;
      ret false
    else ret true
  else
    Notice "Invalid AI provider selected. Please check plugin settings." (Some 5000) ;;
    ret false.

(** The part the three adapters share: the key guard, the request, the
    status check and the reading of the body.  [keyError] and [apiName]
    are the provider's two message prefixes. *)
Definition callProvider (apiKey keyError apiName fullPrompt : string)
  : M string :=
  if isEmpty apiKey then throw (Error keyError)
  else
    response <- requestUrl transport fullPrompt ;;
    if negb (status response =? 200) then
      throw (Error (apiName ++ " API error (" ++ toString (status response)
                      ++ "): " ++ text response))
    else liftResult (extracted response).

Definition callOpenAI (prompt : string) : M string :=
  callProvider (openAiApiKey settings) "OpenAI API key is not set."
    "OpenAI" prompt.

Definition callAnthropic (prompt : string) : M string :=
  callProvider (anthropicApiKey settings) "Anthropic API key is not set."
    "Anthropic" prompt.

(** The reading of the body includes, for Google, the empty answer given
    for a response without content; the notice shown when such a response
    was blocked for safety is not recorded. *)
Definition callGoogle (prompt : string) : M string :=
  callProvider (googleApiKey settings) "Google Gemini API key is not set."
    "Google Gemini" prompt.

Definition callAI (prompt content : string) : M string :=
  logCall prompt content ;;
  let fullPrompt := trim (prompt ++ String LF (String LF content)) in
  let provider := aiProvider settings in
  if String.eqb provider "openai" then callOpenAI fullPrompt
  else if String.eqb provider "anthropic" then callAnthropic fullPrompt
  else if String.eqb provider "google" then callGoogle fullPrompt
  else throw (Error "Unsupported AI provider selected.").

End Service.

(** *** The response cleaner *)

(** The [match] against the anchored think-block regex (opening tag at
    the start, closing tag at the end, one greedy group of any characters
    between them): the captured group, when the text opens with the
    opening tag and what follows it closes with the closing tag. *)
Definition thinkMatch (text : string) : option string :=
  if startsWith "<think>" text then
    let rest := drop 7 text in
    if endsWith "</think>" rest then
      Some (take (String.length rest - 8) rest)
    else None
  else None.

(** The global [replace] of the lazy think-block regex by the empty
    string: scanning from the left, an opening tag together with
    everything up to the nearest closing tag after it is removed; [skip]
    counts the characters of the block still to drop.  An opening tag with
    no closing tag after it stays. *)
Fixpoint removeThinkBlocks (skip : nat) (text : string) : string :=
  match text with
  | EmptyString => EmptyString
  | String c rest =>
      match skip with
      | S skip' => removeThinkBlocks skip' rest
      | O =>
          if startsWith "<think>" text then
            match indexOf "</think>" (drop 7 text) with
            | Some inner => removeThinkBlocks (6 + inner + 8) rest
            | None => String c (removeThinkBlocks 0 rest)
            end
          else String c (removeThinkBlocks 0 rest)
      end
  end.

Definition labelPatterns : list string :=
  ["Title:"; "Generated title:"; "Suggested title:"; "The title:";
   "A title:"; "Here's the title:"].

Definition preamblePatterns : list string :=
  labelPatterns ++ ["Sure, here"; "I'll"; "I would"; "Based on"].

(** The [test] of the preamble regex, anchored at the start of the line
    and case-insensitive. *)
Definition isPreamble (line : string) : bool :=
  existsb (fun p => startsWithCI p line) preamblePatterns.

(** The [replace] of the anchored label regex by the empty string: the
    first alternative that matches is dropped with the white space after
    it. *)
Definition stripLabel (line : string) : string :=
  match List.find (fun p => startsWithCI p line) labelPatterns with
  | Some p => dropWhileStart isWhiteSpace (drop (String.length p) line)
  | None => line
  end.

Definition isQuote (c : ascii) : bool :=
  Ascii.eqb c DQUOTE || Ascii.eqb c "'".

(** The non-empty trimmed lines of the working text. *)
Definition candidateLines (textToClean : string) : list string :=
  filter (fun line => len line >? 0) (map trim (split LF textToClean)).

(** The loop over the lines followed by the fall-back to the first line. *)
Definition selectCandidate (lines : list string) : string :=
  let bestCandidate :=
    match List.find (fun line => negb (isPreamble line)) lines with
    | Some line => line
    | None => ""
    end in
  match lines with
  | first :: _ => if isEmpty bestCandidate then first else bestCandidate
  | [] => bestCandidate
  end.

(** The unwrapping of a response that is one think block: the interior,
    trimmed, when the anchored regex matches and its group is non-empty. *)
Definition unwrapThink (textToClean : string) : string :=
  match thinkMatch textToClean with
  | Some inner => if isEmpty inner then textToClean else trim inner
  | None => textToClean
  end.

(** The final polish of the selected candidate. *)
Definition polish (bestCandidate : string) : string :=
  let finalTitle := stripLabel bestCandidate in
  let finalTitle := removeChars isQuote finalTitle in
  trim finalTitle.

(** Everything after the unwrapping: the remaining think blocks are
    removed, a line is selected and polished. *)
Definition extractTitle (textToClean : string) : string :=
  let textToClean := trim (removeThinkBlocks 0 textToClean) in
  let lines := candidateLines textToClean in
  polish (selectCandidate lines).

Definition cleanAIResponse (response : string) : string :=
  if isEmpty response then ""
  else extractTitle (unwrapThink (trim response)).

(** *** The orchestrator *)

Section Orchestrator.
Variable settings : TitleGeneratorSettings.
Variable transport : Transport.

Definition maxAttempts : nat := 3.

Definition initialPrompt : string :=
  replace (customPrompt settings) "{max_length}"
    (toString (maxTitleLength settings)).

Definition refinementPrompt (title : string) : string :=
  replace
    (replace (refinePrompt settings) "{max_length}"
       (toString (maxTitleLength settings)))
    "{title}" title.

Definition isValidTitle (title : string) : bool :=
  (len title >? 0) && (len title <=? maxTitleLength settings).

(** The [for] loop from [attempt] on, with [remaining] iterations left
    before [attempt] exceeds [maxAttempts]; [title] is the loop
    variable declared before the loop. *)
Fixpoint attemptLoop (content : string) (remaining : nat) (attempt : Z)
  (title : string) : M string :=
  match remaining with
  | O => ret title
  | S remaining' =>
      request <-
        (if attempt =? 1 then ret (initialPrompt, content)
         else
           Notice ("Title still too long. Refining... (Attempt "
                     ++ toString attempt ++ ")") None ;;
           ret (refinementPrompt title, "")) ;;
      rawTitle <- callAI settings transport (fst request) (snd request) ;;
      let title := cleanAIResponse rawTitle in
      if isValidTitle title then ret title
      else attemptLoop content remaining' (attempt + 1) title
  end.

(** The final processing after the loop. *)
Definition postProcess (title : string) : string :=
  let processedTitle := title in
  let processedTitle :=
    if lowerCaseTitles settings then toLowerCase processedTitle
    else processedTitle in
  let processedTitle :=
    if removeForbiddenChars settings then sanitizeFilename processedTitle
    else processedTitle in
  truncateTitle processedTitle (maxTitleLength settings).

(** The [catch] block.  Its first test calls [includes] on
    [error.message]: for a thrown value without a message that call
    throws, out of the block. *)
Definition onError (error : exn) : M string :=
  match message_of error with
  | None =>
      throw (TypeError "Cannot read properties of undefined (reading 'includes')")
  | Some message =>
      (if includes "API key is not set" message then
         Notice ("Please set your " ++ toUpperCase (aiProvider settings)
                   ++ " API key in plugin settings.") (Some 8000)
       else if includes "API error" message then
         Notice ("AI service error: " ++ message
                   ++ ". Check your API key and internet connection.")
           (Some 6000)
       else
         Notice ("Title generation failed: " ++ message) (Some 5000)) ;;
      ret ""
  end.

Definition generateTitle (noteContent : string) : M string :=
  configurationValid <- isConfigurationValid settings ;;
  if negb configurationValid then ret ""
  else
    let content := slice0 noteContent (maxContentLength settings) in
    tryCatch
      (title <- attemptLoop content maxAttempts 1 "" ;;
       ret (postProcess title))
      onError.

(** [makeAICall(prompt, content)] *)
Definition makeAICall (prompt content : string) : M string :=
  callAI settings transport prompt content.

End Orchestrator.

End AIService.

(** ** Vocabulary of the statements *)

Section Vocabulary.
Import JS AIService.

(** The full prompt [callAI] builds from a prompt and a content. *)
Definition fullPrompt (prompt content : string) : string :=
  trim (prompt ++ String LF (String LF content)).

(** A provider that answers every request: status 200 and a body from
    which the adapter extracts [answer n p] for the n-th request with full
    prompt [p]. *)
Definition respond (answer : nat -> string -> string) : Transport :=
  fun n p => Ok {| status := 200; text := ""; extracted := Ok (answer n p) |}.

(** A scripted provider: the n-th request is answered with the n-th
    text of the script. *)
Definition scripted (script : list string) : Transport :=
  respond (fun n _ => nth n script "").

(** The outcome of a request makes the adapter throw: the request is
    rejected, the status is not 200, or the body cannot be read. *)
Definition failed (outcome : result HttpResponse) : bool :=
  match outcome with
  | Throw _ => true
  | Ok response =>
      negb (status response =? 200)
      || match extracted response with Throw _ => true | Ok _ => false end
  end.

(** The thrown value carries a string message, as every [Error] does. *)
Definition hasMessage (e : exn) : bool :=
  match message_of e with Some _ => true | None => false end.

(** Whatever the outcome of a request makes the adapter throw carries a
    message: the rejection of the request and the failure to read the body
    are errors with a message (the status error always is one). *)
Definition messageBearing (outcome : result HttpResponse) : bool :=
  match outcome with
  | Throw e => hasMessage e
  | Ok response =>
      match extracted response with Throw e => hasMessage e | Ok _ => true end
  end.

(** The name an adapter puts in front of its status error. *)
Definition apiName (provider : string) : string :=
  if String.eqb provider "openai" then "OpenAI"
  else if String.eqb provider "anthropic" then "Anthropic"
  else "Google Gemini".

(** What an adapter makes of the outcome of its request. *)
Definition adapterOutcome (provider : string) (outcome : result HttpResponse)
  : result string :=
  match outcome with
  | Throw e => Throw e
  | Ok response =>
      if negb (status response =? 200) then
        Throw (Error (apiName provider ++ " API error ("
                        ++ toString (status response) ++ "): " ++ text response))
      else extracted response
  end.

(** The world after one more [callAI]. *)
Definition afterCall (prompt content : string) (w : World) : World :=
  {| notices := notices w;
     calls := calls w ++ [(prompt, content)];
     requests := requests w ++ [fullPrompt prompt content] |}.

(** The world after one more notice. *)
Definition afterNotice (message : string) (duration : option Z) (w : World)
  : World :=
  {| notices := notices w ++ [(message, duration)];
     calls := calls w;
     requests := requests w |}.

(** The prompt, the content and the notice of an attempt, given the title
    of the attempt before it. *)
Definition attemptPrompt (settings : TitleGeneratorSettings) (attempt : Z)
  (title : string) : string :=
  if attempt =? 1 then initialPrompt settings
  else refinementPrompt settings title.

Definition attemptContent (content : string) (attempt : Z) : string :=
  if attempt =? 1 then content else "".

Definition beforeAttempt (attempt : Z) (w : World) : World :=
  if attempt =? 1 then w
  else afterNotice ("Title still too long. Refining... (Attempt "
                      ++ toString attempt ++ ")") None w.

(** The cleaned titles of the three attempts against a provider that
    answers every request, starting from the empty world: each refinement
    prompt is built from the title of the attempt before it. *)
Definition title1 (settings : TitleGeneratorSettings)
  (answer : nat -> string -> string) (content : string) : string :=
  cleanAIResponse (answer 0%nat (fullPrompt (initialPrompt settings) content)).

Definition title2 (settings : TitleGeneratorSettings)
  (answer : nat -> string -> string) (content : string) : string :=
  cleanAIResponse
    (answer 1%nat
       (fullPrompt (refinementPrompt settings (title1 settings answer content)) "")).

Definition title3 (settings : TitleGeneratorSettings)
  (answer : nat -> string -> string) (content : string) : string :=
  cleanAIResponse
    (answer 2%nat
       (fullPrompt (refinementPrompt settings (title2 settings answer content)) "")).

(** The template holds no dollar sign. *)
Fixpoint noDollar (template : string) : bool :=
  match template with
  | EmptyString => true
  | String c rest => negb (Ascii.eqb c "$") && noDollar rest
  end.

(** The precondition of [generateTitle], read off [isConfigurationValid]. *)
Definition configurationValid (settings : TitleGeneratorSettings) : Prop :=
  fst (isConfigurationValid settings emptyWorld) = Ok true.

(** The active provider's key is absent or blank, or its model is absent. *)
Definition keyOrModelMissing (settings : TitleGeneratorSettings) : Prop :=
  (aiProvider settings = "openai"
   /\ (trim (openAiApiKey settings) = "" \/ openAiModel settings = ""))
  \/ (aiProvider settings = "anthropic"
      /\ (trim (anthropicApiKey settings) = "" \/ anthropicModel settings = ""))
  \/ (aiProvider settings = "google"
      /\ (trim (googleApiKey settings) = "" \/ googleModel settings = "")).

(** The tags of the closed provider enumeration. *)
Definition knownProvider (provider : string) : Prop :=
  provider = "openai" \/ provider = "anthropic" \/ provider = "google".

(** A result is consistent when it is valid exactly when it has no
    error. *)
Definition consistent (r : ValidationResult) : Prop :=
  valid r = true <-> errors r = [].

(** The same for an operation that may throw: whatever it returns is
    consistent. *)
Definition consistentOutcome (o : result ValidationResult) : Prop :=
  match o with
  | Ok r => consistent r
  | Throw _ => True
  end.

End Vocabulary.

(** ** Sample inputs *)

Module Sample.
Import JS.

Definition settings : TitleGeneratorSettings :=
  {| aiProvider := "openai";
     openAiApiKey := "sk-0123456789abcdef";
     anthropicApiKey := "";
     googleApiKey := "";
     openAiModel := "gpt-4.1";
     anthropicModel := "claude-sonnet-4-5";
     googleModel := "gemini-2.5-flash";
     lowerCaseTitles := false;
     removeForbiddenChars := true;
     customPrompt := "Create a concise title for this text. Maximum {max_length} characters.";
     temperature := Finite (3 # 10);
     maxTitleLength := 20;
     maxContentLength := 2000;
     refinePrompt := "Make this title shorter (under {max_length} characters): {title}. Respond with ONLY the new title." |}.

Definition withProvider (provider : string) (s : TitleGeneratorSettings)
  : TitleGeneratorSettings :=
  {| aiProvider := provider;
     openAiApiKey := openAiApiKey s;
     anthropicApiKey := anthropicApiKey s;
     googleApiKey := googleApiKey s;
     openAiModel := openAiModel s;
     anthropicModel := anthropicModel s;
     googleModel := googleModel s;
     lowerCaseTitles := lowerCaseTitles s;
     removeForbiddenChars := removeForbiddenChars s;
     customPrompt := customPrompt s;
     temperature := temperature s;
     maxTitleLength := maxTitleLength s;
     maxContentLength := maxContentLength s;
     refinePrompt := refinePrompt s |}.

Definition withMaxTitleLength (n : Z) (s : TitleGeneratorSettings)
  : TitleGeneratorSettings :=
  {| aiProvider := aiProvider s;
     openAiApiKey := openAiApiKey s;
     anthropicApiKey := anthropicApiKey s;
     googleApiKey := googleApiKey s;
     openAiModel := openAiModel s;
     anthropicModel := anthropicModel s;
     googleModel := googleModel s;
     lowerCaseTitles := lowerCaseTitles s;
     removeForbiddenChars := removeForbiddenChars s;
     customPrompt := customPrompt s;
     temperature := temperature s;
     maxTitleLength := n;
     maxContentLength := maxContentLength s;
     refinePrompt := refinePrompt s |}.

Definition withPrompts (custom refine : string) (s : TitleGeneratorSettings)
  : TitleGeneratorSettings :=
  {| aiProvider := aiProvider s;
     openAiApiKey := openAiApiKey s;
     anthropicApiKey := anthropicApiKey s;
     googleApiKey := googleApiKey s;
     openAiModel := openAiModel s;
     anthropicModel := anthropicModel s;
     googleModel := googleModel s;
     lowerCaseTitles := lowerCaseTitles s;
     removeForbiddenChars := removeForbiddenChars s;
     customPrompt := custom;
     temperature := temperature s;
     maxTitleLength := maxTitleLength s;
     maxContentLength := maxContentLength s;
     refinePrompt := refine |}.

Definition withOpenAiKey (key : string) (s : TitleGeneratorSettings)
  : TitleGeneratorSettings :=
  {| aiProvider := aiProvider s;
     openAiApiKey := key;
     anthropicApiKey := anthropicApiKey s;
     googleApiKey := googleApiKey s;
     openAiModel := openAiModel s;
     anthropicModel := anthropicModel s;
     googleModel := googleModel s;
     lowerCaseTitles := lowerCaseTitles s;
     removeForbiddenChars := removeForbiddenChars s;
     customPrompt := customPrompt s;
     temperature := temperature s;
     maxTitleLength := maxTitleLength s;
     maxContentLength := maxContentLength s;
     refinePrompt := refinePrompt s |}.

Definition note : string := "Quarterly numbers and the plan for next year.".

(** A negative maximum, as the settings tab stores it from [parseInt]. *)
Definition negativeMax : TitleGeneratorSettings :=
  withMaxTitleLength (-1) settings.

(** Both placeholders twice. *)
Definition repeatedPlaceholders : TitleGeneratorSettings :=
  withPrompts "At most {max_length} characters, I said {max_length}."
    "Shorten {title} to {max_length}; not {title}, under {max_length}."
    settings.

(** A provider whose first answer is too long and whose second request
    comes back with status 500. *)
Definition failingSecond : Transport :=
  fun n _ =>
    if (n =? 0)%nat then
      Ok {| status := 200; text := "";
            extracted := Ok "A title that is much too long for the bound" |}
    else
      Ok {| status := 500; text := "Internal error"; extracted := Ok "" |}.

(** A provider whose requests are rejected with a string, not with an
    [Error]. *)
Definition rejecting : Transport :=
  fun _ _ => Throw (Thrown (Str "Request failed")).

(** A first answer that is too long and holds two dollar signs in a row,
    then a short one. *)
Definition dollarScript : list string :=
  ["How to save $$ on your monthly bills"; "Save on bills"].

End Sample.


(** ** The settings tab ([src/settings.ts]) *)

Module SettingsTab.
Import JS.

(** [hasValidConfiguration(provider)] *)
Definition hasValidConfiguration (settings : TitleGeneratorSettings)
  (provider : string) : bool :=
  if String.eqb provider "openai" then
    negb (isEmpty (trim (openAiApiKey settings)))
  else if String.eqb provider "anthropic" then
    negb (isEmpty (trim (anthropicApiKey settings)))
  else if String.eqb provider "google" then
    negb (isEmpty (trim (googleApiKey settings)))
  else false.

(** [getTimeAgo(date)], with the current time and the date as epoch
    milliseconds; [Math.floor] of a quotient is the floor division of [Z],
    which is what the number arithmetic gives for the times of valid
    dates from 1970 on. *)
Definition getTimeAgo (now date : Z) : string :=
  let diffMs := now - date in
  let diffMins := diffMs / (1000 * 60) in
  if diffMins <? 1 then "just now"
  else if diffMins <? 60 then toString diffMins ++ "m ago"
  else
    let diffHours := diffMins / 60 in
    if diffHours <? 24 then toString diffHours ++ "h ago"
    else
      let diffDays := diffHours / 24 in
      toString diffDays ++ "d ago".

Definition isDigit (c : ascii) : bool := (48 <=? code c) && (code c <=? 57).

(** The value of the longest run of decimal digits at the start of [s],
    read from left to right on top of [acc]. *)
Fixpoint parseDigits (acc : Z) (s : string) : Z :=
  match s with
  | EmptyString => acc
  | String c rest =>
      if isDigit c then parseDigits (acc * 10 + (code c - 48)) rest else acc
  end.

Definition startsWithDigit (s : string) : bool :=
  match s with
  | String c _ => isDigit c
  | EmptyString => false
  end.

(** The double nearest to a whole number, itself a whole number: below
    2^53 in magnitude every whole number is a double; above, the
    significand keeps 53 bits and a tie goes to the even one; from 2^1024
    on the result is an infinity, for which [None] stands. *)
Definition roundToDouble (z : Z) : option Z :=
  let magnitude := Z.abs z in
  if magnitude <? 2 ^ 53 then Some z
  else
    let e := Z.log2 magnitude - 52 in
    let q := magnitude / 2 ^ e in
    let r := magnitude mod 2 ^ e in
    let half := 2 ^ (e - 1) in
    let q' :=
      if (half <? r) || ((r =? half) && Z.odd q) then q + 1 else q in
    if 2 ^ 1024 <=? q' * 2 ^ e then None else Some (Z.sgn z * (q' * 2 ^ e)).

(** What [parseInt] returns: NaN, a whole number that is a double, or an
    infinity. *)
Inductive parsedInt : Type :=
| ParsedNaN
| ParsedWhole (z : Z)
| ParsedInfinity (negative : bool).

Definition toParsed (negative : bool) (magnitude : Z) : parsedInt :=
  match roundToDouble magnitude with
  | Some z => ParsedWhole (if negative then - z else z)
  | None => ParsedInfinity negative
  end.

(** [parseInt(value, 10)]: leading white space is skipped, one sign is
    read, then the longest run of digits, whose value is rounded to a
    double; NaN is returned when no digit follows.  Every digit is read,
    as the engines do (the standard lets an implementation read the digits
    after the twentieth as zeros). *)
Definition parseInt (value : string) : parsedInt :=
  match dropWhileStart isWhiteSpace value with
  | String "-" rest =>
      if startsWithDigit rest then toParsed true (parseDigits 0 rest)
      else ParsedNaN
  | String "+" rest =>
      if startsWithDigit rest then toParsed false (parseDigits 0 rest)
      else ParsedNaN
  | s => if startsWithDigit s then toParsed false (parseDigits 0 s)
         else ParsedNaN
  end.

(** [settings.maxTitleLength = parsed] *)
Definition setMaxTitleLength (parsed : Z) (s : TitleGeneratorSettings)
  : TitleGeneratorSettings :=
  {| aiProvider := aiProvider s;
     openAiApiKey := openAiApiKey s;
     anthropicApiKey := anthropicApiKey s;
     googleApiKey := googleApiKey s;
     openAiModel := openAiModel s;
     anthropicModel := anthropicModel s;
     googleModel := googleModel s;
     lowerCaseTitles := lowerCaseTitles s;
     removeForbiddenChars := removeForbiddenChars s;
     customPrompt := customPrompt s;
     temperature := temperature s;
     maxTitleLength := parsed;
     maxContentLength := maxContentLength s;
     refinePrompt := refinePrompt s |}.

(** [settings.maxContentLength = parsed] *)
Definition setMaxContentLength (parsed : Z) (s : TitleGeneratorSettings)
  : TitleGeneratorSettings :=
  {| aiProvider := aiProvider s;
     openAiApiKey := openAiApiKey s;
     anthropicApiKey := anthropicApiKey s;
     googleApiKey := googleApiKey s;
     openAiModel := openAiModel s;
     anthropicModel := anthropicModel s;
     googleModel := googleModel s;
     lowerCaseTitles := lowerCaseTitles s;
     removeForbiddenChars := removeForbiddenChars s;
     customPrompt := customPrompt s;
     temperature := temperature s;
     maxTitleLength := maxTitleLength s;
     maxContentLength := parsed;
     refinePrompt := refinePrompt s |}.

(** The [onChange] handler of the max title length field: the settings
    after the field holds [value].  NaN is not stored; any other number
    is.  The settings record of this development holds whole numbers, so
    that the run in which an infinity is stored has no result here
    ([None]). *)
Definition onMaxTitleLengthChange (value : string) (s : TitleGeneratorSettings)
  : option TitleGeneratorSettings :=
  match parseInt value with
  | ParsedNaN => Some s
  | ParsedWhole parsed => Some (setMaxTitleLength parsed s)
  | ParsedInfinity _ => None
  end.

(** The [onChange] handler of the max content length field. *)
Definition onMaxContentLengthChange (value : string)
  (s : TitleGeneratorSettings) : option TitleGeneratorSettings :=
  match parseInt value with
  | ParsedNaN => Some s
  | ParsedWhole parsed => Some (setMaxContentLength parsed s)
  | ParsedInfinity _ => None
  end.

(** [m.toLowerCase().includes(filter.toLowerCase())] *)
Definition matchesFilter (filter model : string) : bool :=
  includes (toLowerCase filter) (toLowerCase model).

(** The array [availableModels] of [populateModelList] after the
    [unshift]: the models the model service hands over that match the
    filter, with the saved model put in front when it is set, is not among
    them and matches the filter. *)
Definition visibleModels (models : list string) (currentModel filter : string)
  : list string :=
  let availableModels := List.filter (matchesFilter filter) models in
  if negb (isEmpty currentModel)
     && negb (existsb (String.eqb currentModel) availableModels)
     && matchesFilter filter currentModel
  then currentModel :: availableModels
  else availableModels.

(** What [populateModelList] leaves in the list element it has emptied:
    nothing, one line of text, or one entry per model, each with the mark
    of the selected entry. *)
Inductive ModelListView : Type :=
| ViewNothing
| ViewText (text : string)
| ViewModels (entries : list (string * bool)).

(** [populateModelList(listEl, provider, currentModel, isLoading, filter)],
    given what the model service (not part of these sources) answers: the
    models of the provider and the error of its cached information,
    [None] when there is no cached information or no error. *)
Definition populateModelList (models : list string)
  (cachedError : option string) (provider currentModel : string)
  (isLoading : bool) (filter : string) : ModelListView :=
  if isLoading then ViewText "Loading models..."
  else if negb (String.eqb provider "openai" || String.eqb provider "anthropic"
                || String.eqb provider "google") then ViewNothing
  else
    match visibleModels models currentModel filter with
    | [] =>
        match cachedError with
        | Some (String _ _ as error) =>
            ViewText ("Error: " ++ take 50 error ++ "...")
        | _ =>
            if negb (isEmpty filter) then ViewText "No matching models found."
            else ViewText "Click refresh icon to load models"
        end
    | availableModels =>
        ViewModels
          (map (fun model => (model, String.eqb model currentModel))
             availableModels)
    end.

(** The models listed in a view. *)
Definition listedModels (view : ModelListView) : list string :=
  match view with
  | ViewModels entries => map fst entries
  | _ => []
  end.

End SettingsTab.

(** ** Vocabulary of the further statements *)

Section MoreVocabulary.
Import JS AIService ValidationService.

(** Every character of the string passes the test. *)
Fixpoint allChars (p : ascii -> bool) (s : string) : bool :=
  match s with
  | EmptyString => true
  | String c rest => p c && allChars p rest
  end.

(** The first and the last character of a string. *)
Definition firstChar (s : string) : option ascii :=
  match s with
  | EmptyString => None
  | String c _ => Some c
  end.

Fixpoint lastChar (s : string) : option ascii :=
  match s with
  | EmptyString => None
  | String c EmptyString => Some c
  | String _ rest => lastChar rest
  end.

(** The key and the model of the active provider. *)
Definition activeApiKey (settings : TitleGeneratorSettings) : string :=
  if String.eqb (aiProvider settings) "openai" then openAiApiKey settings
  else if String.eqb (aiProvider settings) "anthropic" then
    anthropicApiKey settings
  else googleApiKey settings.

Definition activeModel (settings : TitleGeneratorSettings) : string :=
  if String.eqb (aiProvider settings) "openai" then openAiModel settings
  else if String.eqb (aiProvider settings) "anthropic" then
    anthropicModel settings
  else googleModel settings.

(** The errors and warnings [validateSettings] records for the key and for
    the model of the active provider. *)
Definition keyErrors (settings : TitleGeneratorSettings) : list string :=
  if isEmpty (activeApiKey settings) then
    [toUpperCase (aiProvider settings) ++ " API key is required"]
  else errors (validateApiKey (Str (activeApiKey settings)) (aiProvider settings)).

Definition modelErrors (settings : TitleGeneratorSettings) : list string :=
  if isEmpty (activeModel settings) then
    [toUpperCase (aiProvider settings) ++ " model is required"]
  else errors (validateModelName (Str (activeModel settings))
                 (aiProvider settings)).

Definition keyWarnings (settings : TitleGeneratorSettings) : list string :=
  if isEmpty (activeApiKey settings) then []
  else warnings (validateApiKey (Str (activeApiKey settings))
                   (aiProvider settings)).

Definition modelWarnings (settings : TitleGeneratorSettings) : list string :=
  if isEmpty (activeModel settings) then []
  else warnings (validateModelName (Str (activeModel settings))
                   (aiProvider settings)).

(** A prompt holds a placeholder, after trimming. *)
Definition hasPlaceholder (placeholder prompt : string) : bool :=
  includes placeholder (trim prompt).

(** The field conditions under which settings are accepted. *)
Definition settingsInRange (settings : TitleGeneratorSettings) : Prop :=
  10 <= len (trim (activeApiKey settings)) <= 200
  /\ 1 <= len (trim (activeModel settings)) <= 100
  /\ (10 <= len (trim (customPrompt settings)) <= 1000
      /\ hasPlaceholder "{max_length}" (customPrompt settings) = true)
  /\ (10 <= len (trim (refinePrompt settings)) <= 1000
      /\ hasPlaceholder "{max_length}" (refinePrompt settings) = true
      /\ hasPlaceholder "{title}" (refinePrompt settings) = true)
  /\ (exists q, temperature settings = Finite q /\ (0 <= q <= 1)%Q)
  /\ 10 <= maxTitleLength settings <= 500
  /\ 100 <= maxContentLength settings <= 10000.

(** The notice of the [catch] block for an error message. *)
Definition errorNotice (settings : TitleGeneratorSettings) (message : string)
  : string * option Z :=
  if includes "API key is not set" message then
    ("Please set your " ++ toUpperCase (aiProvider settings)
       ++ " API key in plugin settings.", Some 8000)
  else if includes "API error" message then
    ("AI service error: " ++ message
       ++ ". Check your API key and internet connection.", Some 6000)
  else ("Title generation failed: " ++ message, Some 5000).

(** The message an adapter throws on a status other than 200. *)
Definition statusError (provider : string) (response : HttpResponse) : string :=
  apiName provider ++ " API error (" ++ toString (status response) ++ "): "
    ++ text response.

(** Character classes of the statements on sanitised text. *)
Definition notForbidden (c : ascii) : bool :=
  negb (TITLE_CONFIG.FORBIDDEN_CHARS c).

Definition notMarkup (c : ascii) : bool :=
  negb (Ascii.eqb c "<" || Ascii.eqb c ">" || ValidationService.isQuote c).

Definition titleChar (c : ascii) : bool :=
  negb (Ascii.eqb c LF) && negb (AIService.isQuote c).



Definition notAngle (c : ascii) : bool := negb (Ascii.eqb c "<").

Definition notLineFeed (c : ascii) : bool := negb (Ascii.eqb c LF).

Definition notAngleBracket (c : ascii) : bool :=
  negb (Ascii.eqb c "<" || Ascii.eqb c ">").

(** The value of a run of decimal digits, read from left to right on top
    of [acc]. *)
Fixpoint digitsValue (acc : Z) (d : Decimal.uint) : Z :=
  match d with
  | Decimal.Nil => acc
  | Decimal.D0 d => digitsValue (acc * 10 + 0) d
  | Decimal.D1 d => digitsValue (acc * 10 + 1) d
  | Decimal.D2 d => digitsValue (acc * 10 + 2) d
  | Decimal.D3 d => digitsValue (acc * 10 + 3) d
  | Decimal.D4 d => digitsValue (acc * 10 + 4) d
  | Decimal.D5 d => digitsValue (acc * 10 + 5) d
  | Decimal.D6 d => digitsValue (acc * 10 + 6) d
  | Decimal.D7 d => digitsValue (acc * 10 + 7) d
  | Decimal.D8 d => digitsValue (acc * 10 + 8) d
  | Decimal.D9 d => digitsValue (acc * 10 + 9) d
  end.

(** The notice that announces a refinement attempt. *)
Definition refiningNotice (attempt : nat) : string * option Z :=
  ("Title still too long. Refining... (Attempt "
     ++ toString (Z.of_nat attempt) ++ ")", None).

(** Every white space character of the string is a space and follows a
    character that is not white space; [inRun] tells that the character
    before the string is white space. *)
Fixpoint singleSpaced (inRun : bool) (s : string) : bool :=
  match s with
  | EmptyString => true
  | String c rest =>
      if isWhiteSpace c then
        negb inRun && Ascii.eqb c " " && singleSpaced true rest
      else singleSpaced false rest
  end.

End MoreVocabulary.

(** * Properties *)

Import JS AIService.

(** ** Strings *)

Lemma string_length_app (a b : string) :
  String.length (a ++ b) = (String.length a + String.length b)%nat.
Proof.
  induction a as [|c a IH]; simpl; [reflexivity | now rewrite IH].
Qed.

Lemma take_length_le (n : nat) (s : string) :
  (String.length (take n s) <= n)%nat.
Proof.
  revert s; induction n as [|n IH]; intros [|c s]; simpl; try lia.
  specialize (IH s); lia.
Qed.

Lemma take_app_length (a b : string) : take (String.length a) (a ++ b) = a.
Proof.
  induction a as [|c a IH]; simpl.
  - now destruct b.
  - now rewrite IH.
Qed.

Lemma drop_app_length (a b : string) : drop (String.length a) (a ++ b) = b.
Proof.
  induction a as [|c a IH]; simpl; [now destruct b | exact IH].
Qed.

Lemma take_drop (n : nat) (s : string) : take n s ++ drop n s = s.
Proof.
  revert s; induction n as [|n IH]; intros [|c s]; simpl; try reflexivity.
  now rewrite IH.
Qed.

Lemma app_assoc_string (a b c : string) : (a ++ b) ++ c = a ++ (b ++ c).
Proof.
  induction a as [|x a IH]; simpl; [reflexivity | now rewrite IH].
Qed.

Lemma isEmpty_true (s : string) : isEmpty s = true <-> s = "".
Proof.
  destruct s; simpl; split; intros H; try reflexivity; discriminate.
Qed.

Lemma isEmpty_app_char (a : string) (c : ascii) :
  isEmpty (a ++ String c "") = false.
Proof. now destruct a. Qed.

(** A string whose last character fails the test keeps its end. *)
Lemma dropWhileEnd_keeps (p : ascii -> bool) (a : string) (c : ascii) :
  p c = false -> dropWhileEnd p (a ++ String c "") = a ++ String c "".
Proof.
  intros Hc; induction a as [|x a IH]; simpl.
  - now rewrite Hc.
  - rewrite IH, isEmpty_app_char, andb_false_r. reflexivity.
Qed.

Lemma endsWith_app (a b : string) : endsWith b (a ++ b) = true.
Proof.
  unfold endsWith. rewrite string_length_app.
  replace (String.length a + String.length b - String.length b)%nat
    with (String.length a) by lia.
  rewrite drop_app_length, String.eqb_refl, andb_true_r.
  apply Nat.leb_le; lia.
Qed.

Lemma prefix_app (a b : string) : prefix a (a ++ b) = true.
Proof.
  induction a as [|c a IH]; simpl.
  - now destruct b.
  - destruct (ascii_dec c c) as [_|Hneq]; [exact IH | now elim Hneq].
Qed.

(** ** The response cleaner *)

(** A response that is one think block is kept whole by [trim]: it starts
    and ends with a character that is not white space. *)
Lemma trim_think_block (body : string) :
  trim ("<think>" ++ body ++ "</think>") = "<think>" ++ body ++ "</think>".
Proof.
  unfold trim. cbn [append dropWhileStart].
  change (isWhiteSpace "<") with false. cbv iota.
  change (String "<" (String "t" (String "h" (String "i" (String "n"
            (String "k" (String ">" (body ++ "</think>"))))))))
    with ("<think>" ++ (body ++ "</think>")).
  change "</think>" with ("</think" ++ String ">" "").
  rewrite <- !app_assoc_string.
  apply dropWhileEnd_keeps. reflexivity.
Qed.

Lemma thinkMatch_block (body : string) :
  thinkMatch ("<think>" ++ body ++ "</think>") = Some body.
Proof.
  unfold thinkMatch, startsWith.
  rewrite prefix_app.
  change (drop 7 ("<think>" ++ body ++ "</think>")) with (body ++ "</think>").
  rewrite endsWith_app, string_length_app.
  change (String.length "</think>") with 8%nat.
  replace (String.length body + 8 - 8)%nat with (String.length body) by lia.
  now rewrite take_app_length.
Qed.

Lemma cleanAIResponse_think_block (body : string) :
  body <> "" ->
  cleanAIResponse ("<think>" ++ body ++ "</think>") = extractTitle (trim body).
Proof.
  intros Hbody. unfold cleanAIResponse.
  change (isEmpty ("<think>" ++ body ++ "</think>")) with false. cbv iota.
  rewrite trim_think_block. unfold unwrapThink. rewrite thinkMatch_block.
  destruct body; [contradiction | reflexivity].
Qed.



(** C2, as the code has it.  A response that is one think block spanning
    the whole string, with a non-empty interior, is unwrapped: the cleaner
    returns the title extracted from the trimmed interior (the remaining
    think blocks removed, a line selected and polished), not the empty
    string. *)
Theorem C2_think_block_is_unwrapped :
  forall body : string,
    body <> "" ->
    cleanAIResponse ("<think>" ++ body ++ "</think>") = extractTitle (trim body).
Proof. exact cleanAIResponse_think_block. Qed.

Lemma C2_think_block_is_unwrapped_witness :
  "reasoning" <> ""
  /\ cleanAIResponse ("<think>" ++ "reasoning" ++ "</think>")
     = extractTitle (trim "reasoning")
  /\ extractTitle (trim "reasoning") = "reasoning".
Proof.
  split; [discriminate|]. split.
  - apply (C2_think_block_is_unwrapped "reasoning"). discriminate.
  - vm_compute. reflexivity.
Defined.

(** C2 as stated fails: on the response made of one think block around the
    word reasoning the cleaner returns that word, not the empty string. *)
Lemma C2_counterexample :
  cleanAIResponse "<think>reasoning</think>" = "reasoning"
  /\ cleanAIResponse "<think>reasoning</think>" <> "".
Proof. split; [vm_compute; reflexivity | vm_compute; discriminate]. Qed.

(** Only a think block with an empty interior leaves nothing. *)
Example clean_empty_think_block : cleanAIResponse "<think></think>" = "".
Proof. vm_compute. reflexivity. Qed.

(** ** The validation service *)

Import ValidationService.

Lemma consistent_fresh : consistent fresh.
Proof. unfold consistent; simpl; tauto. Qed.

Lemma consistent_fail (msg : string) (r : ValidationResult) :
  consistent (fail msg r).
Proof.
  unfold consistent, fail; simpl. split; [discriminate|].
  intros H. now apply app_eq_nil in H as [_ H].
Qed.

Lemma consistent_warn (msg : string) (r : ValidationResult) :
  consistent r -> consistent (warn msg r).
Proof. unfold consistent, warn; simpl; tauto. Qed.

Lemma consistent_merge (sub r : ValidationResult) :
  consistent sub -> consistent r -> consistent (merge sub r).
Proof.
  unfold consistent, merge. intros Hsub Hr.
  destruct (valid sub) eqn:Hvalid; simpl.
  - destruct Hsub as [Hsub _]. rewrite (Hsub eq_refl), app_nil_r. exact Hr.
  - split; [discriminate|]. intros H. apply app_eq_nil in H as [_ H].
    destruct Hsub as [_ Hsub]. specialize (Hsub H). discriminate.
Qed.

Create HintDb validation.
#[local] Hint Resolve consistent_fresh consistent_fail consistent_warn
  consistent_merge : validation.

(** Walks through the branches of a validator down to the statements that
    build its result. *)
Ltac consistency :=
  cbv zeta;
  repeat first
    [ apply consistent_fresh
    | apply consistent_fail
    | apply consistent_warn
    | match goal with
      | |- consistent (if ?c then _ else _) => destruct c
      | |- consistent (match ?x with _ => _ end) => destruct x
      end ].

Lemma validateApiKey_consistent (apiKey : value) (provider : string) :
  consistent (validateApiKey apiKey provider).
Proof. unfold validateApiKey. consistency. Qed.

Lemma validateModelName_consistent (modelName : value) (provider : string) :
  consistent (validateModelName modelName provider).
Proof. unfold validateModelName. consistency. Qed.

Lemma validatePrompt_consistent (prompt : value) (isRefinementPrompt : bool) :
  consistent (validatePrompt prompt isRefinementPrompt).
Proof.
  unfold validatePrompt, VALIDATION_RULES.REFINE_PROMPT.REQUIRED_PLACEHOLDERS.
  cbn [fold_left]. consistency.
Qed.

Lemma validateTemperature_consistent (temperature : value) :
  consistent (validateTemperature temperature).
Proof. unfold validateTemperature. consistency. Qed.

Lemma validateMaxTitleLength_consistent (length : value) :
  consistent (validateMaxTitleLength length).
Proof. unfold validateMaxTitleLength. consistency. Qed.

Lemma validateMaxContentLength_consistent (length : value) :
  consistent (validateMaxContentLength length).
Proof. unfold validateMaxContentLength. consistency. Qed.

#[local] Hint Resolve validateApiKey_consistent validateModelName_consistent
  validatePrompt_consistent validateTemperature_consistent
  validateMaxTitleLength_consistent validateMaxContentLength_consistent
  : validation.

Lemma validateSettings_outcome_consistent (settings : TitleGeneratorSettings) :
  consistentOutcome (validateSettings settings).
Proof.
  unfold validateSettings.
  destruct (getApiKeyField (aiProvider settings)) as [apiKeyField|e];
    [|exact I].
  destruct (getModelField (aiProvider settings)) as [modelField|e];
    [|exact I].
  unfold bind, consistentOutcome.
  do 5 (apply consistent_merge; [auto with validation|]).
  destruct (truthy (settingsGet settings modelField));
    [apply consistent_merge; [auto with validation|] | apply consistent_fail].
  destruct (truthy (settingsGet settings apiKeyField)); auto with validation.
Qed.

Lemma validateSettings_consistent (settings : TitleGeneratorSettings)
  (r : ValidationResult) :
  validateSettings settings = Ok r -> consistent r.
Proof.
  intros H. pose proof (validateSettings_outcome_consistent settings) as H'.
  now rewrite H in H'.
Qed.

(** Every result [validateApiResponse] builds is the fresh one or a failed
    one. *)
Lemma validateApiResponse_outcome_consistent (response : json)
  (provider : string) :
  consistentOutcome (validateApiResponse response provider).
Proof.
  unfold validateApiResponse, bind.
  repeat match goal with
         | |- consistentOutcome (Throw _) => exact I
         | |- consistentOutcome (Ok _) =>
             unfold consistentOutcome; solve [auto with validation]
         | |- consistentOutcome (if ?c then _ else _) => destruct c
         | |- consistentOutcome (match ?x with _ => _ end) => destruct x
         end.
Qed.

Lemma validateApiResponse_consistent (response : json) (provider : string)
  (r : ValidationResult) :
  validateApiResponse response provider = Ok r -> consistent r.
Proof.
  intros H.
  pose proof (validateApiResponse_outcome_consistent response provider) as H'.
  now rewrite H in H'.
Qed.

(** C8.  Whatever a validation operation returns is valid exactly when its
    error list is empty, for every input; and pushing warnings leaves the
    validity as it was. *)
Theorem C8_valid_iff_no_errors :
  (forall apiKey provider, consistent (validateApiKey apiKey provider))
  /\ (forall modelName provider, consistent (validateModelName modelName provider))
  /\ (forall prompt isRefinement, consistent (validatePrompt prompt isRefinement))
  /\ (forall temperature, consistent (validateTemperature temperature))
  /\ (forall length, consistent (validateMaxTitleLength length))
  /\ (forall length, consistent (validateMaxContentLength length))
  /\ (forall settings r, validateSettings settings = Ok r -> consistent r)
  /\ (forall response provider r,
        validateApiResponse response provider = Ok r -> consistent r)
  /\ (forall msgs r, valid (pushWarnings msgs r) = valid r
                     /\ errors (pushWarnings msgs r) = errors r).
Proof.
  repeat match goal with |- _ /\ _ => split end; auto with validation.
  - exact validateSettings_consistent.
  - exact validateApiResponse_consistent.
Qed.

Lemma C8_valid_iff_no_errors_witness :
  (exists r, validateSettings Sample.settings = Ok r /\ consistent r)
  /\ (exists r,
        validateApiResponse (JObject [("choices", JArray [])]) "openai" = Ok r
        /\ consistent r).
Proof.
  destruct C8_valid_iff_no_errors
    as (_ & _ & _ & _ & _ & _ & Hsettings & Hresponse & _).
  split.
  - eexists. split; [vm_compute; reflexivity|].
    apply (Hsettings Sample.settings). vm_compute. reflexivity.
  - eexists. split; [vm_compute; reflexivity|].
    apply (Hresponse (JObject [("choices", JArray [])]) "openai").
    vm_compute. reflexivity.
Defined.

(** *** Bounds *)

Lemma ltb_ofZ (a b : Z) : ltb (ofZ a) (ofZ b) = (a <? b).
Proof.
  unfold ltb, ofZ, Qcompare, inject_Z, Z.ltb; simpl.
  now rewrite !Z.mul_1_r.
Qed.

Lemma gtb_ofZ (a b : Z) : gtb (ofZ a) (ofZ b) = (b <? a).
Proof. unfold gtb. apply ltb_ofZ. Qed.

Lemma isInteger_ofZ (z : Z) : isInteger (ofZ z) = true.
Proof.
  unfold isInteger, ofZ, inject_Z; simpl. rewrite Z.rem_1_r. reflexivity.
Qed.

Lemma valid_warn (msg : string) (r : ValidationResult) :
  valid (warn msg r) = valid r.
Proof. reflexivity. Qed.

Lemma valid_fail (msg : string) (r : ValidationResult) :
  valid (fail msg r) = false.
Proof. reflexivity. Qed.

(** The key is valid exactly when its trimmed length lies within the
    bounds. *)
Lemma validateApiKey_valid_iff (key provider : string) :
  valid (validateApiKey (Str key) provider) = true
  <-> 10 <= len (trim key) <= 200.
Proof.
  unfold validateApiKey. destruct key as [|c key].
  - change (len (trim "")) with 0. rewrite valid_fail.
    split; [discriminate | lia].
  - cbv zeta.
    unfold VALIDATION_RULES.API_KEY.MIN_LENGTH,
      VALIDATION_RULES.API_KEY.MAX_LENGTH.
    set (n := len (trim (String c key))).
    rewrite Z.gtb_ltb.
    destruct (Z.eqb_spec n 0) as [H0|H0];
      [rewrite valid_fail; split; [discriminate | lia]|].
    assert (Hshape : forall r : ValidationResult,
      valid
        (if String.eqb provider "openai" then
           if negb (startsWith "sk-" (trim (String c key))) then
             warn ("OpenAI API keys typically start with "
                     ++ String DQUOTE ("sk-" ++ String DQUOTE "")) r
           else r
         else if String.eqb provider "anthropic" then
           if negb (startsWith "sk-ant-" (trim (String c key))) then
             warn ("Anthropic API keys typically start with "
                     ++ String DQUOTE ("sk-ant-" ++ String DQUOTE "")) r
           else r
         else if String.eqb provider "google" then
           if n <? 20 then
             warn "Google API keys are typically longer than 20 characters" r
           else r
         else r) = valid r).
    { intros r.
      repeat match goal with
             | |- context [if ?b then _ else _] => destruct b
             end; reflexivity. }
    rewrite Hshape.
    destruct (Z.ltb_spec n 10), (Z.ltb_spec 200 n);
      rewrite ?valid_fail; cbn [valid fresh]; split;
      try discriminate; try lia; reflexivity.
Qed.

Lemma validateMaxTitleLength_valid_iff (z : Z) :
  valid (validateMaxTitleLength (Num (ofZ z))) = true <-> 10 <= z <= 500.
Proof.
  unfold validateMaxTitleLength. cbv zeta.
  rewrite isInteger_ofZ, !ltb_ofZ, !gtb_ofZ.
  change (isNaN (ofZ z)) with false. cbn [orb negb].
  unfold TITLE_CONFIG.MIN_MAX_LENGTH, TITLE_CONFIG.MAX_MAX_LENGTH.
  destruct (Z.ltb_spec z 10), (Z.ltb_spec 500 z), (z <? 30), (100 <? z);
    rewrite ?valid_warn, ?valid_fail; cbn [valid fresh]; split;
    try discriminate; try lia; reflexivity.
Qed.

Lemma validateMaxContentLength_valid_iff (z : Z) :
  valid (validateMaxContentLength (Num (ofZ z))) = true <-> 100 <= z <= 10000.
Proof.
  unfold validateMaxContentLength. cbv zeta.
  rewrite isInteger_ofZ, !ltb_ofZ, !gtb_ofZ.
  change (isNaN (ofZ z)) with false. cbn [orb negb].
  unfold TITLE_CONFIG.MIN_MAX_CONTENT_LENGTH, TITLE_CONFIG.MAX_MAX_CONTENT_LENGTH.
  destruct (Z.ltb_spec z 100), (Z.ltb_spec 10000 z), (z <? 500), (5000 <? z);
    rewrite ?valid_warn, ?valid_fail; cbn [valid fresh]; split;
    try discriminate; try lia; reflexivity.
Qed.

Lemma not_true_iff (b : bool) (P : Prop) : (b = true <-> P) -> ~ P -> b = false.
Proof. destruct b; [intros [H _] HP; elim HP; now apply H | reflexivity]. Qed.

(** C7.  For the API key (trimmed length, bounds 10 and 200), the max title
    length (bounds 10 and 500) and the max content length (bounds 100 and
    10000): a value at either bound is valid, a value one below the minimum
    or one above the maximum is invalid. *)
Theorem C7_bounds_are_inclusive :
  (forall key provider : string,
     (len (trim key) = 10 \/ len (trim key) = 200 ->
      valid (validateApiKey (Str key) provider) = true)
     /\ (len (trim key) = 9 \/ len (trim key) = 201 ->
         valid (validateApiKey (Str key) provider) = false))
  /\ (valid (validateMaxTitleLength (Num (ofZ 10))) = true
      /\ valid (validateMaxTitleLength (Num (ofZ 500))) = true
      /\ valid (validateMaxTitleLength (Num (ofZ 9))) = false
      /\ valid (validateMaxTitleLength (Num (ofZ 501))) = false)
  /\ (valid (validateMaxContentLength (Num (ofZ 100))) = true
      /\ valid (validateMaxContentLength (Num (ofZ 10000))) = true
      /\ valid (validateMaxContentLength (Num (ofZ 99))) = false
      /\ valid (validateMaxContentLength (Num (ofZ 10001))) = false).
Proof.
  split; [|split].
  - intros key provider. split; intros H.
    + apply validateApiKey_valid_iff. lia.
    + apply (not_true_iff _ _ (validateApiKey_valid_iff key provider)). lia.
  - repeat split;
      first [ apply validateMaxTitleLength_valid_iff; lia
            | apply (not_true_iff _ _ (validateMaxTitleLength_valid_iff _)); lia ].
  - repeat split;
      first [ apply validateMaxContentLength_valid_iff; lia
            | apply (not_true_iff _ _ (validateMaxContentLength_valid_iff _)); lia ].
Qed.

Lemma C7_bounds_are_inclusive_witness :
  (len (trim "sk-0123456") = 10
   /\ valid (validateApiKey (Str "sk-0123456") "openai") = true)
  /\ (len (trim " sk-012345 ") = 9
      /\ valid (validateApiKey (Str " sk-012345 ") "openai") = false).
Proof.
  split; (split; [vm_compute; reflexivity|]).
  - apply (proj1 (proj1 C7_bounds_are_inclusive "sk-0123456" "openai")).
    left. vm_compute. reflexivity.
  - apply (proj2 (proj1 C7_bounds_are_inclusive " sk-012345 " "openai")).
    left. vm_compute. reflexivity.
Defined.

(** *** Unknown provider tags *)

Lemma validateSettings_known (settings : TitleGeneratorSettings) :
  knownProvider (aiProvider settings) ->
  exists r, validateSettings settings = Ok r.
Proof.
  intros Hknown. unfold validateSettings, getApiKeyField, getModelField.
  destruct (String.eqb (aiProvider settings) "openai") eqn:E1;
    [cbn [bind]; eexists; reflexivity|].
  destruct (String.eqb (aiProvider settings) "anthropic") eqn:E2;
    [cbn [bind]; eexists; reflexivity|].
  destruct (String.eqb (aiProvider settings) "google") eqn:E3;
    [cbn [bind]; eexists; reflexivity|].
  apply String.eqb_neq in E1, E2, E3.
  destruct Hknown as [H|[H|H]]; contradiction.
Qed.

Lemma validateSettings_unknown (settings : TitleGeneratorSettings) :
  ~ knownProvider (aiProvider settings) ->
  validateSettings settings = Throw (unknownProvider (aiProvider settings)).
Proof.
  intros Hunknown. unfold validateSettings, getApiKeyField.
  destruct (String.eqb_spec (aiProvider settings) "openai") as [E|_];
    [elim Hunknown; left; exact E|].
  destruct (String.eqb_spec (aiProvider settings) "anthropic") as [E|_];
    [elim Hunknown; right; left; exact E|].
  destruct (String.eqb_spec (aiProvider settings) "google") as [E|_];
    [elim Hunknown; right; right; exact E|].
  reflexivity.
Qed.

(** C6, as the code has it.  [validateSettings] returns a ValidationResult
    exactly for the three tags of the provider enumeration; for any other
    tag the field lookup throws the TitleGeneratorError with the code
    UNKNOWN_PROVIDER and [validateSettings] lets it through.  (The six field
    validators are total functions into ValidationResult: they cannot
    throw.) *)
Theorem C6_validateSettings_returns_for_known_providers :
  forall settings : TitleGeneratorSettings,
    (knownProvider (aiProvider settings) ->
     exists r, validateSettings settings = Ok r)
    /\ (~ knownProvider (aiProvider settings) ->
        validateSettings settings
        = Throw (TitleGeneratorError
                   ("Unknown provider: " ++ aiProvider settings)
                   "UNKNOWN_PROVIDER" "Unknown AI provider")).
Proof.
  intros settings. split.
  - apply validateSettings_known.
  - apply validateSettings_unknown.
Qed.

Lemma C6_validateSettings_returns_for_known_providers_witness :
  (knownProvider (aiProvider Sample.settings)
   /\ exists r, validateSettings Sample.settings = Ok r)
  /\ (~ knownProvider (aiProvider (Sample.withProvider "mistral" Sample.settings))
      /\ validateSettings (Sample.withProvider "mistral" Sample.settings)
         = Throw (TitleGeneratorError "Unknown provider: mistral"
                    "UNKNOWN_PROVIDER" "Unknown AI provider")).
Proof.
  assert (Hunknown :
            ~ knownProvider
                (aiProvider (Sample.withProvider "mistral" Sample.settings))).
  { intros [H|[H|H]]; vm_compute in H; discriminate H. }
  split; split.
  - left. reflexivity.
  - apply (proj1 (C6_validateSettings_returns_for_known_providers
                    Sample.settings)).
    left. reflexivity.
  - exact Hunknown.
  - apply (proj2 (C6_validateSettings_returns_for_known_providers
                    (Sample.withProvider "mistral" Sample.settings))).
    exact Hunknown.
Defined.

(** C6 as stated fails: for a provider tag outside the enumeration
    [validateSettings] throws instead of returning a ValidationResult. *)
Lemma C6_counterexample :
  validateSettings (Sample.withProvider "mistral" Sample.settings)
  = Throw (TitleGeneratorError "Unknown provider: mistral"
             "UNKNOWN_PROVIDER" "Unknown AI provider")
  /\ ~ exists r,
         validateSettings (Sample.withProvider "mistral" Sample.settings) = Ok r.
Proof.
  assert (H : validateSettings (Sample.withProvider "mistral" Sample.settings)
              = Throw (TitleGeneratorError "Unknown provider: mistral"
                         "UNKNOWN_PROVIDER" "Unknown AI provider"))
    by (vm_compute; reflexivity).
  split; [exact H|]. intros [r Hr]. rewrite H in Hr. discriminate.
Qed.

(** The payload validator dereferences the first element of the array
    without a guard: a null element makes it throw. *)
Example validateApiResponse_null_choice :
  validateApiResponse (JObject [("choices", JArray [JNull])]) "openai"
  = Throw (TypeError "Cannot read properties of null").
Proof. vm_compute. reflexivity. Qed.

(** ** The AI service *)

(** *** The configuration check *)

Lemma isConfigurationValid_outcome (settings : TitleGeneratorSettings)
  (w : World) :
  exists (b : bool) (w' : World),
    isConfigurationValid settings w = (Ok b, w')
    /\ fst (isConfigurationValid settings emptyWorld) = Ok b
    /\ calls w' = calls w
    /\ requests w' = requests w
    /\ (b = true -> w' = w).
Proof.
  unfold isConfigurationValid, bindM, Notice, ret.
  repeat match goal with
         | |- context [if ?c then _ else _] => destruct c
         end;
    cbn [fst snd];
    eexists; eexists; (split; [reflexivity|]);
    cbn [calls requests]; repeat split; try reflexivity; discriminate.
Qed.

Lemma isConfigurationValid_true (settings : TitleGeneratorSettings) (w : World) :
  configurationValid settings ->
  isConfigurationValid settings w = (Ok true, w).
Proof.
  unfold configurationValid. intros Hvalid.
  destruct (isConfigurationValid_outcome settings w)
    as (b & w' & Hrun & Hb & _ & _ & Hw).
  rewrite Hvalid in Hb. injection Hb as <-.
  now rewrite Hrun, (Hw eq_refl).
Qed.

Lemma isConfigurationValid_false (settings : TitleGeneratorSettings) (w : World) :
  ~ configurationValid settings ->
  exists w', isConfigurationValid settings w = (Ok false, w')
             /\ calls w' = calls w /\ requests w' = requests w.
Proof.
  unfold configurationValid. intros Hinvalid.
  destruct (isConfigurationValid_outcome settings w)
    as (b & w' & Hrun & Hb & Hcalls & Hrequests & _).
  destruct b; [contradiction|]. now exists w'.
Qed.

(** A valid configuration names one of the three providers and carries its
    key. *)
Lemma configurationValid_provider (settings : TitleGeneratorSettings) :
  configurationValid settings ->
  (aiProvider settings = "openai" /\ isEmpty (openAiApiKey settings) = false)
  \/ (aiProvider settings = "anthropic"
      /\ isEmpty (anthropicApiKey settings) = false)
  \/ (aiProvider settings = "google"
      /\ isEmpty (googleApiKey settings) = false).
Proof.
  unfold configurationValid, isConfigurationValid, bindM, Notice, ret.
  destruct (String.eqb_spec (aiProvider settings) "openai") as [E1|_].
  { destruct (openAiApiKey settings); [discriminate|]. intros _. left.
    split; [exact E1 | reflexivity]. }
  destruct (String.eqb_spec (aiProvider settings) "anthropic") as [E2|_].
  { destruct (anthropicApiKey settings); [discriminate|]. intros _. right; left.
    split; [exact E2 | reflexivity]. }
  destruct (String.eqb_spec (aiProvider settings) "google") as [E3|_].
  { destruct (googleApiKey settings); [discriminate|]. intros _. right; right.
    split; [exact E3 | reflexivity]. }
  discriminate.
Qed.

Lemma keyOrModelMissing_invalid (settings : TitleGeneratorSettings) :
  keyOrModelMissing settings -> ~ configurationValid settings.
Proof.
  unfold keyOrModelMissing, configurationValid, isConfigurationValid,
    bindM, Notice, ret.
  intros [[E [H|H]]|[[E [H|H]]|[E [H|H]]]]; rewrite E, ?H;
    cbn [String.eqb Ascii.eqb Bool.eqb isEmpty];
    repeat match goal with
           | |- context [if ?c then _ else _] => destruct c
           end; discriminate.
Qed.

(** *** One provider call *)

(** Under a valid configuration a call to [callAI] logs the call, sends one
    request and hands back what the adapter makes of its outcome. *)
Lemma callAI_valid (settings : TitleGeneratorSettings) (transport : Transport)
  (prompt content : string) (w : World) :
  configurationValid settings ->
  callAI settings transport prompt content w
  = (adapterOutcome (aiProvider settings)
       (transport (List.length (requests w)) (fullPrompt prompt content)),
     afterCall prompt content w).
Proof.
  intros Hvalid.
  unfold callAI, callOpenAI, callAnthropic, callGoogle, callProvider,
    bindM, logCall, requestUrl, liftResult, throw, adapterOutcome, apiName,
    afterCall.
  fold (fullPrompt prompt content).
  destruct (configurationValid_provider settings Hvalid)
    as [[E K]|[[E K]|[E K]]]; rewrite E, K;
    cbn [String.eqb Ascii.eqb Bool.eqb requests calls notices];
    (destruct (transport (List.length (requests w)) (fullPrompt prompt content))
       as [response|e];
     [destruct (negb (status response =? 200))|]; reflexivity).
Qed.

(** *** One iteration of the loop *)

Lemma attemptLoop_step (settings : TitleGeneratorSettings)
  (transport : Transport) (content : string) (remaining : nat) (attempt : Z)
  (title : string) (w : World) :
  configurationValid settings ->
  attemptLoop settings transport content (S remaining) attempt title w
  = let prompt := attemptPrompt settings attempt title in
    let body := attemptContent content attempt in
    let w0 := beforeAttempt attempt w in
    let w1 := afterCall prompt body w0 in
    match adapterOutcome (aiProvider settings)
            (transport (List.length (requests w0)) (fullPrompt prompt body))
    with
    | Throw e => (Throw e, w1)
    | Ok rawTitle =>
        if isValidTitle settings (cleanAIResponse rawTitle) then
          (Ok (cleanAIResponse rawTitle), w1)
        else
          attemptLoop settings transport content remaining (attempt + 1)
            (cleanAIResponse rawTitle) w1
    end.
Proof.
  intros Hvalid. cbn [attemptLoop]. unfold bindM at 1.
  unfold attemptPrompt, attemptContent, beforeAttempt.
  destruct (attempt =? 1).
  - unfold ret at 1. cbn [fst snd]. unfold bindM at 1.
    rewrite callAI_valid by assumption. cbv zeta.
    destruct (adapterOutcome _ _); [|reflexivity].
    destruct (isValidTitle _ _); reflexivity.
  - unfold bindM at 1, Notice at 1, ret at 1. cbn [fst snd].
    fold (afterNotice ("Title still too long. Refining... (Attempt "
                         ++ toString attempt ++ ")") None w).
    unfold bindM at 1.
    rewrite callAI_valid by assumption. cbv zeta.
    destruct (adapterOutcome _ _); [|reflexivity].
    destruct (isValidTitle _ _); reflexivity.
Qed.

Lemma beforeAttempt_calls (attempt : Z) (w : World) :
  calls (beforeAttempt attempt w) = calls w.
Proof. unfold beforeAttempt. now destruct (attempt =? 1). Qed.

Lemma beforeAttempt_requests (attempt : Z) (w : World) :
  requests (beforeAttempt attempt w) = requests w.
Proof. unfold beforeAttempt. now destruct (attempt =? 1). Qed.

(** *** The whole call *)

Lemma onError_outcome (settings : TitleGeneratorSettings) (error : exn)
  (w : World) :
  exists outcome w',
    onError settings error w = (outcome, w')
    /\ calls w' = calls w /\ requests w' = requests w.
Proof.
  unfold onError, bindM, Notice, ret, throw.
  destruct (message_of error) as [message|]; [|do 2 eexists; repeat split].
  destruct (includes "API key is not set" message);
    [|destruct (includes "API error" message)];
    do 2 eexists; repeat split.
Qed.

Lemma onError_returns (settings : TitleGeneratorSettings) (error : exn)
  (w : World) :
  hasMessage error = true ->
  exists w', onError settings error w = (Ok "", w').
Proof.
  unfold hasMessage, onError, bindM, Notice, ret.
  destruct (message_of error) as [message|]; [intros _ | discriminate].
  destruct (includes "API key is not set" message);
    [|destruct (includes "API error" message)];
    eexists; reflexivity.
Qed.

Lemma adapterOutcome_hasMessage (provider : string)
  (outcome : result HttpResponse) (e : exn) :
  messageBearing outcome = true ->
  adapterOutcome provider outcome = Throw e ->
  hasMessage e = true.
Proof.
  unfold messageBearing, adapterOutcome.
  destruct outcome as [response|e']; [|now intros H [= <-]].
  destruct (negb (status response =? 200)); [now intros _ [= <-]|].
  destruct (extracted response) as [rawTitle|e']; [discriminate|].
  now intros H [= <-].
Qed.

Lemma generateTitle_valid (settings : TitleGeneratorSettings)
  (transport : Transport) (noteContent : string) (w : World) :
  configurationValid settings ->
  generateTitle settings transport noteContent w
  = match attemptLoop settings transport
            (slice0 noteContent (maxContentLength settings)) maxAttempts 1 "" w
    with
    | (Ok title, w') => (Ok (postProcess settings title), w')
    | (Throw error, w') => onError settings error w'
    end.
Proof.
  intros Hvalid. unfold generateTitle. unfold bindM at 1.
  rewrite isConfigurationValid_true by assumption. cbn [negb].
  unfold tryCatch, bindM, ret.
  destruct (attemptLoop _ _ _ _ _ _ _) as [[title|error] w']; reflexivity.
Qed.

Lemma generateTitle_invalid (settings : TitleGeneratorSettings)
  (transport : Transport) (noteContent : string) (w : World) :
  ~ configurationValid settings ->
  exists w', generateTitle settings transport noteContent w = (Ok "", w')
             /\ calls w' = calls w /\ requests w' = requests w.
Proof.
  intros Hinvalid.
  destruct (isConfigurationValid_false settings w Hinvalid)
    as (w' & Hrun & Hcalls & Hrequests).
  exists w'. unfold generateTitle, bindM. rewrite Hrun. cbn [negb].
  now unfold ret.
Qed.

Lemma configurationValid_dec (settings : TitleGeneratorSettings) :
  configurationValid settings \/ ~ configurationValid settings.
Proof.
  unfold configurationValid.
  destruct (isConfigurationValid_outcome settings emptyWorld)
    as (b & w' & _ & Hb & _).
  rewrite Hb. destruct b; [left; reflexivity | right; discriminate].
Qed.

(** C4.  When the active provider's key is absent or blank, or its model is
    absent, [generateTitle] returns the empty string and the log of provider
    calls and the log of requests are what they were: no call is made. *)
Theorem C4_missing_key_or_model_short_circuits :
  forall (settings : TitleGeneratorSettings) (transport : Transport)
         (noteContent : string) (w : World),
    keyOrModelMissing settings ->
    exists w',
      generateTitle settings transport noteContent w = (Ok "", w')
      /\ calls w' = calls w
      /\ requests w' = requests w.
Proof.
  intros settings transport noteContent w Hmissing.
  apply generateTitle_invalid. now apply keyOrModelMissing_invalid.
Qed.

Lemma C4_missing_key_or_model_short_circuits_witness :
  keyOrModelMissing (Sample.withOpenAiKey "   " Sample.settings)
  /\ exists w',
       generateTitle (Sample.withOpenAiKey "   " Sample.settings)
         (scripted ["A title"]) Sample.note emptyWorld = (Ok "", w')
       /\ calls w' = calls emptyWorld
       /\ requests w' = requests emptyWorld.
Proof.
  assert (H : keyOrModelMissing (Sample.withOpenAiKey "   " Sample.settings)).
  { left. split; [reflexivity | left; vm_compute; reflexivity]. }
  split; [exact H|].
  apply (C4_missing_key_or_model_short_circuits
           (Sample.withOpenAiKey "   " Sample.settings)
           (scripted ["A title"]) Sample.note emptyWorld H).
Defined.

(** *** Number of calls *)

Lemma attemptLoop_calls_le (settings : TitleGeneratorSettings)
  (transport : Transport) (content : string) :
  configurationValid settings ->
  forall (remaining : nat) (attempt : Z) (title : string) (w : World),
    (List.length
       (calls (snd (attemptLoop settings transport content remaining attempt
                      title w)))
     <= List.length (calls w) + remaining)%nat.
Proof.
  intros Hvalid. induction remaining as [|remaining IH]; intros attempt title w.
  - cbn. lia.
  - rewrite attemptLoop_step by assumption. cbv zeta.
    assert (Hlen : List.length
                     (calls (afterCall (attemptPrompt settings attempt title)
                               (attemptContent content attempt)
                               (beforeAttempt attempt w)))
                   = S (List.length (calls w))).
    { cbn [afterCall calls]. rewrite beforeAttempt_calls, List.length_app.
      cbn. lia. }
    destruct (adapterOutcome _ _) as [rawTitle|e].
    + destruct (isValidTitle _ _).
      * cbn [snd]. rewrite Hlen. lia.
      * etransitivity; [apply IH|]. rewrite Hlen. lia.
    + cbn [snd]. rewrite Hlen. lia.
Qed.

Lemma generateTitle_calls_le (settings : TitleGeneratorSettings)
  (transport : Transport) (noteContent : string) (w : World) :
  (List.length (calls (snd (generateTitle settings transport noteContent w)))
   <= List.length (calls w) + 3)%nat.
Proof.
  destruct (configurationValid_dec settings) as [Hvalid|Hinvalid].
  - rewrite generateTitle_valid by assumption.
    pose proof (attemptLoop_calls_le settings transport
                  (slice0 noteContent (maxContentLength settings)) Hvalid
                  maxAttempts 1 "" w) as Hle.
    destruct (attemptLoop _ _ _ _ _ _ _) as [[title|error] w'].
    + exact Hle.
    + destruct (onError_outcome settings error w')
        as (outcome & w'' & -> & Hcalls & _).
      cbn [snd] in *. rewrite Hcalls. exact Hle.
  - destruct (generateTitle_invalid settings transport noteContent w Hinvalid)
      as (w' & -> & Hcalls & _).
    cbn [snd]. rewrite Hcalls. lia.
Qed.

(** *** The final truncation *)

Lemma truncateTitle_length (title : string) (maxLength : Z) :
  0 <= maxLength -> len (truncateTitle title maxLength) <= maxLength.
Proof.
  intros Hmax. unfold truncateTitle, len.
  pose proof (take_length_le (Z.to_nat maxLength) title). lia.
Qed.

Lemma postProcess_length (settings : TitleGeneratorSettings) (title : string) :
  0 <= maxTitleLength settings ->
  len (postProcess settings title) <= maxTitleLength settings.
Proof. intros Hmax. unfold postProcess. now apply truncateTitle_length. Qed.

Lemma onError_title (settings : TitleGeneratorSettings) (error : exn)
  (w : World) (title : string) :
  fst (onError settings error w) = Ok title -> title = "".
Proof.
  unfold onError, bindM, Notice, ret, throw.
  destruct (message_of error) as [message|]; [|discriminate].
  destruct (includes "API key is not set" message);
    [|destruct (includes "API error" message)];
    cbn [fst]; now intros [= <-].
Qed.

(** What [generateTitle] returns is within a maximum that is not
    negative. *)
Lemma generateTitle_length (settings : TitleGeneratorSettings)
  (transport : Transport) (noteContent : string) (w : World) (title : string) :
  fst (generateTitle settings transport noteContent w) = Ok title ->
  0 <= maxTitleLength settings ->
  len title <= maxTitleLength settings.
Proof.
  intros Hout Hmax.
  destruct (configurationValid_dec settings) as [Hvalid|Hinvalid].
  - rewrite generateTitle_valid in Hout by assumption.
    destruct (attemptLoop _ _ _ _ _ _ _) as [[cleaned|error] w'].
    + cbn [fst] in Hout. injection Hout as <-. now apply postProcess_length.
    + apply onError_title in Hout. subst title. cbn. lia.
  - destruct (generateTitle_invalid settings transport noteContent w Hinvalid)
      as (w' & Hrun & _).
    rewrite Hrun in Hout. cbn [fst] in Hout. injection Hout as <-. cbn. lia.
Qed.

(** The loop throws what an adapter throws. *)
Lemma attemptLoop_throws_message (settings : TitleGeneratorSettings)
  (transport : Transport) (content : string) :
  configurationValid settings ->
  (forall k p, messageBearing (transport k p) = true) ->
  forall (remaining : nat) (attempt : Z) (title : string) (w : World)
         (e : exn),
    fst (attemptLoop settings transport content remaining attempt title w)
    = Throw e ->
    hasMessage e = true.
Proof.
  intros Hvalid Hbearing. induction remaining as [|remaining IH];
    intros attempt title w e; [discriminate|].
  rewrite attemptLoop_step by assumption. cbv zeta.
  destruct (adapterOutcome _ _) as [rawTitle|e'] eqn:Houtcome.
  - destruct (isValidTitle _ _); [discriminate | apply IH].
  - cbn [fst]. intros [= <-].
    exact (adapterOutcome_hasMessage _ _ _ (Hbearing _ _) Houtcome).
Qed.

(** Against a provider whose failures carry a message, [generateTitle]
    returns. *)
Lemma generateTitle_returns (settings : TitleGeneratorSettings)
  (transport : Transport) (noteContent : string) (w : World) :
  (forall k p, messageBearing (transport k p) = true) ->
  exists title,
    fst (generateTitle settings transport noteContent w) = Ok title.
Proof.
  intros Hbearing.
  destruct (configurationValid_dec settings) as [Hvalid|Hinvalid].
  - rewrite generateTitle_valid by assumption.
    pose proof (attemptLoop_throws_message settings transport
                  (slice0 noteContent (maxContentLength settings)) Hvalid
                  Hbearing maxAttempts 1 "" w) as Hmessage.
    destruct (attemptLoop _ _ _ _ _ _ _) as [[title|error] w'].
    + now exists (postProcess settings title).
    + destruct (onError_returns settings error w' (Hmessage error eq_refl))
        as (w'' & ->).
      now exists "".
  - destruct (generateTitle_invalid settings transport noteContent w Hinvalid)
      as (w' & -> & _).
    now exists "".
Qed.

(** *** A provider that answers every request *)

Lemma adapterOutcome_respond (provider : string)
  (answer : nat -> string -> string) (n : nat) (p : string) :
  adapterOutcome provider (respond answer n p) = Ok (answer n p).
Proof. reflexivity. Qed.

(** The run of [generateTitle] against an answering provider, attempt by
    attempt: the result and the log of the calls made. *)
Lemma generateTitle_respond (settings : TitleGeneratorSettings)
  (answer : nat -> string -> string) (noteContent : string) :
  configurationValid settings ->
  let content := slice0 noteContent (maxContentLength settings) in
  let t1 := title1 settings answer content in
  let t2 := title2 settings answer content in
  let t3 := title3 settings answer content in
  let out := generateTitle settings (respond answer) noteContent emptyWorld in
  if isValidTitle settings t1 then
    fst out = Ok (postProcess settings t1)
    /\ calls (snd out) = [(initialPrompt settings, content)]
  else if isValidTitle settings t2 then
    fst out = Ok (postProcess settings t2)
    /\ calls (snd out)
       = [(initialPrompt settings, content);
          (refinementPrompt settings t1, "")]
  else
    fst out = Ok (postProcess settings t3)
    /\ calls (snd out)
       = [(initialPrompt settings, content);
          (refinementPrompt settings t1, "");
          (refinementPrompt settings t2, "")].
Proof.
  intros Hvalid. cbv zeta.
  rewrite generateTitle_valid by assumption. unfold maxAttempts.
  set (content := slice0 noteContent (maxContentLength settings)).
  rewrite attemptLoop_step by assumption. cbv zeta.
  change (attemptPrompt settings 1 "") with (initialPrompt settings).
  change (attemptContent content 1) with content.
  change (beforeAttempt 1 emptyWorld) with emptyWorld.
  rewrite adapterOutcome_respond.
  change (Datatypes.length (requests emptyWorld)) with 0%nat.
  fold (title1 settings answer content).
  destruct (isValidTitle settings (title1 settings answer content));
    [split; reflexivity|].
  rewrite attemptLoop_step by assumption. cbv zeta.
  change (1 + 1) with 2.
  change (attemptPrompt settings 2 (title1 settings answer content))
    with (refinementPrompt settings (title1 settings answer content)).
  change (attemptContent content 2) with "".
  rewrite adapterOutcome_respond, beforeAttempt_requests.
  change (Datatypes.length (requests (afterCall (initialPrompt settings)
                                        content emptyWorld))) with 1%nat.
  fold (title2 settings answer content).
  destruct (isValidTitle settings (title2 settings answer content));
    [split; reflexivity|].
  rewrite attemptLoop_step by assumption. cbv zeta.
  change (2 + 1) with 3.
  change (attemptPrompt settings 3 (title2 settings answer content))
    with (refinementPrompt settings (title2 settings answer content)).
  change (attemptContent content 3) with "".
  rewrite adapterOutcome_respond, !beforeAttempt_requests.
  change (Datatypes.length
            (requests
               (afterCall
                  (refinementPrompt settings (title1 settings answer content))
                  ""
                  (beforeAttempt 2
                     (afterCall (initialPrompt settings) content emptyWorld)))))
    with 2%nat.
  fold (title3 settings answer content).
  destruct (isValidTitle settings (title3 settings answer content));
    split; reflexivity.
Qed.

(** C1, as the code has it.  Under a valid configuration, against any
    provider, [generateTitle] makes at most three provider calls, and the
    string it returns has a length of at most the configured maximum when
    that maximum is not negative; it does return a string whenever the
    failures of the provider carry a message, as every [Error] does.
    Against a provider that answers every request,
    it stops at the first attempt whose cleaned title is non-empty and
    within the maximum, having made no further call, and otherwise makes
    exactly three calls and goes on with the cleaned title of the third; what
    it returns is that title after the final processing and truncation. *)
Theorem C1_generation_loop :
  forall (settings : TitleGeneratorSettings) (noteContent : string),
    configurationValid settings ->
    (forall transport : Transport,
       let out := generateTitle settings transport noteContent emptyWorld in
       (List.length (calls (snd out)) <= 3)%nat
       /\ (forall title,
             fst out = Ok title ->
             0 <= maxTitleLength settings ->
             len title <= maxTitleLength settings)
       /\ ((forall k p, messageBearing (transport k p) = true) ->
           exists title, fst out = Ok title))
    /\ (forall answer : nat -> string -> string,
          let content := slice0 noteContent (maxContentLength settings) in
          let t1 := title1 settings answer content in
          let t2 := title2 settings answer content in
          let t3 := title3 settings answer content in
          let out :=
            generateTitle settings (respond answer) noteContent emptyWorld in
          if isValidTitle settings t1 then
            fst out = Ok (postProcess settings t1)
            /\ calls (snd out) = [(initialPrompt settings, content)]
          else if isValidTitle settings t2 then
            fst out = Ok (postProcess settings t2)
            /\ calls (snd out)
               = [(initialPrompt settings, content);
                  (refinementPrompt settings t1, "")]
          else
            fst out = Ok (postProcess settings t3)
            /\ calls (snd out)
               = [(initialPrompt settings, content);
                  (refinementPrompt settings t1, "");
                  (refinementPrompt settings t2, "")]).
Proof.
  intros settings noteContent Hvalid. split.
  - intros transport. cbv zeta. split; [|split].
    + apply (generateTitle_calls_le settings transport noteContent emptyWorld).
    + intros title. apply generateTitle_length.
    + apply generateTitle_returns.
  - intros answer. now apply generateTitle_respond.
Qed.

Lemma C1_generation_loop_witness :
  configurationValid Sample.settings
  /\ 0 <= maxTitleLength Sample.settings
  /\ (List.length
        (calls (snd (generateTitle Sample.settings
                       (scripted Sample.dollarScript) Sample.note emptyWorld)))
      <= 3)%nat
  /\ exists title,
       fst (generateTitle Sample.settings (scripted Sample.dollarScript)
              Sample.note emptyWorld) = Ok title
       /\ len title <= maxTitleLength Sample.settings.
Proof.
  assert (Hvalid : configurationValid Sample.settings) by reflexivity.
  assert (Hmax : 0 <= maxTitleLength Sample.settings) by (cbn; lia).
  split; [exact Hvalid|]. split; [exact Hmax|].
  destruct (proj1 (C1_generation_loop Sample.settings Sample.note Hvalid)
              (scripted Sample.dollarScript))
    as (Hcalls & Hlen & Hreturns).
  split; [exact Hcalls|].
  destruct (Hreturns (fun _ _ => eq_refl)) as (title & Hout).
  exists title. split; [exact Hout | exact (Hlen title Hout Hmax)].
Defined.

(** C1 as stated fails: with a negative configured maximum the
    configuration check passes, and the returned string, like any string, is
    longer than the maximum. *)
Lemma C1_counterexample :
  configurationValid Sample.negativeMax
  /\ fst (generateTitle Sample.negativeMax (scripted ["A title"])
            Sample.note emptyWorld) = Ok ""
  /\ ~ (len "" <= maxTitleLength Sample.negativeMax)
  /\ forall title : string, ~ (len title <= maxTitleLength Sample.negativeMax).
Proof.
  split; [reflexivity|]. split; [vm_compute; reflexivity|].
  split; [cbn; lia|]. intros title. unfold len. cbn. lia.
Qed.

(** *** Failing requests *)

Lemma adapterOutcome_ok_not_failed (provider : string)
  (outcome : result HttpResponse) (rawTitle : string) :
  adapterOutcome provider outcome = Ok rawTitle -> failed outcome = false.
Proof.
  unfold adapterOutcome, failed. destruct outcome as [response|e];
    [|discriminate].
  destruct (negb (status response =? 200)); [discriminate|].
  intros ->. reflexivity.
Qed.

(** The requests the loop sends extend the log, and the loop throws as soon
    as one of them fails. *)
Lemma attemptLoop_requests (settings : TitleGeneratorSettings)
  (transport : Transport) (content : string) :
  configurationValid settings ->
  forall (remaining : nat) (attempt : Z) (title : string) (w : World),
    let out :=
      attemptLoop settings transport content remaining attempt title w in
    (exists extra, requests (snd out) = (requests w ++ extra)%list)
    /\ (forall (k : nat) (p : string),
          (List.length (requests w) <= k)%nat ->
          nth_error (requests (snd out)) k = Some p ->
          failed (transport k p) = true ->
          exists e, fst out = Throw e).
Proof.
  intros Hvalid. induction remaining as [|remaining IH];
    intros attempt title w; cbv zeta.
  - cbn. split; [exists []; now rewrite app_nil_r|].
    intros k p Hk Hnth _. apply nth_error_None in Hk. congruence.
  - rewrite attemptLoop_step by assumption. cbv zeta.
    set (prompt := attemptPrompt settings attempt title).
    set (body := attemptContent content attempt).
    set (w1 := afterCall prompt body (beforeAttempt attempt w)).
    assert (Hw1 : requests w1 = (requests w ++ [fullPrompt prompt body])%list).
    { unfold w1. cbn [afterCall requests].
      now rewrite beforeAttempt_requests. }
    rewrite beforeAttempt_requests.
    destruct (adapterOutcome (aiProvider settings)
                (transport (List.length (requests w)) (fullPrompt prompt body)))
      as [rawTitle|e] eqn:Houtcome.
    + apply adapterOutcome_ok_not_failed in Houtcome.
      assert (Hfirst : forall extra (k : nat) (p : string),
                (List.length (requests w) <= k)%nat ->
                nth_error
                  ((requests w ++ [fullPrompt prompt body]) ++ extra)%list k
                = Some p ->
                failed (transport k p) = true ->
                (List.length (requests w ++ [fullPrompt prompt body])%list
                 <= k)%nat).
      { intros extra k p Hk Hnth Hfailed. rewrite List.length_app. cbn.
        destruct (Nat.eq_dec k (List.length (requests w))) as [->|Hne];
          [|lia].
        rewrite <- app_assoc, nth_error_app2, Nat.sub_diag in Hnth by lia.
        cbn in Hnth. injection Hnth as <-. congruence. }
      destruct (isValidTitle settings (cleanAIResponse rawTitle)).
      * cbn [fst snd]. rewrite Hw1. split; [now eexists|].
        intros k p Hk Hnth Hfailed.
        rewrite <- (app_nil_r (requests w ++ _)%list) in Hnth.
        pose proof (Hfirst [] k p Hk Hnth Hfailed) as Hle.
        rewrite app_nil_r in Hnth.
        apply nth_error_None in Hle. congruence.
      * destruct (IH (attempt + 1) (cleanAIResponse rawTitle) w1)
          as [[extra Hextra] Hthrow].
        split.
        -- exists ([fullPrompt prompt body] ++ extra)%list.
           now rewrite Hextra, Hw1, <- app_assoc.
        -- intros k p Hk Hnth Hfailed. apply (Hthrow k p); try assumption.
           rewrite Hw1. apply (Hfirst extra k p Hk); [|assumption].
           now rewrite <- Hw1, <- Hextra.
    + cbn [fst snd]. rewrite Hw1. split; [now eexists | now eexists].
Qed.

(** Exceptions that carry a message are caught. *)
Lemma generateTitle_catches (settings : TitleGeneratorSettings)
  (transport : Transport) (noteContent : string) :
  (forall k p, messageBearing (transport k p) = true) ->
  let out := generateTitle settings transport noteContent emptyWorld in
  (exists title, fst out = Ok title)
  /\ (forall (k : nat) (p : string),
        nth_error (requests (snd out)) k = Some p ->
        failed (transport k p) = true ->
        fst out = Ok "").
Proof.
  intros Hbearing. cbv zeta. split.
  - now apply generateTitle_returns.
  - intros k p Hnth Hfailed.
    destruct (configurationValid_dec settings) as [Hvalid|Hinvalid].
    + rewrite generateTitle_valid in * by assumption.
      pose proof (attemptLoop_throws_message settings transport
                    (slice0 noteContent (maxContentLength settings)) Hvalid
                    Hbearing maxAttempts 1 "" emptyWorld) as Hmessage.
      destruct (attemptLoop_requests settings transport
                  (slice0 noteContent (maxContentLength settings)) Hvalid
                  maxAttempts 1 "" emptyWorld) as [_ Hthrow].
      destruct (attemptLoop _ _ _ _ _ _ _) as [[title|error] w'].
      * cbn [fst snd] in *.
        destruct (Hthrow k p) as [e He]; try assumption; [cbn; lia|].
        discriminate.
      * destruct (onError_returns settings error w' (Hmessage error eq_refl))
          as (w'' & ->).
        reflexivity.
    + destruct (generateTitle_invalid settings transport noteContent
                  emptyWorld Hinvalid) as (w' & -> & _).
      reflexivity.
Qed.

(** A first request rejected with a value that has no message: the catch
    block throws, and nothing is shown. *)
Lemma generateTitle_rejected_without_message
  (settings : TitleGeneratorSettings) (transport : Transport)
  (noteContent : string) (v : value) :
  configurationValid settings ->
  transport 0%nat
    (fullPrompt (initialPrompt settings)
       (slice0 noteContent (maxContentLength settings)))
  = Throw (Thrown v) ->
  exists message,
    generateTitle settings transport noteContent emptyWorld
    = (Throw (TypeError message),
       {| notices := [];
          calls := [(initialPrompt settings,
                     slice0 noteContent (maxContentLength settings))];
          requests := [fullPrompt (initialPrompt settings)
                         (slice0 noteContent (maxContentLength settings))] |}).
Proof.
  intros Hvalid Htransport.
  rewrite generateTitle_valid by assumption.
  unfold maxAttempts. rewrite attemptLoop_step by assumption. cbv zeta.
  change (attemptPrompt settings 1 "") with (initialPrompt settings).
  change (attemptContent ?c 1) with c.
  change (beforeAttempt 1 emptyWorld) with emptyWorld.
  cbn [requests emptyWorld List.length]. rewrite Htransport.
  cbn [adapterOutcome]. eexists. reflexivity.
Qed.

(** C5, at an input where the code departs from it.  The configuration
    passes the check and the first request is rejected with a string, a
    value that has no message.  The catch block receives it, but its first
    test calls a method on the missing message: a [TypeError] leaves
    [generateTitle], which returns no string and shows no notice. *)
Theorem C5_rejection_without_message_escapes :
  configurationValid Sample.settings
  /\ Sample.rejecting 0%nat
       (fullPrompt (initialPrompt Sample.settings) Sample.note)
     = Throw (Thrown (Str "Request failed"))
  /\ (exists message,
        fst (generateTitle Sample.settings Sample.rejecting Sample.note
               emptyWorld)
        = Throw (TypeError message))
  /\ fst (generateTitle Sample.settings Sample.rejecting Sample.note
            emptyWorld) <> Ok ""
  /\ notices (snd (generateTitle Sample.settings Sample.rejecting Sample.note
                     emptyWorld)) = [].
Proof.
  assert (Hvalid : configurationValid Sample.settings) by reflexivity.
  destruct (generateTitle_rejected_without_message Sample.settings
              Sample.rejecting Sample.note (Str "Request failed") Hvalid
              eq_refl) as (message & Hrun).
  rewrite Hrun. cbn [fst snd notices].
  repeat match goal with |- _ /\ _ => split end;
    [exact Hvalid | reflexivity | now exists message | discriminate
    | reflexivity].
Qed.

(** X25.  Every exception that carries a message is caught: against a
    provider whose failures (a rejected request, a body that cannot be
    read) are errors with a message, [generateTitle] returns a string and
    throws nothing; and as soon as one of the requests it sends fails (the
    request is rejected, the status is not 200, or the body cannot be read)
    the string it returns is the empty one. *)
Theorem X25_exceptions_with_a_message_are_caught :
  forall (settings : TitleGeneratorSettings) (transport : Transport)
         (noteContent : string),
    (forall k p, messageBearing (transport k p) = true) ->
    let out := generateTitle settings transport noteContent emptyWorld in
    (exists title, fst out = Ok title)
    /\ (forall (k : nat) (p : string),
          nth_error (requests (snd out)) k = Some p ->
          failed (transport k p) = true ->
          fst out = Ok "").
Proof. exact generateTitle_catches. Qed.

Lemma X25_exceptions_with_a_message_are_caught_witness :
  (forall k p, messageBearing (Sample.failingSecond k p) = true)
  /\ exists p,
       nth_error
         (requests (snd (generateTitle Sample.settings Sample.failingSecond
                           Sample.note emptyWorld))) 1%nat = Some p
       /\ failed (Sample.failingSecond 1%nat p) = true
       /\ fst (generateTitle Sample.settings Sample.failingSecond Sample.note
                 emptyWorld) = Ok "".
Proof.
  assert (Hbearing : forall k p, messageBearing (Sample.failingSecond k p) = true).
  { intros k p. unfold Sample.failingSecond.
    destruct (k =? 0)%nat; reflexivity. }
  split; [exact Hbearing|].
  eexists. split; [vm_compute; reflexivity|].
  split; [vm_compute; reflexivity|].
  apply (proj2 (X25_exceptions_with_a_message_are_caught Sample.settings
                  Sample.failingSecond Sample.note Hbearing) 1%nat
           "Make this title shorter (under 20 characters): A title that is much too long for the bound. Respond with ONLY the new title.").
  - vm_compute. reflexivity.
  - vm_compute. reflexivity.
Defined.

(** *** Placeholder substitution *)

Lemma drop_add (a b : nat) (s : string) : drop (a + b) s = drop b (drop a s).
Proof.
  revert s; induction a as [|a IH]; intros s; cbn [Nat.add].
  - now destruct s.
  - destruct s as [|c s]; cbn [drop]; [now destruct b | apply IH].
Qed.

Lemma getSubstitution_noDollar (matched preceding following template : string) :
  noDollar template = true ->
  getSubstitution matched preceding following template = template.
Proof.
  induction template as [|c rest IH]; [reflexivity|].
  cbn [noDollar]. intros H. apply andb_prop in H as [Hc Hrest].
  specialize (IH Hrest). cbn [getSubstitution].
  destruct (Ascii.eqb_spec c "$") as [->|Hne]; [discriminate|].
  destruct c as [[] [] [] [] [] [] [] []]; try (now rewrite IH);
    now elim Hne.
Qed.

Lemma noDollar_uint (d : Decimal.uint) :
  noDollar (NilEmpty.string_of_uint d) = true.
Proof. induction d; cbn; auto. Qed.

Lemma toString_noDollar (z : Z) : noDollar (toString z) = true.
Proof.
  unfold toString, NilZero.string_of_int, NilZero.string_of_uint.
  destruct (Z.to_int z) as [d|d]; destruct d; cbn [noDollar];
    try reflexivity; apply noDollar_uint.
Qed.

(** [replace] touches the first occurrence only: what precedes and what
    follows it, later occurrences included, stay as they are. *)
Lemma replace_first (pre pattern post replacement : string) :
  indexOf pattern (pre ++ pattern ++ post) = Some (String.length pre) ->
  replace (pre ++ pattern ++ post) pattern replacement
  = pre ++ getSubstitution pattern pre post replacement ++ post.
Proof.
  intros Hindex. unfold replace. rewrite Hindex.
  now rewrite take_app_length, drop_add, !drop_app_length.
Qed.

(** The position [indexOf] yields is the first one where the pattern
    occurs. *)
Lemma indexOf_first (pattern s : string) (i : nat) :
  indexOf pattern s = Some i ->
  substring i (String.length pattern) s = pattern
  /\ forall j, (j < i)%nat -> substring j (String.length pattern) s <> pattern.
Proof.
  unfold indexOf. intros H. split.
  - exact (index_correct1 _ _ _ _ H).
  - intros j Hj. apply (index_correct2 _ _ _ _ H); lia.
Qed.

Lemma initialPrompt_first (settings : TitleGeneratorSettings) (pre post : string) :
  customPrompt settings = pre ++ "{max_length}" ++ post ->
  indexOf "{max_length}" (customPrompt settings) = Some (String.length pre) ->
  initialPrompt settings
  = pre ++ toString (maxTitleLength settings) ++ post.
Proof.
  intros Hshape Hindex. unfold initialPrompt. rewrite Hshape in *.
  rewrite replace_first by assumption.
  now rewrite getSubstitution_noDollar by apply toString_noDollar.
Qed.

Lemma refinementPrompt_first (settings : TitleGeneratorSettings)
  (pre post pre' post' title : string) :
  refinePrompt settings = pre ++ "{max_length}" ++ post ->
  indexOf "{max_length}" (refinePrompt settings) = Some (String.length pre) ->
  pre ++ toString (maxTitleLength settings) ++ post
  = pre' ++ "{title}" ++ post' ->
  indexOf "{title}" (pre ++ toString (maxTitleLength settings) ++ post)
  = Some (String.length pre') ->
  refinementPrompt settings title
  = pre' ++ getSubstitution "{title}" pre' post' title ++ post'.
Proof.
  intros Hshape Hindex Hshape' Hindex'. unfold refinementPrompt.
  rewrite Hshape in *. rewrite replace_first by assumption.
  rewrite getSubstitution_noDollar by apply toString_noDollar.
  rewrite Hshape' in *. now apply replace_first.
Qed.

(** A title without a dollar sign is inserted as it is. *)
Lemma refinementPrompt_plain_title (settings : TitleGeneratorSettings)
  (pre post pre' post' title : string) :
  noDollar title = true ->
  refinePrompt settings = pre ++ "{max_length}" ++ post ->
  indexOf "{max_length}" (refinePrompt settings) = Some (String.length pre) ->
  pre ++ toString (maxTitleLength settings) ++ post
  = pre' ++ "{title}" ++ post' ->
  indexOf "{title}" (pre ++ toString (maxTitleLength settings) ++ post)
  = Some (String.length pre') ->
  refinementPrompt settings title = pre' ++ title ++ post'.
Proof.
  intros Hplain Hshape Hindex Hshape' Hindex'.
  rewrite (refinementPrompt_first settings pre post pre' post' title)
    by assumption.
  now rewrite getSubstitution_noDollar.
Qed.

(** C10.  Each placeholder is substituted at its first occurrence only.
    When the first length placeholder of the initial prompt sits between
    [pre] and [post], the prompt sent is [pre], the maximum in decimal, and
    [post] untouched, later placeholders included.  The refinement prompt is
    treated the same way for the length placeholder and then for the title
    placeholder, whose first occurrence is replaced by the expansion of the
    title and whose later occurrences stay.  The run on a configuration
    holding each placeholder twice shows the second ones sent verbatim. *)
Theorem C10_first_occurrence_only :
  (forall (settings : TitleGeneratorSettings) (pre post : string),
     customPrompt settings = pre ++ "{max_length}" ++ post ->
     indexOf "{max_length}" (customPrompt settings) = Some (String.length pre) ->
     initialPrompt settings
     = pre ++ toString (maxTitleLength settings) ++ post)
  /\ (forall (settings : TitleGeneratorSettings)
             (pre post pre' post' title : string),
        refinePrompt settings = pre ++ "{max_length}" ++ post ->
        indexOf "{max_length}" (refinePrompt settings)
        = Some (String.length pre) ->
        pre ++ toString (maxTitleLength settings) ++ post
        = pre' ++ "{title}" ++ post' ->
        indexOf "{title}" (pre ++ toString (maxTitleLength settings) ++ post)
        = Some (String.length pre') ->
        refinementPrompt settings title
        = pre' ++ getSubstitution "{title}" pre' post' title ++ post')
  /\ calls
       (snd (generateTitle Sample.repeatedPlaceholders
               (scripted ["A first title that is far too long"; "Short title"])
               Sample.note emptyWorld))
     = [("At most 20 characters, I said {max_length}.", Sample.note);
        ("Shorten A first title that is far too long to 20; not {title}, under {max_length}.",
         "")].
Proof.
  split; [exact initialPrompt_first|].
  split; [exact refinementPrompt_first|].
  vm_compute. reflexivity.
Qed.

Lemma C10_first_occurrence_only_witness :
  (customPrompt Sample.repeatedPlaceholders
   = "At most " ++ "{max_length}" ++ " characters, I said {max_length}."
   /\ indexOf "{max_length}" (customPrompt Sample.repeatedPlaceholders)
      = Some (String.length "At most ")
   /\ initialPrompt Sample.repeatedPlaceholders
      = "At most " ++ toString (maxTitleLength Sample.repeatedPlaceholders)
          ++ " characters, I said {max_length}.")
  /\ refinementPrompt Sample.repeatedPlaceholders "Long title"
     = "Shorten "
         ++ getSubstitution "{title}" "Shorten "
              " to 20; not {title}, under {max_length}." "Long title"
         ++ " to 20; not {title}, under {max_length}.".
Proof.
  split.
  - split; [reflexivity|]. split; [vm_compute; reflexivity|].
    apply (proj1 C10_first_occurrence_only Sample.repeatedPlaceholders
             "At most " " characters, I said {max_length}.").
    + reflexivity.
    + vm_compute. reflexivity.
  - apply (proj1 (proj2 C10_first_occurrence_only)
             Sample.repeatedPlaceholders
             "Shorten {title} to " "; not {title}, under {max_length}."
             "Shorten " " to 20; not {title}, under {max_length}."
             "Long title").
    + reflexivity.
    + vm_compute. reflexivity.
    + vm_compute. reflexivity.
    + vm_compute. reflexivity.
Defined.

(** C3, at an input where the code departs from it.  The first answer is
    too long and holds two dollar signs in a row; the second is short.  Two
    attempts occur, the second with empty content and with the length
    placeholder replaced by the maximum; but the text put in place of the
    title placeholder holds one dollar sign where the previous cleaned title
    holds two, because [replace] reads its replacement as a template. *)
Theorem C3_title_placeholder_is_expanded_as_a_template :
  cleanAIResponse (nth 0 Sample.dollarScript "")
  = "How to save $$ on your monthly bills"
  /\ isValidTitle Sample.settings (cleanAIResponse (nth 0 Sample.dollarScript ""))
     = false
  /\ fst (generateTitle Sample.settings (scripted Sample.dollarScript)
            Sample.note emptyWorld) = Ok "Save on bills"
  /\ calls (snd (generateTitle Sample.settings (scripted Sample.dollarScript)
                   Sample.note emptyWorld))
     = [("Create a concise title for this text. Maximum 20 characters.",
         Sample.note);
        ("Make this title shorter (under 20 characters): How to save $ on your monthly bills. Respond with ONLY the new title.",
         "")]
  /\ refinementPrompt Sample.settings "How to save $$ on your monthly bills"
     <> "Make this title shorter (under 20 characters): How to save $$ on your monthly bills. Respond with ONLY the new title.".
Proof.
  repeat split; try (vm_compute; reflexivity).
  vm_compute. discriminate.
Qed.

(** What holds of the refinement attempts for every answering provider: the
    second and third calls carry the refinement prompt built from the
    cleaned title of the attempt before, with empty content, and a first
    answer that is not valid followed by a valid one makes exactly two
    calls. *)
Lemma refinement_attempts (settings : TitleGeneratorSettings)
  (answer : nat -> string -> string) (noteContent : string) :
  configurationValid settings ->
  let content := slice0 noteContent (maxContentLength settings) in
  let t1 := title1 settings answer content in
  let t2 := title2 settings answer content in
  isValidTitle settings t1 = false ->
  isValidTitle settings t2 = true ->
  calls (snd (generateTitle settings (respond answer) noteContent emptyWorld))
  = [(initialPrompt settings, content); (refinementPrompt settings t1, "")].
Proof.
  intros Hvalid content t1 t2 H1 H2.
  pose proof (generateTitle_respond settings answer noteContent Hvalid) as H.
  cbv zeta in H. fold content in H. fold t1 in H. fold t2 in H.
  rewrite H1, H2 in H. apply H.
Qed.

(** * Further properties *)

(** ** Field validators *)

Lemma validateModelName_valid_iff :
  forall name provider : string,
    valid (validateModelName (Str name) provider) = true
    <-> 1 <= len (trim name) <= 100.
Proof.
  intros name provider. unfold validateModelName. destruct name as [|c name].
  - change (len (trim "")) with 0. rewrite valid_fail.
    split; [discriminate | lia].
  - cbv zeta.
    unfold VALIDATION_RULES.MODEL_NAME.MIN_LENGTH,
      VALIDATION_RULES.MODEL_NAME.MAX_LENGTH.
    set (t := trim (String c name)). set (n := len t).
    rewrite Z.gtb_ltb.
    destruct (Z.eqb_spec n 0) as [H0|H0];
      [rewrite valid_fail; split; [discriminate | lia]|].
    assert (Hshape : forall (r : ValidationResult) (b1 b2 b3 b4 b5 b6 : bool)
                            (m1 m2 m3 : string),
      valid
        (if b1 then if b2 then warn m1 r else r
         else if b3 then if b4 then warn m2 r else r
         else if b5 then if b6 then warn m3 r else r
         else r) = valid r).
    { intros r [] [] [] [] [] [] m1 m2 m3; reflexivity. }
    rewrite Hshape.
    destruct (Z.ltb_spec n 1), (Z.ltb_spec 100 n);
      rewrite ?valid_fail; cbn [valid fresh]; split;
      try discriminate; try lia; reflexivity.
Qed.

(** X1.  A model name given as a string is valid exactly when its trimmed
    length lies between 1 and 100, whatever the provider: the provider only
    decides the warning. *)
Theorem X1_validateModelName_valid_iff :
  forall name provider : string,
    valid (validateModelName (Str name) provider) = true
    <-> 1 <= len (trim name) <= 100.
Proof. exact validateModelName_valid_iff. Qed.

Lemma valid_fold_placeholders (t : string) (placeholders : list string)
  (r : ValidationResult) :
  valid
    (fold_left
       (fun result placeholder =>
          if negb (includes placeholder t) then
            fail ("Refinement prompt must contain placeholder: " ++ placeholder)
              result
          else result)
       placeholders r)
  = valid r && forallb (fun placeholder => includes placeholder t) placeholders.
Proof.
  revert r. induction placeholders as [|ph rest IH]; intros r; cbn [fold_left forallb].
  - now rewrite andb_true_r.
  - rewrite IH. destruct (includes ph t); cbn [negb andb].
    + reflexivity.
    + rewrite valid_fail. now rewrite andb_false_r.
Qed.

Lemma errors_fold_placeholders (t : string) (placeholders : list string)
  (r : ValidationResult) :
  errors
    (fold_left
       (fun result placeholder =>
          if negb (includes placeholder t) then
            fail ("Refinement prompt must contain placeholder: " ++ placeholder)
              result
          else result)
       placeholders r)
  = (errors r
     ++ map (fun placeholder =>
               ("Refinement prompt must contain placeholder: "
                  ++ placeholder)%string)
          (filter (fun placeholder => negb (includes placeholder t))
             placeholders))%list.
Proof.
  revert r. induction placeholders as [|ph rest IH]; intros r;
    cbn [fold_left filter map].
  - now rewrite app_nil_r.
  - rewrite IH. destruct (includes ph t); cbn [negb map]; [reflexivity|].
    unfold fail at 1. cbn [errors pushErrors setInvalid].
    now rewrite <- app_assoc.
Qed.

Lemma validatePrompt_valid_iff :
  forall (prompt : string) (isRefinementPrompt : bool),
    valid (validatePrompt (Str prompt) isRefinementPrompt) = true
    <-> 10 <= len (trim prompt) <= 1000
        /\ hasPlaceholder "{max_length}" prompt = true
        /\ (isRefinementPrompt = true -> hasPlaceholder "{title}" prompt = true).
Proof.
  intros prompt isRefinementPrompt. unfold validatePrompt, hasPlaceholder.
  destruct prompt as [|c prompt].
  - change (len (trim "")) with 0. rewrite valid_fail.
    split; [discriminate | lia].
  - cbv zeta. set (t := trim (String c prompt)). set (n := len t).
    destruct (Z.eqb_spec n 0) as [H0|H0];
      [rewrite valid_fail; split; [discriminate | lia]|].
    destruct isRefinementPrompt.
    + rewrite valid_fold_placeholders.
      unfold VALIDATION_RULES.REFINE_PROMPT.REQUIRED_PLACEHOLDERS,
        VALIDATION_RULES.REFINE_PROMPT.MIN_LENGTH,
        VALIDATION_RULES.REFINE_PROMPT.MAX_LENGTH.
      cbn [forallb]. rewrite Z.gtb_ltb, andb_true_r.
      destruct (Z.ltb_spec n 10), (Z.ltb_spec 1000 n),
        (includes "{max_length}" t), (includes "{title}" t);
        rewrite ?valid_fail; cbn [valid fresh andb]; split;
        try discriminate; try lia; try reflexivity;
        intros (_ & H1 & H2); try discriminate H1;
        specialize (H2 eq_refl); discriminate H2.
    + unfold VALIDATION_RULES.PROMPT.REQUIRED_PLACEHOLDER,
        VALIDATION_RULES.PROMPT.MIN_LENGTH,
        VALIDATION_RULES.PROMPT.MAX_LENGTH.
      rewrite Z.gtb_ltb.
      destruct (Z.ltb_spec n 10), (Z.ltb_spec 1000 n),
        (includes "{max_length}" t);
        cbn [negb]; rewrite ?valid_fail; cbn [valid fresh]; split;
        try discriminate; try lia; try reflexivity;
        try (intros (_ & H1 & _); discriminate H1).
Qed.

(** X2.  A prompt given as a string is valid exactly when its trimmed
    length lies between 10 and 1000 and it holds the required placeholders:
    the length placeholder, and for a refinement prompt the title
    placeholder as well. *)
Theorem X2_validatePrompt_valid_iff :
  forall (prompt : string) (isRefinementPrompt : bool),
    valid (validatePrompt (Str prompt) isRefinementPrompt) = true
    <-> 10 <= len (trim prompt) <= 1000
        /\ hasPlaceholder "{max_length}" prompt = true
        /\ (isRefinementPrompt = true -> hasPlaceholder "{title}" prompt = true).
Proof. exact validatePrompt_valid_iff. Qed.

(** X3.  For a refinement prompt whose trimmed length is within the bounds,
    the errors are one message per missing placeholder, in the order length
    placeholder, title placeholder: a missing placeholder does not hide the
    other. *)
Theorem X3_validatePrompt_reports_each_missing_placeholder :
  forall prompt : string,
    10 <= len (trim prompt) <= 1000 ->
    errors (validatePrompt (Str prompt) true)
    = map (fun placeholder =>
             "Refinement prompt must contain placeholder: " ++ placeholder)
        (filter (fun placeholder => negb (hasPlaceholder placeholder prompt))
           ["{max_length}"; "{title}"]).
Proof.
  intros prompt Hlen. unfold validatePrompt, hasPlaceholder.
  destruct prompt as [|c prompt].
  - change (len (trim "")) with 0 in Hlen. lia.
  - cbv zeta. set (t := trim (String c prompt)) in *. set (n := len t) in *.
    destruct (Z.eqb_spec n 0) as [H0|H0]; [lia|].
    rewrite errors_fold_placeholders.
    unfold VALIDATION_RULES.REFINE_PROMPT.MIN_LENGTH,
      VALIDATION_RULES.REFINE_PROMPT.MAX_LENGTH.
    rewrite Z.gtb_ltb.
    destruct (Z.ltb_spec n 10); [lia|]. destruct (Z.ltb_spec 1000 n); [lia|].
    reflexivity.
Qed.

Lemma X3_validatePrompt_reports_each_missing_placeholder_witness :
  10 <= len (trim "Make this shorter, please.") <= 1000
  /\ errors (validatePrompt (Str "Make this shorter, please.") true)
     = ["Refinement prompt must contain placeholder: {max_length}";
        "Refinement prompt must contain placeholder: {title}"].
Proof.
  assert (H : 10 <= len (trim "Make this shorter, please.") <= 1000)
    by (vm_compute; split; discriminate).
  split; [exact H|].
  rewrite (X3_validatePrompt_reports_each_missing_placeholder
             "Make this shorter, please." H).
  vm_compute. reflexivity.
Defined.

Lemma ltb_Finite_false (p q : Q) : ltb (Finite p) (Finite q) = false <-> (q <= p)%Q.
Proof.
  unfold ltb. destruct (Qcompare p q) eqn:E.
  - apply Qeq_alt in E. split; [intros _; rewrite E; apply Qle_refl | reflexivity].
  - apply Qlt_alt in E. split; [discriminate|].
    intros H. exfalso. exact (Qlt_not_le _ _ E H).
  - apply Qgt_alt in E. split; [intros _; now apply Qlt_le_weak | reflexivity].
Qed.

(** The two bound checks of a numeric validator leave the result valid
    exactly when the number lies within the bounds. *)
Lemma valid_bounds (q lo hi : Q) (m1 m2 : string) :
  valid
    (if gtb (Finite q) (Finite hi) then
       fail m2 (if ltb (Finite q) (Finite lo) then fail m1 fresh else fresh)
     else if ltb (Finite q) (Finite lo) then fail m1 fresh else fresh) = true
  <-> (lo <= q <= hi)%Q.
Proof.
  unfold gtb.
  destruct (ltb (Finite hi) (Finite q)) eqn:Ehi,
           (ltb (Finite q) (Finite lo)) eqn:Elo;
    rewrite ?valid_fail; cbn [valid fresh].
  all: try apply ltb_Finite_false in Ehi; try apply ltb_Finite_false in Elo.
  all: split; try discriminate; try (intros _; now split).
  - intros [H1 H2]. apply ltb_Finite_false in H2. congruence.
  - intros [H1 H2]. apply ltb_Finite_false in H2. congruence.
  - intros [H1 H2]. apply ltb_Finite_false in H1. congruence.
Qed.

Lemma validateTemperature_valid_iff :
  forall temperature : value,
    valid (validateTemperature temperature) = true
    <-> exists q : Q, temperature = Num (Finite q) /\ (0 <= q <= 1)%Q.
Proof.
  intros temperature. unfold validateTemperature.
  destruct temperature as [| |b|t|s];
    try (rewrite valid_fail; split;
         [discriminate | intros (q & H & _); discriminate H]).
  destruct t as [| | |q];
    try (vm_compute; split;
         [discriminate | intros (q & H & _); discriminate H]).
  cbv zeta. change (isNaN (Finite q)) with false. cbv iota.
  unfold MODEL_CONFIG.MIN_TEMPERATURE, MODEL_CONFIG.MAX_TEMPERATURE, ofZ.
  assert (Hwarn : forall (r : ValidationResult) (b1 b2 : bool) (m1 m2 : string),
            valid (if b1 then warn m1 r else if b2 then warn m2 r else r)
            = valid r).
  { intros r [] [] m1 m2; reflexivity. }
  rewrite Hwarn.
  change (let result := if ltb (Finite q) (Finite (inject_Z 0))
                        then fail "Temperature must be at least 0" fresh
                        else fresh in
          if gtb (Finite q) (Finite (inject_Z 1))
          then fail "Temperature must be no more than 1" result
          else result)
    with (if gtb (Finite q) (Finite (inject_Z 1))
          then fail "Temperature must be no more than 1"
                 (if ltb (Finite q) (Finite (inject_Z 0))
                  then fail "Temperature must be at least 0" fresh else fresh)
          else if ltb (Finite q) (Finite (inject_Z 0))
               then fail "Temperature must be at least 0" fresh else fresh).
  rewrite valid_bounds. split.
  - intros H. now exists q.
  - intros (q' & Hq & H). now injection Hq as <-.
Qed.

(** X4.  A temperature is valid exactly when it is a finite number between
    0 and 1, both included: a value that is not a number, NaN and the two
    infinities are all rejected. *)
Theorem X4_validateTemperature_valid_iff :
  forall temperature : value,
    valid (validateTemperature temperature) = true
    <-> exists q : Q, temperature = Num (Finite q) /\ (0 <= q <= 1)%Q.
Proof. exact validateTemperature_valid_iff. Qed.

Lemma length_validators_valid_iff :
  forall length : value,
    (valid (validateMaxTitleLength length) = true
     <-> exists q : Q, length = Num (Finite q)
                       /\ isInteger (Finite q) = true
                       /\ (inject_Z 10 <= q <= inject_Z 500)%Q)
    /\ (valid (validateMaxContentLength length) = true
        <-> exists q : Q, length = Num (Finite q)
                          /\ isInteger (Finite q) = true
                          /\ (inject_Z 100 <= q <= inject_Z 10000)%Q).
Proof.
  assert (Hwarn : forall (r : ValidationResult) (b1 b2 : bool) (m1 m2 : string),
            valid (if b1 then warn m1 r else if b2 then warn m2 r else r)
            = valid r).
  { intros r [] [] m1 m2; reflexivity. }
  intros length. unfold validateMaxTitleLength, validateMaxContentLength.
  destruct length as [| |b|n|s];
    try (rewrite !valid_fail; split; split;
         solve [discriminate | intros (q & H & _); discriminate H]).
  destruct n as [| | |q];
    try (cbn [isNaN isInteger orb negb]; rewrite !valid_fail; split; split;
         solve [discriminate | intros (q & H & _); discriminate H]).
  cbv zeta. change (isNaN (Finite q)) with false. cbn [orb].
  destruct (isInteger (Finite q)) eqn:Hint; cbn [negb].
  - rewrite !Hwarn. unfold ofZ.
    unfold TITLE_CONFIG.MIN_MAX_LENGTH, TITLE_CONFIG.MAX_MAX_LENGTH,
      TITLE_CONFIG.MIN_MAX_CONTENT_LENGTH, TITLE_CONFIG.MAX_MAX_CONTENT_LENGTH.
    split.
    + etransitivity; [apply (valid_bounds q (inject_Z 10) (inject_Z 500))|].
      split; [intros H; now exists q|].
      intros (q' & Hq & _ & H). now injection Hq as <-.
    + etransitivity;
        [apply (valid_bounds q (inject_Z 100) (inject_Z 10000))|].
      split; [intros H; now exists q|].
      intros (q' & Hq & _ & H). now injection Hq as <-.
  - rewrite !valid_fail. split; split; try discriminate;
      intros (q' & Hq & Hint' & _); injection Hq as <-; congruence.
Qed.

(** X5.  The two length validators accept exactly the whole numbers within
    their bounds, 10 to 500 for the title and 100 to 10000 for the content:
    a value that is not a number, NaN, an infinity or a fraction is
    rejected. *)
Theorem X5_length_validators_valid_iff :
  forall length : value,
    (valid (validateMaxTitleLength length) = true
     <-> exists q : Q, length = Num (Finite q)
                       /\ isInteger (Finite q) = true
                       /\ (inject_Z 10 <= q <= inject_Z 500)%Q)
    /\ (valid (validateMaxContentLength length) = true
        <-> exists q : Q, length = Num (Finite q)
                          /\ isInteger (Finite q) = true
                          /\ (inject_Z 100 <= q <= inject_Z 10000)%Q).
Proof. exact length_validators_valid_iff. Qed.

(** ** The aggregation of [validateSettings] *)

Lemma valid_merge (sub r : ValidationResult) :
  valid (merge sub r) = valid r && valid sub.
Proof.
  unfold merge. destruct (valid sub); cbn; [now rewrite andb_true_r|].
  now rewrite andb_false_r.
Qed.

Lemma errors_merge (sub r : ValidationResult) :
  errors (merge sub r) = (errors r ++ errors sub)%list.
Proof. unfold merge. now destruct (valid sub). Qed.

Lemma warnings_merge (sub r : ValidationResult) :
  warnings (merge sub r) = (warnings r ++ warnings sub)%list.
Proof. unfold merge. now destruct (valid sub). Qed.

(** What [validateSettings] returns, when it returns: the seven steps in
    the order of the source. *)
Lemma validateSettings_result (settings : TitleGeneratorSettings)
  (r : ValidationResult) :
  validateSettings settings = Ok r ->
  knownProvider (aiProvider settings)
  /\ r =
     merge (validateMaxContentLength (Num (ofZ (maxContentLength settings))))
       (merge (validateMaxTitleLength (Num (ofZ (maxTitleLength settings))))
          (merge (validateTemperature (Num (temperature settings)))
             (merge (validatePrompt (Str (refinePrompt settings)) true)
                (merge (validatePrompt (Str (customPrompt settings)) false)
                   ((fun result =>
                       if isEmpty (activeModel settings) then
                         fail (toUpperCase (aiProvider settings)
                                 ++ " model is required") result
                       else
                         merge (validateModelName (Str (activeModel settings))
                                  (aiProvider settings)) result)
                      (if isEmpty (activeApiKey settings) then
                         fail (toUpperCase (aiProvider settings)
                                 ++ " API key is required") fresh
                       else
                         merge (validateApiKey (Str (activeApiKey settings))
                                  (aiProvider settings)) fresh)))))).
Proof.
  unfold validateSettings, getApiKeyField, getModelField, activeApiKey,
    activeModel, knownProvider.
  destruct (String.eqb_spec (aiProvider settings) "openai") as [E1|E1].
  { unfold bind. intros H.
    assert (H' := f_equal (fun o => match o with Ok a => a | Throw _ => r end) H).
    cbv beta iota in H'. subst r. split; [now left|].
    change (settingsGet settings "openAiApiKey")
      with (Str (openAiApiKey settings)).
    change (settingsGet settings "openAiModel")
      with (Str (openAiModel settings)).
    cbn [truthy]. destruct (isEmpty (openAiApiKey settings)),
                    (isEmpty (openAiModel settings)); reflexivity. }
  destruct (String.eqb_spec (aiProvider settings) "anthropic") as [E2|E2].
  { unfold bind. intros H.
    assert (H' := f_equal (fun o => match o with Ok a => a | Throw _ => r end) H).
    cbv beta iota in H'. subst r. split; [now right; left|].
    change (settingsGet settings "anthropicApiKey")
      with (Str (anthropicApiKey settings)).
    change (settingsGet settings "anthropicModel")
      with (Str (anthropicModel settings)).
    cbn [truthy]. destruct (isEmpty (anthropicApiKey settings)),
                    (isEmpty (anthropicModel settings)); reflexivity. }
  destruct (String.eqb_spec (aiProvider settings) "google") as [E3|E3].
  { unfold bind. intros H.
    assert (H' := f_equal (fun o => match o with Ok a => a | Throw _ => r end) H).
    cbv beta iota in H'. subst r. split; [now right; right|].
    change (settingsGet settings "googleApiKey")
      with (Str (googleApiKey settings)).
    change (settingsGet settings "googleModel")
      with (Str (googleModel settings)).
    cbn [truthy]. destruct (isEmpty (googleApiKey settings)),
                    (isEmpty (googleModel settings)); reflexivity. }
  cbn [bind]. discriminate.
Qed.

Lemma errors_fail (msg : string) (r : ValidationResult) :
  errors (fail msg r) = (errors r ++ [msg])%list.
Proof. reflexivity. Qed.

Lemma warnings_fail (msg : string) (r : ValidationResult) :
  warnings (fail msg r) = warnings r.
Proof. reflexivity. Qed.

Lemma trim_nonempty_of_len (s : string) (n : Z) :
  0 < n -> n <= len (trim s) -> isEmpty (trim s) = false /\ isEmpty s = false.
Proof.
  intros Hn Hlen. split.
  - destruct (trim s); [cbn in Hlen; lia | reflexivity].
  - destruct s; [cbn in Hlen; lia | reflexivity].
Qed.

Lemma validateSettings_valid_iff (settings : TitleGeneratorSettings)
  (r : ValidationResult) :
  validateSettings settings = Ok r ->
  (valid r = true <-> settingsInRange settings).
Proof.
  intros Hrun. apply validateSettings_result in Hrun as [_ ->].
  rewrite !valid_merge. cbv beta.
  assert (Hkey :
    valid (if isEmpty (activeApiKey settings) then
             fail (toUpperCase (aiProvider settings) ++ " API key is required")
               fresh
           else merge (validateApiKey (Str (activeApiKey settings))
                         (aiProvider settings)) fresh) = true
    <-> 10 <= len (trim (activeApiKey settings)) <= 200).
  { destruct (activeApiKey settings) as [|c k] eqn:E; cbn [isEmpty].
    - rewrite valid_fail. change (len (trim "")) with 0.
      split; [discriminate | lia].
    - rewrite valid_merge. cbn [valid fresh andb].
      apply validateApiKey_valid_iff. }
  assert (Hmodel : forall result,
    valid (if isEmpty (activeModel settings) then
             fail (toUpperCase (aiProvider settings) ++ " model is required")
               result
           else merge (validateModelName (Str (activeModel settings))
                         (aiProvider settings)) result) = true
    <-> valid result = true /\ 1 <= len (trim (activeModel settings)) <= 100).
  { intros result. destruct (activeModel settings) as [|c k] eqn:E;
      cbn [isEmpty].
    - rewrite valid_fail. change (len (trim "")) with 0.
      split; [discriminate | lia].
    - rewrite valid_merge, andb_true_iff.
      now rewrite validateModelName_valid_iff. }
  unfold settingsInRange.
  rewrite !andb_true_iff, Hmodel, Hkey, !validatePrompt_valid_iff,
    validateTemperature_valid_iff, validateMaxTitleLength_valid_iff,
    validateMaxContentLength_valid_iff.
  split.
  - intros ((((((Hk & Hm) & (Hp1 & Hp2 & _)) & (Hr1 & Hr2 & Hr3))
              & (q & Hq & Ht)) & Hl) & Hc).
    injection Hq as Hq. specialize (Hr3 eq_refl).
    split; [lia|]. split; [lia|]. split; [split; [lia | assumption]|].
    split; [split; [lia | split; assumption]|].
    split; [exists q; split; [assumption | exact Ht]|].
    split; lia.
  - intros (Hk & Hm & (Hp1 & Hp2) & (Hr1 & Hr2 & Hr3) & (q & Hq & Ht) & Hl & Hc).
    repeat match goal with |- _ /\ _ => split end;
      try lia; try assumption; try discriminate; try (intros _; assumption).
    exists q. split; [now rewrite Hq | exact Ht].
Qed.

(** X6.  When [validateSettings] returns, its result is valid exactly when
    every field is in range: the active provider's key has a trimmed length
    of 10 to 200 and its model one of 1 to 100, both prompts have a trimmed
    length of 10 to 1000 and hold their placeholders, the temperature is a
    finite number between 0 and 1, the title length lies within 10..500 and
    the content length within 100..10000. *)
Theorem X6_validateSettings_valid_iff_fields_in_range :
  forall (settings : TitleGeneratorSettings) (r : ValidationResult),
    validateSettings settings = Ok r ->
    (valid r = true <-> settingsInRange settings).
Proof. exact validateSettings_valid_iff. Qed.

Lemma X6_validateSettings_valid_iff_fields_in_range_witness :
  exists r,
    validateSettings Sample.settings = Ok r
    /\ valid r = true
    /\ settingsInRange Sample.settings.
Proof.
  eexists. split; [vm_compute; reflexivity|].
  split; [reflexivity|].
  apply (X6_validateSettings_valid_iff_fields_in_range Sample.settings
           _ eq_refl).
  reflexivity.
Defined.

Lemma validateSettings_collects (settings : TitleGeneratorSettings)
  (r : ValidationResult) :
  validateSettings settings = Ok r ->
  errors r
  = (keyErrors settings ++ modelErrors settings
     ++ errors (validatePrompt (Str (customPrompt settings)) false)
     ++ errors (validatePrompt (Str (refinePrompt settings)) true)
     ++ errors (validateTemperature (Num (temperature settings)))
     ++ errors (validateMaxTitleLength (Num (ofZ (maxTitleLength settings))))
     ++ errors (validateMaxContentLength
                  (Num (ofZ (maxContentLength settings)))))%list
  /\ warnings r
     = (keyWarnings settings ++ modelWarnings settings
        ++ warnings (validatePrompt (Str (customPrompt settings)) false)
        ++ warnings (validatePrompt (Str (refinePrompt settings)) true)
        ++ warnings (validateTemperature (Num (temperature settings)))
        ++ warnings (validateMaxTitleLength
                       (Num (ofZ (maxTitleLength settings))))
        ++ warnings (validateMaxContentLength
                       (Num (ofZ (maxContentLength settings)))))%list.
Proof.
  intros Hrun. apply validateSettings_result in Hrun as [_ ->].
  rewrite !errors_merge, !warnings_merge. cbv beta.
  unfold keyErrors, modelErrors, keyWarnings, modelWarnings.
  destruct (isEmpty (activeApiKey settings)),
           (isEmpty (activeModel settings));
    rewrite ?errors_merge, ?warnings_merge, ?errors_fail, ?warnings_fail,
      ?errors_merge, ?warnings_merge, ?errors_fail, ?warnings_fail;
    cbn [errors warnings fresh app];
    rewrite <- ?app_assoc; split; reflexivity.
Qed.

(** X7.  [validateSettings] loses nothing: when it returns, its errors are
    those of the key step, the model step, the two prompts, the temperature
    and the two lengths, concatenated in that order, and its warnings
    likewise; a key or model that is not set contributes one error naming
    the provider in upper case and no warning. *)
Theorem X7_validateSettings_concatenates_all_findings :
  forall (settings : TitleGeneratorSettings) (r : ValidationResult),
    validateSettings settings = Ok r ->
    errors r
    = (keyErrors settings ++ modelErrors settings
       ++ errors (validatePrompt (Str (customPrompt settings)) false)
       ++ errors (validatePrompt (Str (refinePrompt settings)) true)
       ++ errors (validateTemperature (Num (temperature settings)))
       ++ errors (validateMaxTitleLength (Num (ofZ (maxTitleLength settings))))
       ++ errors (validateMaxContentLength
                    (Num (ofZ (maxContentLength settings)))))%list
    /\ warnings r
       = (keyWarnings settings ++ modelWarnings settings
          ++ warnings (validatePrompt (Str (customPrompt settings)) false)
          ++ warnings (validatePrompt (Str (refinePrompt settings)) true)
          ++ warnings (validateTemperature (Num (temperature settings)))
          ++ warnings (validateMaxTitleLength
                         (Num (ofZ (maxTitleLength settings))))
          ++ warnings (validateMaxContentLength
                         (Num (ofZ (maxContentLength settings)))))%list.
Proof. exact validateSettings_collects. Qed.

Lemma X7_validateSettings_concatenates_all_findings_witness :
  validateSettings (Sample.withOpenAiKey "" Sample.negativeMax)
  = Ok {| valid := false;
          errors := ["OPENAI API key is required";
                     "Max title length must be at least 10"];
          warnings := ["Short titles may not be descriptive enough"] |}
  /\ (keyErrors (Sample.withOpenAiKey "" Sample.negativeMax)
      = ["OPENAI API key is required"]
      /\ errors (validateMaxTitleLength
                   (Num (ofZ (maxTitleLength
                                (Sample.withOpenAiKey "" Sample.negativeMax)))))
         = ["Max title length must be at least 10"]).
Proof.
  assert (Hrun :
    validateSettings (Sample.withOpenAiKey "" Sample.negativeMax)
    = Ok {| valid := false;
            errors := ["OPENAI API key is required";
                       "Max title length must be at least 10"];
            warnings := ["Short titles may not be descriptive enough"] |})
    by (vm_compute; reflexivity).
  split; [exact Hrun|].
  pose proof (proj1 (X7_validateSettings_concatenates_all_findings
                       (Sample.withOpenAiKey "" Sample.negativeMax) _ Hrun))
    as He.
  split; vm_compute; reflexivity.
Defined.

(** X8.  Settings that [validateSettings] accepts pass the configuration
    check of [generateTitle]: a valid result implies that the provider is
    one of the three, that its key is not blank and that its model is
    set. *)
Theorem X8_validated_settings_pass_the_configuration_check :
  forall (settings : TitleGeneratorSettings) (r : ValidationResult),
    validateSettings settings = Ok r ->
    valid r = true ->
    configurationValid settings.
Proof.
  intros settings r Hrun Hvalid.
  pose proof (proj1 (validateSettings_valid_iff settings r Hrun) Hvalid)
    as (Hkey & Hmodel & _).
  apply validateSettings_result in Hrun as [Hknown _].
  destruct (trim_nonempty_of_len (activeApiKey settings) 10 ltac:(lia)
              (proj1 Hkey)) as [Hk _].
  destruct (trim_nonempty_of_len (activeModel settings) 1 ltac:(lia)
              (proj1 Hmodel)) as [_ Hm].
  unfold activeApiKey, activeModel in Hk, Hm.
  unfold configurationValid, isConfigurationValid, bindM, Notice, ret.
  destruct Hknown as [E|[E|E]]; rewrite E in *;
    cbn [String.eqb Ascii.eqb Bool.eqb] in *; rewrite Hk, Hm; reflexivity.
Qed.

Lemma X8_validated_settings_pass_the_configuration_check_witness :
  exists r,
    validateSettings Sample.settings = Ok r
    /\ valid r = true
    /\ configurationValid Sample.settings.
Proof.
  eexists. split; [vm_compute; reflexivity|]. split; [reflexivity|].
  apply (X8_validated_settings_pass_the_configuration_check Sample.settings
           _ eq_refl).
  reflexivity.
Defined.


(** ** Sanitised text *)

Lemma allChars_removeChars (p q : ascii -> bool) (s : string) :
  (forall c, p c = false -> q c = true) ->
  allChars q (removeChars p s) = true.
Proof.
  intros Hpq. induction s as [|c s IH]; [reflexivity|]. cbn [removeChars].
  destruct (p c) eqn:Hp; [exact IH|]. cbn [allChars].
  now rewrite (Hpq c Hp), IH.
Qed.

Lemma allChars_removeChars_keeps (p q : ascii -> bool) (s : string) :
  allChars q s = true -> allChars q (removeChars p s) = true.
Proof.
  induction s as [|c s IH]; [reflexivity|]. cbn [allChars removeChars].
  intros H. apply andb_prop in H as [Hc Hs].
  destruct (p c); [now apply IH|]. cbn [allChars]. now rewrite Hc, IH.
Qed.

Lemma removeChars_id (p : ascii -> bool) (s : string) :
  allChars (fun c => negb (p c)) s = true -> removeChars p s = s.
Proof.
  induction s as [|c s IH]; [reflexivity|]. cbn [allChars removeChars].
  intros H. apply andb_prop in H as [Hc Hs].
  destruct (p c); [discriminate|]. now rewrite IH.
Qed.

Lemma allChars_dropWhileStart (p q : ascii -> bool) (s : string) :
  allChars q s = true -> allChars q (dropWhileStart p s) = true.
Proof.
  induction s as [|c s IH]; [reflexivity|]. cbn [dropWhileStart].
  intros H. destruct (p c); [|exact H].
  cbn [allChars] in H. apply andb_prop in H as [_ Hs]. now apply IH.
Qed.

Lemma allChars_dropWhileEnd (p q : ascii -> bool) (s : string) :
  allChars q s = true -> allChars q (dropWhileEnd p s) = true.
Proof.
  induction s as [|c s IH]; [reflexivity|]. cbn [allChars dropWhileEnd].
  intros H. apply andb_prop in H as [Hc Hs].
  destruct (p c && isEmpty (dropWhileEnd p s)); [reflexivity|].
  cbn [allChars]. now rewrite Hc, IH.
Qed.

Lemma allChars_trim (q : ascii -> bool) (s : string) :
  allChars q s = true -> allChars q (trim s) = true.
Proof.
  intros H. unfold trim.
  now apply allChars_dropWhileEnd, allChars_dropWhileStart.
Qed.

Lemma allChars_drop (q : ascii -> bool) (n : nat) (s : string) :
  allChars q s = true -> allChars q (drop n s) = true.
Proof.
  revert s. induction n as [|n IH]; intros [|c s] H; cbn [drop]; try exact H.
  cbn [allChars] in H. apply andb_prop in H as [_ Hs]. now apply IH.
Qed.

Lemma allChars_app (q : ascii -> bool) (a b : string) :
  allChars q (a ++ b) = allChars q a && allChars q b.
Proof.
  induction a as [|c a IH]; [reflexivity|]. cbn [append allChars].
  now rewrite IH, andb_assoc.
Qed.

Lemma allChars_collapseWhiteSpace (q : ascii -> bool) (inRun : bool)
  (s : string) :
  q " "%char = true ->
  allChars q s = true -> allChars q (collapseWhiteSpace inRun s) = true.
Proof.
  intros Hspace. revert inRun.
  induction s as [|c s IH]; intros inRun H; [reflexivity|].
  cbn [allChars] in H. apply andb_prop in H as [Hc Hs].
  cbn [collapseWhiteSpace].
  destruct (isWhiteSpace c); [destruct inRun|]; cbn [allChars];
    rewrite ?Hspace, ?Hc, ?IH; auto.
Qed.

(** The ends of a string after a [dropWhile]. *)
Lemma firstChar_dropWhileStart (p : ascii -> bool) (s : string) (c : ascii) :
  firstChar (dropWhileStart p s) = Some c -> p c = false.
Proof.
  induction s as [|a s IH]; [discriminate|]. cbn [dropWhileStart].
  destruct (p a) eqn:Hp; [exact IH|]. cbn. intros [= <-]. exact Hp.
Qed.

Lemma firstChar_dropWhileEnd (p : ascii -> bool) (s : string) (c : ascii) :
  firstChar (dropWhileEnd p s) = Some c -> firstChar s = Some c.
Proof.
  destruct s as [|a s]; [discriminate|]. cbn [dropWhileEnd].
  destruct (p a && isEmpty (dropWhileEnd p s)); [discriminate | exact id].
Qed.

Lemma lastChar_dropWhileEnd (p : ascii -> bool) (s : string) (c : ascii) :
  lastChar (dropWhileEnd p s) = Some c -> p c = false.
Proof.
  induction s as [|a s IH]; [discriminate|]. cbn [dropWhileEnd].
  destruct (dropWhileEnd p s) as [|b r] eqn:E.
  - cbn [isEmpty]. rewrite andb_true_r. destruct (p a) eqn:Hp; [discriminate|].
    cbn. intros [= <-]. exact Hp.
  - cbn [isEmpty]. rewrite andb_false_r. exact IH.
Qed.

Lemma dropWhileStart_id (p : ascii -> bool) (s : string) :
  (forall c, firstChar s = Some c -> p c = false) -> dropWhileStart p s = s.
Proof.
  destruct s as [|a s]; [reflexivity|]. intros H. cbn [dropWhileStart].
  now rewrite (H a eq_refl).
Qed.

Lemma dropWhileEnd_id (p : ascii -> bool) (s : string) :
  (forall c, lastChar s = Some c -> p c = false) -> dropWhileEnd p s = s.
Proof.
  induction s as [|a s IH]; [reflexivity|]. intros H. cbn [dropWhileEnd].
  destruct s as [|b r].
  - cbn. now rewrite (H a eq_refl).
  - rewrite IH by (intros c Hc; apply H; exact Hc).
    cbn [isEmpty]. now rewrite andb_false_r.
Qed.

Lemma trim_idempotent (s : string) : trim (trim s) = trim s.
Proof.
  unfold trim.
  rewrite (dropWhileStart_id isWhiteSpace
             (dropWhileEnd isWhiteSpace (dropWhileStart isWhiteSpace s))).
  - apply dropWhileEnd_id. intros c. apply lastChar_dropWhileEnd.
  - intros c Hc. apply firstChar_dropWhileEnd in Hc.
    now apply firstChar_dropWhileStart in Hc.
Qed.

Lemma singleSpaced_weaken (s : string) :
  singleSpaced true s = true -> singleSpaced false s = true.
Proof.
  destruct s as [|c s]; [reflexivity|]. cbn [singleSpaced].
  destruct (isWhiteSpace c); [discriminate | exact id].
Qed.

Lemma singleSpaced_collapseWhiteSpace (inRun : bool) (s : string) :
  singleSpaced inRun (collapseWhiteSpace inRun s) = true.
Proof.
  revert inRun. induction s as [|c s IH]; intros inRun; [reflexivity|].
  cbn [collapseWhiteSpace]. destruct (isWhiteSpace c) eqn:Hc.
  - destruct inRun; [apply IH|]. cbn [singleSpaced].
    change (isWhiteSpace " ") with true. cbv iota. cbn [negb andb].
    change (Ascii.eqb " " " ") with true. apply IH.
  - cbn [singleSpaced]. rewrite Hc. apply IH.
Qed.

Lemma collapseWhiteSpace_id (inRun : bool) (s : string) :
  singleSpaced inRun s = true -> collapseWhiteSpace inRun s = s.
Proof.
  revert inRun. induction s as [|c s IH]; intros inRun; [reflexivity|].
  cbn [singleSpaced collapseWhiteSpace]. destruct (isWhiteSpace c).
  - intros H. apply andb_prop in H as [H Hs]. apply andb_prop in H as [Hrun Hc].
    destruct inRun; [discriminate|]. apply Ascii.eqb_eq in Hc. subst c.
    now rewrite IH.
  - intros H. now rewrite IH.
Qed.

Lemma singleSpaced_tail (inRun : bool) (c : ascii) (s : string) :
  singleSpaced inRun (String c s) = true ->
  singleSpaced false s = true.
Proof.
  cbn [singleSpaced]. destruct (isWhiteSpace c).
  - intros H. apply andb_prop in H as [_ Hs]. now apply singleSpaced_weaken.
  - exact id.
Qed.

Lemma singleSpaced_dropWhileStart (p : ascii -> bool) (inRun : bool)
  (s : string) :
  singleSpaced inRun s = true ->
  singleSpaced false (dropWhileStart p s) = true.
Proof.
  revert inRun. induction s as [|c s IH]; intros inRun H; [reflexivity|].
  cbn [dropWhileStart]. destruct (p c).
  - apply (IH false). exact (singleSpaced_tail _ _ _ H).
  - destruct inRun; [now apply singleSpaced_weaken | exact H].
Qed.

Lemma singleSpaced_dropWhileEnd (p : ascii -> bool) (inRun : bool)
  (s : string) :
  singleSpaced inRun s = true ->
  singleSpaced inRun (dropWhileEnd p s) = true.
Proof.
  revert inRun. induction s as [|c s IH]; intros inRun H; [reflexivity|].
  cbn [dropWhileEnd].
  destruct (p c && isEmpty (dropWhileEnd p s)); [reflexivity|].
  cbn [singleSpaced] in *. destruct (isWhiteSpace c).
  - apply andb_prop in H as [H Hs]. rewrite H. now apply IH.
  - now apply IH.
Qed.

(** In a single-spaced string a white space character at either end is a
    space. *)
Lemma singleSpaced_first (s : string) (c : ascii) :
  singleSpaced false s = true -> firstChar s = Some c ->
  isWhiteSpace c = true -> c = " "%char.
Proof.
  destruct s as [|a s]; [discriminate|]. cbn [singleSpaced firstChar].
  intros H [= <-] Hws. rewrite Hws in H.
  apply andb_prop in H as [H _]. apply andb_prop in H as [_ H].
  now apply Ascii.eqb_eq in H.
Qed.

Lemma singleSpaced_last (inRun : bool) (s : string) (c : ascii) :
  singleSpaced inRun s = true -> lastChar s = Some c ->
  isWhiteSpace c = true -> c = " "%char.
Proof.
  revert inRun. induction s as [|a s IH]; intros inRun H Hlast Hws;
    [discriminate|].
  destruct s as [|b r].
  - cbn in Hlast. injection Hlast as <-. cbn [singleSpaced] in H.
    rewrite Hws in H. apply andb_prop in H as [H _].
    apply andb_prop in H as [_ H]. now apply Ascii.eqb_eq in H.
  - apply (IH false); [exact (singleSpaced_tail _ _ _ H) | exact Hlast | exact Hws].
Qed.

(** The text [sanitizeFilename] keeps, before the fall-back. *)
Lemma safe_name_properties (name : string) :
  let safe :=
    dropWhileEnd isSpaceOrDot
      (dropWhileStart isSpaceOrDot
         (trim (collapseWhiteSpace false
                  (removeChars TITLE_CONFIG.FORBIDDEN_CHARS name)))) in
  allChars notForbidden safe = true
  /\ singleSpaced false safe = true
  /\ (forall c, firstChar safe = Some c -> isSpaceOrDot c = false)
  /\ (forall c, lastChar safe = Some c -> isSpaceOrDot c = false).
Proof.
  cbv zeta. repeat match goal with |- _ /\ _ => split end.
  - apply allChars_dropWhileEnd, allChars_dropWhileStart, allChars_trim,
      allChars_collapseWhiteSpace; [reflexivity|].
    apply allChars_removeChars. intros c Hc. unfold notForbidden. now rewrite Hc.
  - apply singleSpaced_dropWhileEnd.
    apply (singleSpaced_dropWhileStart isSpaceOrDot false).
    unfold trim. apply singleSpaced_dropWhileEnd.
    apply (singleSpaced_dropWhileStart isWhiteSpace false).
    apply singleSpaced_collapseWhiteSpace.
  - intros c Hc. apply firstChar_dropWhileEnd in Hc.
    now apply firstChar_dropWhileStart in Hc.
  - intros c. apply lastChar_dropWhileEnd.
Qed.

(** A text with these properties comes out of the pipeline as it is. *)
Lemma safe_name_fixed (safe : string) :
  allChars notForbidden safe = true ->
  singleSpaced false safe = true ->
  (forall c, firstChar safe = Some c -> isSpaceOrDot c = false) ->
  (forall c, lastChar safe = Some c -> isSpaceOrDot c = false) ->
  dropWhileEnd isSpaceOrDot
    (dropWhileStart isSpaceOrDot
       (trim (collapseWhiteSpace false
                (removeChars TITLE_CONFIG.FORBIDDEN_CHARS safe)))) = safe.
Proof.
  intros Hchars Hspaced Hfirst Hlast.
  rewrite removeChars_id by exact Hchars.
  rewrite collapseWhiteSpace_id by exact Hspaced.
  assert (Htrim : trim safe = safe).
  { unfold trim. rewrite (dropWhileStart_id isWhiteSpace safe).
    - apply dropWhileEnd_id. intros c Hc.
      destruct (isWhiteSpace c) eqn:Hws; [|reflexivity].
      pose proof (singleSpaced_last _ _ _ Hspaced Hc Hws) as ->.
      specialize (Hlast _ Hc). vm_compute in Hlast. discriminate Hlast.
    - intros c Hc. destruct (isWhiteSpace c) eqn:Hws; [|reflexivity].
      pose proof (singleSpaced_first _ _ Hspaced Hc Hws) as ->.
      specialize (Hfirst _ Hc). vm_compute in Hfirst. discriminate Hfirst. }
  rewrite Htrim, (dropWhileStart_id isSpaceOrDot safe) by exact Hfirst.
  now apply dropWhileEnd_id.
Qed.

Lemma len_pos_iff (s : string) : (len s >? 0) = negb (isEmpty s).
Proof. destruct s; [reflexivity|]. unfold len. cbn [String.length isEmpty negb].
  apply Z.gtb_lt. lia. Qed.

Lemma sanitizeFilename_safe (filename : value) :
  sanitizeFilename filename <> ""
  /\ allChars notForbidden (sanitizeFilename filename) = true
  /\ (forall c, firstChar (sanitizeFilename filename) = Some c ->
                isSpaceOrDot c = false)
  /\ (forall c, lastChar (sanitizeFilename filename) = Some c ->
                isSpaceOrDot c = false).
Proof.
  assert (Hfallback :
    TITLE_CONFIG.FALLBACK_TITLE <> ""
    /\ allChars notForbidden TITLE_CONFIG.FALLBACK_TITLE = true
    /\ (forall c, firstChar TITLE_CONFIG.FALLBACK_TITLE = Some c ->
                  isSpaceOrDot c = false)
    /\ (forall c, lastChar TITLE_CONFIG.FALLBACK_TITLE = Some c ->
                  isSpaceOrDot c = false)).
  { split; [discriminate|]. split; [reflexivity|].
    split; intros c [= <-]; reflexivity. }
  unfold ValidationService.sanitizeFilename.
  destruct filename as [| |b|n|[|a name]]; try exact Hfallback.
  cbv zeta. rewrite len_pos_iff.
  destruct (safe_name_properties (String a name)) as (H1 & _ & H3 & H4).
  cbv zeta in H1, H3, H4.
  destruct (dropWhileEnd isSpaceOrDot _) as [|x safe] eqn:E;
    cbn [isEmpty negb]; [exact Hfallback|].
  split; [discriminate|]. split; [exact H1|]. split; assumption.
Qed.

(** X9.  Whatever it is given, [sanitizeFilename] returns a name that is
    not empty, holds none of the forbidden characters (the nine punctuation
    characters and the control characters) and neither begins nor ends with
    a space or a dot. *)
Theorem X9_sanitizeFilename_returns_a_safe_name :
  forall filename : value,
    ValidationService.sanitizeFilename filename <> ""
    /\ allChars notForbidden (ValidationService.sanitizeFilename filename) = true
    /\ (forall c,
          firstChar (ValidationService.sanitizeFilename filename) = Some c ->
          isSpaceOrDot c = false)
    /\ (forall c,
          lastChar (ValidationService.sanitizeFilename filename) = Some c ->
          isSpaceOrDot c = false).
Proof. exact sanitizeFilename_safe. Qed.

Lemma X9_sanitizeFilename_returns_a_safe_name_witness :
  ValidationService.sanitizeFilename (Str " ..My:Title?* . ") = "MyTitle"
  /\ firstChar (ValidationService.sanitizeFilename (Str " ..My:Title?* . "))
     = Some "M"%char
  /\ isSpaceOrDot "M" = false.
Proof.
  split; [vm_compute; reflexivity|]. split; [vm_compute; reflexivity|].
  apply (proj1 (proj2 (proj2 (X9_sanitizeFilename_returns_a_safe_name
                                (Str " ..My:Title?* . "))))).
  vm_compute. reflexivity.
Defined.

(** X10.  [sanitizeFilename] is idempotent: sanitising a name it has
    returned gives that name back. *)
Theorem X10_sanitizeFilename_is_idempotent :
  forall filename : value,
    ValidationService.sanitizeFilename
      (Str (ValidationService.sanitizeFilename filename))
    = ValidationService.sanitizeFilename filename.
Proof.
  assert (Hfallback :
    ValidationService.sanitizeFilename (Str TITLE_CONFIG.FALLBACK_TITLE)
    = TITLE_CONFIG.FALLBACK_TITLE) by (vm_compute; reflexivity).
  intros filename.
  unfold ValidationService.sanitizeFilename at 2 3.
  destruct filename as [| |b|n|[|a name]]; try exact Hfallback.
  cbv zeta. rewrite len_pos_iff.
  destruct (safe_name_properties (String a name)) as (H1 & H2 & H3 & H4).
  cbv zeta in H1, H2, H3, H4.
  destruct (dropWhileEnd isSpaceOrDot _) as [|x safe] eqn:E;
    cbn [isEmpty negb]; [exact Hfallback|].
  unfold ValidationService.sanitizeFilename. cbv zeta.
  rewrite (safe_name_fixed (String x safe) H1 H2 H3 H4), len_pos_iff.
  reflexivity.
Qed.

Lemma allChars_removeChars_both (p q1 q : ascii -> bool) (s : string) :
  (forall c, q1 c = true -> p c = false -> q c = true) ->
  allChars q1 s = true -> allChars q (removeChars p s) = true.
Proof.
  intros Hq. induction s as [|c s IH]; [reflexivity|].
  cbn [allChars removeChars]. intros H. apply andb_prop in H as [Hc Hs].
  destruct (p c) eqn:Hp; [now apply IH|]. cbn [allChars].
  now rewrite (Hq c Hc Hp), IH.
Qed.

Lemma allChars_escapeAmpersands (q : ascii -> bool) (s : string) :
  allChars q "&amp;" = true ->
  allChars q s = true -> allChars q (escapeAmpersands s) = true.
Proof.
  intros Hamp. induction s as [|c s IH]; [reflexivity|].
  cbn [allChars escapeAmpersands]. intros H. apply andb_prop in H as [Hc Hs].
  destruct (Ascii.eqb c "&").
  - rewrite allChars_app, Hamp. now apply IH.
  - cbn [allChars]. now rewrite Hc, IH.
Qed.

(** X11.  Whatever it is given, [sanitizeInput] returns a text that holds
    no angle bracket and no quote character, and that has no white space at
    either end (trimming it again changes nothing). *)
Theorem X11_sanitizeInput_removes_markup :
  forall input : value,
    allChars notMarkup (sanitizeInput input) = true
    /\ trim (sanitizeInput input) = sanitizeInput input.
Proof.
  intros input. unfold sanitizeInput.
  destruct input as [| |b|n|[|a text]]; try (split; reflexivity).
  split; [|apply trim_idempotent].
  apply allChars_trim.
  apply (allChars_removeChars_both ValidationService.isQuote notAngleBracket).
  - intros c Hc Hq. unfold notMarkup, notAngleBracket in *.
    rewrite Hq, orb_false_r. exact Hc.
  - apply allChars_escapeAmpersands; [reflexivity|].
    apply allChars_removeChars. intros c Hc. unfold notAngleBracket.
    now rewrite Hc.
Qed.

(** ** The payload validator *)

(** Runs the validator on the hypothesis [He] down to its returns, splitting
    on the conditions and on the fields it reads. *)
Ltac run_validator He :=
  repeat first
    [ discriminate He
    | progress cbn [bind Json.getProp Json.asArray Json.nullish Json.truthy
                      negb] in He
    | match type of He with
      | context [Json.lookup ?k ?f] => destruct (Json.lookup k f)
      | context [if ?c then _ else _] =>
          let T := type of c in
          constr_eq T bool; destruct c
      end ].

Lemma validateApiResponse_first_element (provider key : string)
  (response : json) :
  (provider = "openai" /\ key = "choices")
  \/ (provider = "anthropic" /\ key = "content") ->
  (exists e, validateApiResponse response provider = Throw e)
  <-> exists fields first rest,
        response = JObject fields
        /\ Json.lookup key fields = JArray (first :: rest)
        /\ Json.nullish first = true.
Proof.
  intros Hcase. split.
  - intros [e He]. unfold validateApiResponse in He.
    destruct response as [| |b|n|s|items|fields].
    1-6: exfalso; destruct Hcase as [[-> ->]|[-> ->]];
      cbn [String.eqb Ascii.eqb Bool.eqb] in He; run_validator He.
    exists fields.
    destruct Hcase as [[-> ->]|[-> ->]];
      cbn [String.eqb Ascii.eqb Bool.eqb Json.truthy negb Json.getProp bind]
        in He.
    + destruct (Json.lookup "choices" fields) as [| |b|n|s|items|fs] eqn:El;
        cbn [Json.asArray] in He; try discriminate He.
      destruct items as [|first rest]; [discriminate He|].
      exists first, rest. split; [reflexivity|]. split; [reflexivity|].
      destruct first; try reflexivity; exfalso; run_validator He.
    + destruct (Json.lookup "content" fields) as [| |b|n|s|items|fs] eqn:El;
        cbn [Json.asArray] in He; try discriminate He.
      destruct items as [|first rest]; [discriminate He|].
      exists first, rest. split; [reflexivity|]. split; [reflexivity|].
      destruct first; try reflexivity; exfalso; run_validator He.
  - intros (fields & first & rest & -> & Hlookup & Hnullish).
    unfold validateApiResponse.
    destruct Hcase as [[-> ->]|[-> ->]];
      cbn [String.eqb Ascii.eqb Bool.eqb Json.truthy negb Json.getProp bind];
      rewrite Hlookup; cbn [Json.asArray];
      destruct first; try discriminate Hnullish; eexists; reflexivity.
Qed.

(** X12.  Against the tag openai (the array [choices]) and against the tag
    anthropic (the array [content]), [validateApiResponse] throws exactly
    when the payload is an object whose array is not empty and begins with
    null or undefined; on every other payload it returns a result.  For a
    tag outside the three providers nothing is inspected: every payload
    that is not falsy is accepted. *)
Theorem X12_validateApiResponse_throws_on_a_null_first_element :
  forall response : json,
    ((exists e, validateApiResponse response "openai" = Throw e)
     <-> exists fields first rest,
           response = JObject fields
           /\ Json.lookup "choices" fields = JArray (first :: rest)
           /\ Json.nullish first = true)
    /\ ((exists e, validateApiResponse response "anthropic" = Throw e)
        <-> exists fields first rest,
              response = JObject fields
              /\ Json.lookup "content" fields = JArray (first :: rest)
              /\ Json.nullish first = true)
    /\ (forall provider,
          ~ knownProvider provider ->
          Json.truthy response = true ->
          validateApiResponse response provider = Ok fresh).
Proof.
  intros response. split; [|split].
  - apply validateApiResponse_first_element. now left.
  - apply validateApiResponse_first_element. now right.
  - intros provider Hunknown Htruthy. unfold validateApiResponse.
    rewrite Htruthy. cbn [negb].
    destruct (String.eqb_spec provider "openai") as [E|_];
      [elim Hunknown; now left|].
    destruct (String.eqb_spec provider "anthropic") as [E|_];
      [elim Hunknown; now right; left|].
    destruct (String.eqb_spec provider "google") as [E|_];
      [elim Hunknown; now right; right|].
    reflexivity.
Qed.

Lemma X12_validateApiResponse_throws_on_a_null_first_element_witness :
  ~ knownProvider "mistral"
  /\ Json.truthy (JObject [("choices", JArray [JNull])]) = true
  /\ validateApiResponse (JObject [("choices", JArray [JNull])]) "mistral"
     = Ok fresh
  /\ exists e,
       validateApiResponse (JObject [("choices", JArray [JNull])]) "openai"
       = Throw e.
Proof.
  assert (Hunknown : ~ knownProvider "mistral")
    by (intros [H|[H|H]]; discriminate H).
  destruct (X12_validateApiResponse_throws_on_a_null_first_element
              (JObject [("choices", JArray [JNull])]))
    as (Hopenai & _ & Hother).
  split; [exact Hunknown|]. split; [reflexivity|].
  split; [apply (Hother "mistral" Hunknown); reflexivity|].
  apply Hopenai. exists [("choices", JArray [JNull])], JNull, [].
  repeat split.
Defined.

(** ** The shape of a cleaned title *)

Lemma split_lines_no_line_feed (s : string) :
  Forall (fun line => allChars notLineFeed line = true) (split LF s).
Proof.
  induction s as [|c s IH]; cbn [split].
  - constructor; [reflexivity | constructor].
  - destruct (Ascii.eqb c LF) eqn:Hc.
    + constructor; [reflexivity | exact IH].
    + destruct (split LF s) as [|h t].
      * constructor; [|constructor]. cbn [allChars]. unfold notLineFeed.
        now rewrite Hc.
      * inversion IH as [|? ? Hh Ht]; subst. constructor; [|exact Ht].
        cbn [allChars]. unfold notLineFeed at 1. now rewrite Hc.
Qed.

Lemma candidateLines_line (text line : string) :
  In line (candidateLines text) ->
  allChars notLineFeed line = true /\ trim line = line /\ line <> "".
Proof.
  unfold candidateLines. intros Hin. apply filter_In in Hin as [Hin Hlen].
  apply in_map_iff in Hin as (raw & <- & Hraw).
  pose proof (split_lines_no_line_feed text) as Hall.
  rewrite Forall_forall in Hall. split; [|split].
  - apply allChars_trim. now apply Hall.
  - apply trim_idempotent.
  - intros E. rewrite E in Hlen. discriminate Hlen.
Qed.

Lemma selectCandidate_in (lines : list string) :
  selectCandidate lines = "" \/ In (selectCandidate lines) lines.
Proof.
  unfold selectCandidate.
  destruct (find (fun line => negb (isPreamble line)) lines) as [line|] eqn:E.
  - apply find_some in E as [Hin _]. destruct lines as [|first rest];
      [contradiction|]. destruct (isEmpty line); right; [now left | exact Hin].
  - destruct lines as [|first rest]; [now left | right; now left].
Qed.

Lemma allChars_stripLabel (q : ascii -> bool) (line : string) :
  allChars q line = true -> allChars q (stripLabel line) = true.
Proof.
  intros H. unfold stripLabel.
  destruct (find (fun p => startsWithCI p line) labelPatterns); [|exact H].
  now apply allChars_dropWhileStart, allChars_drop.
Qed.

Lemma cleanAIResponse_shape (response : string) :
  allChars titleChar (cleanAIResponse response) = true
  /\ trim (cleanAIResponse response) = cleanAIResponse response.
Proof.
  unfold cleanAIResponse. destruct (isEmpty response); [split; reflexivity|].
  unfold extractTitle, polish. cbv zeta. split; [|apply trim_idempotent].
  apply allChars_trim.
  apply (allChars_removeChars_both AIService.isQuote notLineFeed).
  - intros c Hc Hq. unfold titleChar, notLineFeed in *. now rewrite Hc, Hq.
  - apply allChars_stripLabel.
    destruct (selectCandidate_in
                (candidateLines
                   (trim (removeThinkBlocks 0 (unwrapThink (trim response))))))
      as [->|Hin]; [reflexivity|].
    now apply candidateLines_line in Hin.
Qed.

(** X13.  Whatever the provider answers, the cleaned title is a single
    line without quotes: it holds no line feed, no single and no double
    quote, and no white space at either end. *)
Theorem X13_cleaned_title_is_one_unquoted_line :
  forall response : string,
    allChars titleChar (cleanAIResponse response) = true
    /\ trim (cleanAIResponse response) = cleanAIResponse response.
Proof. exact cleanAIResponse_shape. Qed.

(** *** Titles the cleaner leaves alone *)

Lemma allChars_impl (p q : ascii -> bool) (s : string) :
  (forall c, p c = true -> q c = true) ->
  allChars p s = true -> allChars q s = true.
Proof.
  intros Hpq. induction s as [|c s IH]; [reflexivity|]. cbn [allChars].
  intros H. apply andb_prop in H as [Hc Hs]. now rewrite (Hpq c Hc), IH.
Qed.



Lemma startsWith_think_false (c : ascii) (s : string) :
  notAngle c = true -> startsWith "<think>" (String c s) = false.
Proof.
  unfold notAngle, startsWith. intros H. cbn [prefix].
  destruct (ascii_dec "<" c) as [<-|_]; [discriminate H | reflexivity].
Qed.

Lemma removeThinkBlocks_no_angle (s : string) :
  allChars notAngle s = true -> removeThinkBlocks 0 s = s.
Proof.
  induction s as [|c s IH]; [reflexivity|]. cbn [allChars].
  intros H. apply andb_prop in H as [Hc Hs]. cbn [removeThinkBlocks].
  rewrite (startsWith_think_false c s Hc). now rewrite IH.
Qed.

Lemma thinkMatch_no_angle (s : string) :
  allChars notAngle s = true -> thinkMatch s = None.
Proof.
  unfold thinkMatch. destruct s as [|c s]; [reflexivity|]. cbn [allChars].
  intros H. apply andb_prop in H as [Hc _].
  now rewrite (startsWith_think_false c s Hc).
Qed.

Lemma split_no_line_feed (s : string) :
  allChars notLineFeed s = true -> split LF s = [s].
Proof.
  induction s as [|c s IH]; [reflexivity|]. cbn [allChars].
  intros H. apply andb_prop in H as [Hc Hs]. cbn [split].
  unfold notLineFeed in Hc. apply negb_true_iff in Hc. rewrite Hc.
  now rewrite IH.
Qed.

Lemma find_none_of_existsb (A : Type) (f : A -> bool) (l : list A) :
  existsb f l = false -> find f l = None.
Proof.
  induction l as [|a l IH]; [reflexivity|]. cbn [existsb find].
  destruct (f a); [discriminate | exact IH].
Qed.

Lemma stripLabel_not_preamble (line : string) :
  isPreamble line = false -> stripLabel line = line.
Proof.
  unfold isPreamble, preamblePatterns, stripLabel. rewrite existsb_app.
  intros H. apply orb_false_elim in H as [H _].
  now rewrite (find_none_of_existsb _ _ _ H).
Qed.

Lemma cleanAIResponse_clean_title (title : string) :
  title <> "" ->
  trim title = title ->
  allChars titleChar title = true ->
  allChars notAngle title = true ->
  isPreamble title = false ->
  cleanAIResponse title = title.
Proof.
  intros Hne Htrim Hchars Hangle Hpreamble.
  unfold cleanAIResponse. destruct title as [|c t] eqn:E; [contradiction|].
  cbn [isEmpty]. rewrite <- E in *. rewrite Htrim.
  unfold unwrapThink. rewrite (thinkMatch_no_angle title Hangle).
  unfold extractTitle. cbv zeta.
  rewrite (removeThinkBlocks_no_angle title Hangle), Htrim.
  unfold candidateLines.
  rewrite split_no_line_feed
    by (apply (allChars_impl titleChar); [|exact Hchars];
        intros a Ha; unfold titleChar in Ha;
        now apply andb_prop in Ha as [Ha _]).
  cbn [map filter]. rewrite Htrim, len_pos_iff.
  replace (isEmpty title) with false by (now rewrite E).
  cbn [negb]. unfold selectCandidate. cbn [find]. rewrite Hpreamble.
  cbn [negb]. replace (isEmpty title) with false by (now rewrite E).
  unfold polish. cbv zeta. rewrite (stripLabel_not_preamble title Hpreamble).
  rewrite removeChars_id; [exact Htrim|].
  apply (allChars_impl titleChar); [|exact Hchars].
  intros a Ha. unfold titleChar in Ha. now apply andb_prop in Ha as [_ Ha].
Qed.

(** X14.  The cleaner leaves a clean title alone: a response that is not
    empty, has no white space at either end, holds no line feed, no quote
    and no opening angle bracket, and does not begin with a preamble phrase
    is returned as it is. *)
Theorem X14_cleaner_keeps_a_clean_title :
  forall title : string,
    title <> "" ->
    trim title = title ->
    allChars titleChar title = true ->
    allChars notAngle title = true ->
    isPreamble title = false ->
    cleanAIResponse title = title.
Proof. exact cleanAIResponse_clean_title. Qed.

Lemma X14_cleaner_keeps_a_clean_title_witness :
  cleanAIResponse "Quarterly planning notes" = "Quarterly planning notes".
Proof.
  apply (X14_cleaner_keeps_a_clean_title "Quarterly planning notes").
  - discriminate.
  - vm_compute. reflexivity.
  - vm_compute. reflexivity.
  - vm_compute. reflexivity.
  - vm_compute. reflexivity.
Defined.

(** ** Provider calls *)

Lemma isEmpty_false (s : string) : s <> "" -> isEmpty s = false.
Proof. destruct s; [contradiction | reflexivity]. Qed.

Lemma makeAICall_outcome (settings : TitleGeneratorSettings)
  (transport : Transport) (prompt content : string) (w : World) :
  (knownProvider (aiProvider settings) ->
   activeApiKey settings <> "" ->
   makeAICall settings transport prompt content w
   = (adapterOutcome (aiProvider settings)
        (transport (List.length (requests w)) (fullPrompt prompt content)),
      afterCall prompt content w))
  /\ (knownProvider (aiProvider settings) ->
      activeApiKey settings = "" ->
      makeAICall settings transport prompt content w
      = (Throw (Error (apiName (aiProvider settings)
                         ++ " API key is not set.")),
         {| notices := notices w;
            calls := calls w ++ [(prompt, content)];
            requests := requests w |}))
  /\ (~ knownProvider (aiProvider settings) ->
      makeAICall settings transport prompt content w
      = (Throw (Error "Unsupported AI provider selected."),
         {| notices := notices w;
            calls := calls w ++ [(prompt, content)];
            requests := requests w |})).
Proof.
  unfold makeAICall, callAI, callOpenAI, callAnthropic, callGoogle,
    callProvider, bindM, logCall, requestUrl, liftResult, throw,
    adapterOutcome, apiName, afterCall, activeApiKey.
  fold (fullPrompt prompt content).
  split; [|split].
  - intros [E|[E|E]] Hkey; rewrite E in *;
      cbn [String.eqb Ascii.eqb Bool.eqb] in *;
      rewrite (isEmpty_false _ Hkey); cbn [requests calls notices];
      (destruct (transport (List.length (requests w))
                   (fullPrompt prompt content)) as [response|e];
       [destruct (negb (status response =? 200))|]; reflexivity).
  - intros [E|[E|E]] Hkey; rewrite E in *;
      cbn [String.eqb Ascii.eqb Bool.eqb] in *; rewrite Hkey; reflexivity.
  - intros Hunknown.
    destruct (String.eqb_spec (aiProvider settings) "openai") as [E|_];
      [elim Hunknown; now left|].
    destruct (String.eqb_spec (aiProvider settings) "anthropic") as [E|_];
      [elim Hunknown; now right; left|].
    destruct (String.eqb_spec (aiProvider settings) "google") as [E|_];
      [elim Hunknown; now right; right|].
    reflexivity.
Qed.

(** X15.  [makeAICall] checks nothing but the provider tag and the presence
    of the key.  With a known provider and a key that is not the empty
    string (a blank key included) it sends exactly one request, carrying the
    trimmed prompt, a blank line and the content, and hands back what the
    adapter makes of the answer.  With a known provider and an empty key it
    throws the provider's key error, and with any other tag the unsupported
    provider error, in both cases without sending a request. *)
Theorem X15_makeAICall_sends_a_request_only_with_a_key :
  forall (settings : TitleGeneratorSettings) (transport : Transport)
         (prompt content : string) (w : World),
    (knownProvider (aiProvider settings) ->
     activeApiKey settings <> "" ->
     fst (makeAICall settings transport prompt content w)
     = adapterOutcome (aiProvider settings)
         (transport (List.length (requests w)) (fullPrompt prompt content))
     /\ requests (snd (makeAICall settings transport prompt content w))
        = (requests w ++ [fullPrompt prompt content])%list)
    /\ (knownProvider (aiProvider settings) ->
        activeApiKey settings = "" ->
        makeAICall settings transport prompt content w
        = (Throw (Error (apiName (aiProvider settings)
                           ++ " API key is not set.")),
           {| notices := notices w;
              calls := calls w ++ [(prompt, content)];
              requests := requests w |}))
    /\ (~ knownProvider (aiProvider settings) ->
        makeAICall settings transport prompt content w
        = (Throw (Error "Unsupported AI provider selected."),
           {| notices := notices w;
              calls := calls w ++ [(prompt, content)];
              requests := requests w |})).
Proof.
  intros settings transport prompt content w.
  destruct (makeAICall_outcome settings transport prompt content w)
    as (Hsent & Hkey & Hunknown).
  split; [|split; assumption].
  intros Hknown Hpresent. rewrite (Hsent Hknown Hpresent).
  split; reflexivity.
Qed.

Lemma X15_makeAICall_sends_a_request_only_with_a_key_witness :
  (knownProvider (aiProvider (Sample.withOpenAiKey "   " Sample.settings))
   /\ activeApiKey (Sample.withOpenAiKey "   " Sample.settings) <> ""
   /\ requests
        (snd (makeAICall (Sample.withOpenAiKey "   " Sample.settings)
                (scripted ["A title"]) "Prompt" "" emptyWorld))
      = ["Prompt"])
  /\ (activeApiKey (Sample.withOpenAiKey "" Sample.settings) = ""
      /\ makeAICall (Sample.withOpenAiKey "" Sample.settings)
           (scripted ["A title"]) "Prompt" "" emptyWorld
         = (Throw (Error "OpenAI API key is not set."),
            {| notices := []; calls := [("Prompt", "")]; requests := [] |})).
Proof.
  assert (Hknown : knownProvider "openai") by (now left).
  split; split.
  - exact Hknown.
  - split; [discriminate|].
    rewrite (proj2 (proj1 (X15_makeAICall_sends_a_request_only_with_a_key
                             (Sample.withOpenAiKey "   " Sample.settings)
                             (scripted ["A title"]) "Prompt" "" emptyWorld)
                      Hknown ltac:(discriminate))).
    vm_compute. reflexivity.
  - reflexivity.
  - exact (proj1 (proj2 (X15_makeAICall_sends_a_request_only_with_a_key
                           (Sample.withOpenAiKey "" Sample.settings)
                           (scripted ["A title"]) "Prompt" "" emptyWorld))
             Hknown eq_refl).
Defined.

(** ** Invariants of the generation loop *)

(** The log of requests is the log of calls, each turned into its full
    prompt. *)
Lemma attemptLoop_lockstep (settings : TitleGeneratorSettings)
  (transport : Transport) (content : string) :
  configurationValid settings ->
  forall (remaining : nat) (attempt : Z) (title : string) (w : World),
    requests w = map (fun call => fullPrompt (fst call) (snd call)) (calls w) ->
    let out :=
      attemptLoop settings transport content remaining attempt title w in
    requests (snd out)
    = map (fun call => fullPrompt (fst call) (snd call)) (calls (snd out)).
Proof.
  intros Hvalid. induction remaining as [|remaining IH];
    intros attempt title w Hw; cbv zeta; [exact Hw|].
  rewrite attemptLoop_step by assumption. cbv zeta.
  set (prompt := attemptPrompt settings attempt title).
  set (body := attemptContent content attempt).
  set (w1 := afterCall prompt body (beforeAttempt attempt w)).
  assert (Hw1 : requests w1
                = map (fun call => fullPrompt (fst call) (snd call)) (calls w1)).
  { unfold w1. cbn [afterCall requests calls].
    rewrite beforeAttempt_requests, beforeAttempt_calls, map_app, Hw.
    reflexivity. }
  destruct (adapterOutcome _ _) as [rawTitle|e]; [|exact Hw1].
  destruct (isValidTitle _ _); [exact Hw1|]. now apply IH.
Qed.

Lemma generateTitle_lockstep (settings : TitleGeneratorSettings)
  (transport : Transport) (noteContent : string) (w : World) :
  requests w = map (fun call => fullPrompt (fst call) (snd call)) (calls w) ->
  let out := generateTitle settings transport noteContent w in
  requests (snd out)
  = map (fun call => fullPrompt (fst call) (snd call)) (calls (snd out)).
Proof.
  intros Hw. cbv zeta.
  destruct (configurationValid_dec settings) as [Hvalid|Hinvalid].
  - rewrite generateTitle_valid by assumption.
    pose proof (attemptLoop_lockstep settings transport
                  (slice0 noteContent (maxContentLength settings)) Hvalid
                  maxAttempts 1 "" w Hw) as Hloop.
    cbv zeta in Hloop.
    destruct (attemptLoop _ _ _ _ _ _ _) as [[title|error] w']; [exact Hloop|].
    destruct (onError_outcome settings error w')
      as (outcome & w'' & -> & Hcalls & Hrequests).
    cbn [snd] in *. now rewrite Hcalls, Hrequests.
  - destruct (generateTitle_invalid settings transport noteContent w Hinvalid)
      as (w' & -> & Hcalls & Hrequests).
    cbn [snd]. now rewrite Hcalls, Hrequests.
Qed.

(** X16.  Whatever the settings and the provider, [generateTitle] sends one
    request per provider call and nothing else: the requests it leaves in
    the log are, in order, its calls, each as the trimmed text made of the
    prompt, a blank line and the content. *)
Theorem X16_one_request_per_call :
  forall (settings : TitleGeneratorSettings) (transport : Transport)
         (noteContent : string),
    let out := generateTitle settings transport noteContent emptyWorld in
    requests (snd out)
    = map (fun call => fullPrompt (fst call) (snd call)) (calls (snd out)).
Proof.
  intros settings transport noteContent.
  now apply generateTitle_lockstep.
Qed.

(** The contents the loop sends: the clipped note on attempt 1, nothing
    afterwards. *)
Lemma attemptLoop_contents (settings : TitleGeneratorSettings)
  (transport : Transport) (content : string) :
  configurationValid settings ->
  forall (remaining : nat) (attempt : Z) (title : string) (w : World),
    let out :=
      attemptLoop settings transport content remaining attempt title w in
    exists extra,
      calls (snd out) = (calls w ++ extra)%list
      /\ Forall (fun call => snd call = content \/ snd call = "") extra.
Proof.
  intros Hvalid. induction remaining as [|remaining IH];
    intros attempt title w; cbv zeta.
  - exists []. split; [now rewrite app_nil_r | constructor].
  - rewrite attemptLoop_step by assumption. cbv zeta.
    set (prompt := attemptPrompt settings attempt title).
    set (body := attemptContent content attempt).
    set (w1 := afterCall prompt body (beforeAttempt attempt w)).
    assert (Hw1 : calls w1 = (calls w ++ [(prompt, body)])%list).
    { unfold w1. cbn [afterCall calls]. now rewrite beforeAttempt_calls. }
    assert (Hbody : body = content \/ body = "").
    { unfold body, attemptContent. destruct (attempt =? 1); [now left | now right]. }
    assert (Hone : exists extra,
               calls w1 = (calls w ++ extra)%list
               /\ Forall (fun call => snd call = content \/ snd call = "") extra).
    { exists [(prompt, body)]. split; [exact Hw1|].
      constructor; [exact Hbody | constructor]. }
    destruct (adapterOutcome _ _) as [rawTitle|e]; [|exact Hone].
    destruct (isValidTitle _ _); [exact Hone|].
    destruct (IH (attempt + 1) (cleanAIResponse rawTitle) w1)
      as (extra & Hcalls & Hall).
    exists ((prompt, body) :: extra). split.
    + now rewrite Hcalls, Hw1, <- app_assoc.
    + constructor; [exact Hbody | exact Hall].
Qed.

Lemma take_length_le_string (n : nat) (s : string) :
  (String.length (take n s) <= String.length s)%nat.
Proof.
  revert s; induction n as [|n IH]; intros [|c s]; cbn; try lia.
  specialize (IH s); lia.
Qed.

Lemma slice0_length (s : string) (e : Z) :
  len (slice0 s e) <= len s /\ (0 <= e -> len (slice0 s e) <= e).
Proof.
  unfold slice0, len. split.
  - pose proof (take_length_le_string
                  (Z.to_nat (if e <? 0
                             then Z.max (Z.of_nat (String.length s) + e) 0
                             else Z.min e (Z.of_nat (String.length s)))) s).
    lia.
  - intros He. destruct (Z.ltb_spec e 0); [lia|].
    pose proof (take_length_le
                  (Z.to_nat (Z.min e (Z.of_nat (String.length s)))) s).
    lia.
Qed.

(** X17.  The note text never travels twice and never beyond the
    configured size: in every call [generateTitle] makes, the content is
    either the note clipped by [slice] or empty, so it is never longer than
    the note, nor longer than a max content length that is not negative. *)
Theorem X17_content_is_the_clipped_note_or_empty :
  forall (settings : TitleGeneratorSettings) (transport : Transport)
         (noteContent prompt content : string),
    In (prompt, content)
       (calls (snd (generateTitle settings transport noteContent emptyWorld))) ->
    (content = slice0 noteContent (maxContentLength settings) \/ content = "")
    /\ len content <= len noteContent
    /\ (0 <= maxContentLength settings ->
        len content <= maxContentLength settings).
Proof.
  intros settings transport noteContent prompt content Hin.
  assert (Hcases :
    content = slice0 noteContent (maxContentLength settings) \/ content = "").
  { destruct (configurationValid_dec settings) as [Hvalid|Hinvalid].
    - rewrite generateTitle_valid in Hin by assumption.
      destruct (attemptLoop_contents settings transport
                  (slice0 noteContent (maxContentLength settings)) Hvalid
                  maxAttempts 1 "" emptyWorld) as (extra & Hcalls & Hall).
      cbv zeta in Hcalls.
      destruct (attemptLoop _ _ _ _ _ _ _) as [[title|error] w'].
      + cbn [snd] in *. rewrite Hcalls in Hin. cbn [calls emptyWorld app] in Hin.
        rewrite Forall_forall in Hall. exact (Hall _ Hin).
      + destruct (onError_outcome settings error w')
          as (outcome & w'' & Hrun & Hcalls' & _).
        rewrite Hrun in Hin. cbn [snd] in *. rewrite Hcalls', Hcalls in Hin.
        cbn [calls emptyWorld app] in Hin.
        rewrite Forall_forall in Hall. exact (Hall _ Hin).
    - destruct (generateTitle_invalid settings transport noteContent
                  emptyWorld Hinvalid) as (w' & Hrun & Hcalls & _).
      rewrite Hrun in Hin. cbn [snd] in Hin. rewrite Hcalls in Hin.
      contradiction. }
  split; [exact Hcases|].
  pose proof (slice0_length noteContent (maxContentLength settings))
    as [Hlen Hmax].
  destruct Hcases as [->| ->].
  - split; assumption.
  - split; [unfold len; cbn; lia | intros H; cbn; exact H].
Qed.

Lemma X17_content_is_the_clipped_note_or_empty_witness :
  In ("Create a concise title for this text. Maximum 20 characters.",
      "Quart")
     (calls (snd (generateTitle (SettingsTab.setMaxContentLength 5 Sample.settings)
                    (scripted Sample.dollarScript) Sample.note emptyWorld)))
  /\ len "Quart" <= maxContentLength
                      (SettingsTab.setMaxContentLength 5 Sample.settings).
Proof.
  assert (Hin :
    In ("Create a concise title for this text. Maximum 20 characters.",
        "Quart")
       (calls (snd (generateTitle
                      (SettingsTab.setMaxContentLength 5 Sample.settings)
                      (scripted Sample.dollarScript) Sample.note emptyWorld)))).
  { vm_compute. left. reflexivity. }
  split; [exact Hin|].
  apply (X17_content_is_the_clipped_note_or_empty _ _ _ _ _ Hin).
  cbn. lia.
Defined.

(** ** What the user is told *)

Lemma includes_prefix (p b : string) : includes p (p ++ b) = true.
Proof.
  unfold includes, indexOf.
  destruct (p ++ b) as [|c s] eqn:Happ.
  - destruct p; [reflexivity | discriminate].
  - cbn [index]. rewrite <- Happ, prefix_app. reflexivity.
Qed.

Lemma includes_cons (p : string) (c : ascii) (s : string) :
  includes p s = true -> includes p (String c s) = true.
Proof.
  unfold includes, indexOf. intros H. cbn [index].
  destruct (prefix p (String c s)); [reflexivity|].
  destruct (index 0 p s); [reflexivity | discriminate].
Qed.

Lemma includes_app_r (p a s : string) :
  includes p s = true -> includes p (a ++ s) = true.
Proof.
  intros H. induction a as [|c a IH]; [exact H|].
  cbn [append]. now apply includes_cons.
Qed.

Lemma statusError_is_an_API_error (provider : string)
  (response : HttpResponse) :
  includes "API error" (statusError provider response) = true.
Proof.
  unfold statusError. apply includes_app_r.
  change (" API error (" ++ toString (status response) ++ "): "
            ++ text response)
    with (String " " ("API error"
            ++ (" (" ++ toString (status response) ++ "): "
                  ++ text response))).
  apply includes_cons, includes_prefix.
Qed.

Lemma onError_notice (settings : TitleGeneratorSettings) (error : exn)
  (w : World) :
  onError settings error w
  = match message_of error with
    | Some message =>
        (Ok "",
         afterNotice (fst (errorNotice settings message))
           (snd (errorNotice settings message)) w)
    | None =>
        (Throw (TypeError "Cannot read properties of undefined (reading 'includes')"),
         w)
    end.
Proof.
  unfold onError, errorNotice, bindM, Notice, ret, afterNotice, throw.
  destruct (message_of error) as [message|]; [|reflexivity].
  destruct (includes "API key is not set" message);
    [|destruct (includes "API error" message)]; reflexivity.
Qed.

(** X18.  When the configuration passes the check and the first request
    comes back with a status other than 200, [generateTitle] makes that
    one call and no other, shows exactly one notice and returns the empty
    string.  The notice is the service error with the status message, for
    six seconds, unless that message holds the words of a missing key, in
    which case the user is asked to set the key; it is never the generic
    failure notice. *)
Theorem X18_status_error_is_reported_once :
  forall (settings : TitleGeneratorSettings) (transport : Transport)
         (noteContent : string) (response : HttpResponse),
    configurationValid settings ->
    let content := slice0 noteContent (maxContentLength settings) in
    let message := statusError (aiProvider settings) response in
    transport 0%nat (fullPrompt (initialPrompt settings) content)
    = Ok response ->
    status response <> 200 ->
    generateTitle settings transport noteContent emptyWorld
    = (Ok "",
       {| notices :=
            [if includes "API key is not set" message then
               ("Please set your " ++ toUpperCase (aiProvider settings)
                  ++ " API key in plugin settings.", Some 8000)
             else
               ("AI service error: " ++ message
                  ++ ". Check your API key and internet connection.",
                Some 6000)];
          calls := [(initialPrompt settings, content)];
          requests := [fullPrompt (initialPrompt settings) content] |}).
Proof.
  intros settings transport noteContent response Hvalid content message
    Htransport Hstatus.
  rewrite generateTitle_valid by assumption. fold content.
  unfold maxAttempts. rewrite attemptLoop_step by assumption. cbv zeta.
  change (attemptPrompt settings 1 "") with (initialPrompt settings).
  change (attemptContent content 1) with content.
  change (beforeAttempt 1 emptyWorld) with emptyWorld.
  cbn [requests emptyWorld List.length]. rewrite Htransport.
  unfold adapterOutcome.
  destruct (Z.eqb_spec (status response) 200) as [Heq|_]; [contradiction|].
  cbn [negb]. rewrite onError_notice. cbn [message_of].
  fold (statusError (aiProvider settings) response). fold message.
  unfold errorNotice.
  rewrite (statusError_is_an_API_error (aiProvider settings) response
           : includes "API error" message = true).
  destruct (includes "API key is not set" message); reflexivity.
Qed.

Lemma X18_status_error_is_reported_once_witness :
  generateTitle Sample.settings
    (fun _ _ => Ok {| status := 401; text := "Unauthorized";
                      extracted := Ok "" |})
    Sample.note emptyWorld
  = (Ok "",
     {| notices :=
          [("AI service error: OpenAI API error (401): Unauthorized. Check your API key and internet connection.",
            Some 6000)];
        calls :=
          [("Create a concise title for this text. Maximum 20 characters.",
            Sample.note)];
        requests :=
          [fullPrompt
             "Create a concise title for this text. Maximum 20 characters."
             Sample.note] |}).
Proof.
  pose proof (X18_status_error_is_reported_once Sample.settings
                (fun _ _ => Ok {| status := 401; text := "Unauthorized";
                                  extracted := Ok "" |})
                Sample.note
                {| status := 401; text := "Unauthorized"; extracted := Ok "" |}
                ltac:(vm_compute; reflexivity) eq_refl
                ltac:(cbn; lia)) as H.
  rewrite H. vm_compute. reflexivity.
Defined.

(** The refinement notices follow the calls. *)
Lemma seq_refining (n : nat) :
  map refiningNotice (seq 2 (S n - 1))
  = (map refiningNotice (seq 2 (n - 1))
       ++ (if (n =? 0)%nat then [] else [refiningNotice (S n)]))%list.
Proof.
  destruct n as [|n]; [reflexivity|].
  replace (S (S n) - 1)%nat with (S n) by lia.
  replace (S n - 1)%nat with n by lia.
  rewrite seq_S, map_app. reflexivity.
Qed.

Lemma attemptLoop_notices (settings : TitleGeneratorSettings)
  (transport : Transport) (content : string) :
  configurationValid settings ->
  forall (remaining : nat) (attempt : Z) (title : string) (w : World),
    attempt = Z.of_nat (S (List.length (calls w))) ->
    notices w = map refiningNotice (seq 2 (List.length (calls w) - 1)) ->
    let out :=
      attemptLoop settings transport content remaining attempt title w in
    notices (snd out)
    = map refiningNotice (seq 2 (List.length (calls (snd out)) - 1)).
Proof.
  intros Hvalid. induction remaining as [|remaining IH];
    intros attempt title w Hattempt Hnotices; cbv zeta; [exact Hnotices|].
  rewrite attemptLoop_step by assumption. cbv zeta.
  set (prompt := attemptPrompt settings attempt title).
  set (body := attemptContent content attempt).
  set (w1 := afterCall prompt body (beforeAttempt attempt w)).
  assert (Hcalls : List.length (calls w1) = S (List.length (calls w))).
  { unfold w1. cbn [afterCall calls].
    rewrite beforeAttempt_calls, List.length_app. cbn. lia. }
  assert (Hw1 : notices w1
                = map refiningNotice (seq 2 (List.length (calls w1) - 1))).
  { rewrite Hcalls, seq_refining, <- Hnotices.
    unfold w1, beforeAttempt. cbn [afterCall notices].
    destruct (Z.eqb_spec attempt 1) as [H1|H1].
    - destruct (Nat.eqb_spec (List.length (calls w)) 0) as [_|Hn]; [|lia].
      now rewrite app_nil_r.
    - destruct (Nat.eqb_spec (List.length (calls w)) 0) as [Hn|_]; [lia|].
      cbn [afterNotice notices]. unfold refiningNotice.
      now rewrite Hattempt. }
  destruct (adapterOutcome _ _) as [rawTitle|e]; [|exact Hw1].
  destruct (isValidTitle _ _); [exact Hw1|].
  apply IH; [rewrite Hcalls; lia | exact Hw1].
Qed.

(** X19.  With a configuration that passes the check and the OpenAI or the
    Anthropic provider, whose adapters show no notice of their own, the
    notices [generateTitle] shows are one refinement notice for each call
    after the first, numbered 2, 3, ... in order and shown without a
    duration, followed by the notice of the [catch] block when a call
    fails with an exception that carries a message.  Nothing follows when
    the loop ends with a title, nor when the value thrown has no message:
    the [catch] block then throws before it shows anything.  (The Google
    adapter can add a notice while it reads a blocked answer; the
    transport of this development does not record it.) *)
Theorem X19_notices_follow_the_calls :
  forall (settings : TitleGeneratorSettings) (transport : Transport)
         (noteContent : string),
    configurationValid settings ->
    aiProvider settings <> "google" ->
    let out := generateTitle settings transport noteContent emptyWorld in
    let loop :=
      attemptLoop settings transport
        (slice0 noteContent (maxContentLength settings)) maxAttempts 1 ""
        emptyWorld in
    calls (snd out) = calls (snd loop)
    /\ notices (snd out)
       = (map refiningNotice (seq 2 (List.length (calls (snd out)) - 1))
            ++ match fst loop with
               | Ok _ => []
               | Throw error =>
                   match message_of error with
                   | Some message => [errorNotice settings message]
                   | None => []
                   end
               end)%list.
Proof.
  intros settings transport noteContent Hvalid _. cbv zeta.
  rewrite generateTitle_valid by assumption.
  pose proof (attemptLoop_notices settings transport
                (slice0 noteContent (maxContentLength settings)) Hvalid
                maxAttempts 1 "" emptyWorld eq_refl eq_refl) as Hloop.
  cbv zeta in Hloop.
  destruct (attemptLoop _ _ _ _ _ _ _) as [[title|error] w'].
  - cbn [fst snd] in *. split; [reflexivity|].
    now rewrite app_nil_r.
  - rewrite onError_notice. cbn [fst snd] in *.
    destruct (message_of error) as [message|];
      cbn [fst snd afterNotice calls notices];
      (split; [reflexivity|]); rewrite Hloop.
    + now destruct (errorNotice settings message).
    + now rewrite app_nil_r.
Qed.

Lemma X19_notices_follow_the_calls_witness :
  notices (snd (generateTitle Sample.settings Sample.failingSecond
                  Sample.note emptyWorld))
  = [("Title still too long. Refining... (Attempt 2)", None);
     ("AI service error: OpenAI API error (500): Internal error. Check your API key and internet connection.",
      Some 6000)].
Proof.
  rewrite (proj2 (X19_notices_follow_the_calls Sample.settings
                    Sample.failingSecond Sample.note
                    ltac:(vm_compute; reflexivity) ltac:(discriminate))).
  vm_compute. reflexivity.
Defined.

(** ** The settings tab *)

Lemma configurationValid_iff (settings : TitleGeneratorSettings) :
  configurationValid settings
  <-> SettingsTab.hasValidConfiguration settings (aiProvider settings) = true
      /\ activeModel settings <> "".
Proof.
  unfold configurationValid, isConfigurationValid,
    SettingsTab.hasValidConfiguration, activeModel, bindM, Notice, ret.
  destruct (String.eqb (aiProvider settings) "openai");
    [|destruct (String.eqb (aiProvider settings) "anthropic");
      [|destruct (String.eqb (aiProvider settings) "google")]].
  4: { cbn. split; [discriminate | intros [H _]; discriminate H]. }
  all: match goal with
       | |- context [isEmpty (trim ?key)] =>
           destruct (isEmpty (trim key)); cbn [negb fst];
             [split; [discriminate | intros [H _]; discriminate H]|]
       end;
       match goal with
       | |- context [isEmpty ?model] =>
           destruct model; cbn [isEmpty fst];
             [split; [discriminate | intros [_ H]; now elim H]
             |split; [intros _; split; [reflexivity | discriminate]
                     |reflexivity]]
       end.
Qed.

(** X20.  The check behind the status line of the settings tab is weaker
    than the check [generateTitle] makes: the configuration passes
    [isConfigurationValid] exactly when [hasValidConfiguration] holds for
    the active provider and, in addition, the model of that provider is
    not empty. *)
Theorem X20_generation_needs_a_model_beyond_the_tab_status :
  forall settings : TitleGeneratorSettings,
    configurationValid settings
    <-> SettingsTab.hasValidConfiguration settings (aiProvider settings) = true
        /\ activeModel settings <> "".
Proof. exact configurationValid_iff. Qed.

Lemma getTimeAgo_bands (now date : Z) :
  let elapsed := now - date in
  (elapsed < 60000 -> SettingsTab.getTimeAgo now date = "just now")
  /\ (60000 <= elapsed < 3600000 ->
      SettingsTab.getTimeAgo now date
      = toString (elapsed / 60000) ++ "m ago"
      /\ 1 <= elapsed / 60000 <= 59)
  /\ (3600000 <= elapsed < 86400000 ->
      SettingsTab.getTimeAgo now date
      = toString (elapsed / 3600000) ++ "h ago"
      /\ 1 <= elapsed / 3600000 <= 23)
  /\ (86400000 <= elapsed ->
      SettingsTab.getTimeAgo now date
      = toString (elapsed / 86400000) ++ "d ago"
      /\ 1 <= elapsed / 86400000).
Proof.
  cbv zeta. unfold SettingsTab.getTimeAgo. cbv zeta.
  change (1000 * 60) with 60000.
  set (elapsed := now - date).
  assert (Hhours : elapsed / 60000 / 60 = elapsed / 3600000)
    by (rewrite Z.div_div by lia; reflexivity).
  assert (Hdays : elapsed / 60000 / 60 / 24 = elapsed / 86400000)
    by (rewrite !Z.div_div by lia; reflexivity).
  rewrite Hdays, Hhours.
  pose proof (Z.div_le_mono 60000 elapsed 60000 ltac:(lia)) as Hm1.
  pose proof (Z.div_lt_upper_bound elapsed 60000 1 ltac:(lia)) as Hm0.
  pose proof (Z.div_lt_upper_bound elapsed 60000 60 ltac:(lia)) as Hm60.
  pose proof (Z.div_le_lower_bound elapsed 60000 60 ltac:(lia)) as Hm60'.
  pose proof (Z.div_le_lower_bound elapsed 60000 1 ltac:(lia)) as Hm1'.
  pose proof (Z.div_lt_upper_bound elapsed 3600000 24 ltac:(lia)) as Hh24.
  pose proof (Z.div_le_lower_bound elapsed 3600000 24 ltac:(lia)) as Hh24'.
  pose proof (Z.div_le_lower_bound elapsed 3600000 1 ltac:(lia)) as Hh1.
  pose proof (Z.div_le_lower_bound elapsed 86400000 1 ltac:(lia)) as Hd1.
  repeat match goal with |- _ /\ _ => split end; intros H.
  - destruct (Z.ltb_spec (elapsed / 60000) 1); [reflexivity | lia].
  - destruct (Z.ltb_spec (elapsed / 60000) 1); [lia|].
    destruct (Z.ltb_spec (elapsed / 60000) 60); [|lia].
    split; [reflexivity | lia].
  - destruct (Z.ltb_spec (elapsed / 60000) 1); [lia|].
    destruct (Z.ltb_spec (elapsed / 60000) 60); [lia|].
    destruct (Z.ltb_spec (elapsed / 3600000) 24); [|lia].
    split; [reflexivity | lia].
  - destruct (Z.ltb_spec (elapsed / 60000) 1); [lia|].
    destruct (Z.ltb_spec (elapsed / 60000) 60); [lia|].
    destruct (Z.ltb_spec (elapsed / 3600000) 24); [lia|].
    split; [reflexivity | lia].
Qed.

(** X21.  [getTimeAgo] labels an elapsed time by its largest whole unit:
    under a minute (a date in the future included) it says just now; from
    one minute it counts whole minutes 1 to 59, from one hour whole hours 1
    to 23, and from 24 hours whole days, each count being the elapsed
    milliseconds divided by the length of the unit and rounded down, the
    two nested roundings of the code notwithstanding. *)
Theorem X21_getTimeAgo_counts_whole_units :
  forall now date : Z,
    let elapsed := now - date in
    (elapsed < 60000 -> SettingsTab.getTimeAgo now date = "just now")
    /\ (60000 <= elapsed < 3600000 ->
        SettingsTab.getTimeAgo now date
        = toString (elapsed / 60000) ++ "m ago"
        /\ 1 <= elapsed / 60000 <= 59)
    /\ (3600000 <= elapsed < 86400000 ->
        SettingsTab.getTimeAgo now date
        = toString (elapsed / 3600000) ++ "h ago"
        /\ 1 <= elapsed / 3600000 <= 23)
    /\ (86400000 <= elapsed ->
        SettingsTab.getTimeAgo now date
        = toString (elapsed / 86400000) ++ "d ago"
        /\ 1 <= elapsed / 86400000).
Proof. exact getTimeAgo_bands. Qed.

Lemma X21_getTimeAgo_counts_whole_units_witness :
  SettingsTab.getTimeAgo 1700000000000 1699990000000 = "2h ago"
  /\ SettingsTab.getTimeAgo 1700000000000 1699000000000 = "11d ago".
Proof.
  split.
  - rewrite (proj1 (proj1 (proj2 (proj2
               (X21_getTimeAgo_counts_whole_units 1700000000000 1699990000000)))
               ltac:(cbn; lia))).
    vm_compute. reflexivity.
  - rewrite (proj1 (proj2 (proj2 (proj2
               (X21_getTimeAgo_counts_whole_units 1700000000000 1699000000000)))
               ltac:(cbn; lia))).
    vm_compute. reflexivity.
Defined.

(** *** Numbers typed into a field *)

Lemma digitsValue_of_lu (d d' : Decimal.uint) :
  digitsValue (Z.of_N (DecimalPos.Unsigned.of_lu d')) d
  = Z.of_N (DecimalPos.Unsigned.of_lu (Decimal.revapp d d')).
Proof.
  revert d'. induction d as [|d IH|d IH|d IH|d IH|d IH|d IH|d IH|d IH|d IH|d IH];
    intros d'; cbn [digitsValue Decimal.revapp]; [reflexivity|..];
    rewrite <- IH; f_equal; cbn [DecimalPos.Unsigned.of_lu]; lia.
Qed.

Lemma digitsValue_to_uint (p : positive) :
  digitsValue 0 (Pos.to_uint p) = Z.pos p.
Proof.
  change 0 with (Z.of_N (DecimalPos.Unsigned.of_lu Decimal.Nil)).
  rewrite digitsValue_of_lu.
  change (Decimal.revapp (Pos.to_uint p) Decimal.Nil)
    with (Decimal.rev (Pos.to_uint p)).
  rewrite <- DecimalPos.Unsigned.of_uint_alt, DecimalPos.Unsigned.of_to.
  reflexivity.
Qed.

Lemma parseDigits_stop (acc : Z) (s : string) :
  SettingsTab.startsWithDigit s = false -> SettingsTab.parseDigits acc s = acc.
Proof.
  destruct s as [|c s]; [reflexivity|]. cbn. now intros ->.
Qed.

Lemma parseDigits_string_of_uint (d : Decimal.uint) (acc : Z) (rest : string) :
  SettingsTab.parseDigits acc (NilEmpty.string_of_uint d ++ rest)
  = SettingsTab.parseDigits (digitsValue acc d) rest.
Proof.
  revert acc.
  induction d as [|d IH|d IH|d IH|d IH|d IH|d IH|d IH|d IH|d IH|d IH];
    intros acc; [reflexivity|..];
    cbn [NilEmpty.string_of_uint append SettingsTab.parseDigits];
    (change (SettingsTab.isDigit _) with true; cbv iota;
     rewrite IH; reflexivity).
Qed.

Lemma parseInt_digits (d : Decimal.uint) (rest : string) :
  d <> Decimal.Nil ->
  SettingsTab.startsWithDigit rest = false ->
  SettingsTab.parseInt (NilEmpty.string_of_uint d ++ rest)
  = SettingsTab.toParsed false (digitsValue 0 d)
  /\ SettingsTab.parseInt (String "-" (NilEmpty.string_of_uint d ++ rest))
     = SettingsTab.toParsed true (digitsValue 0 d).
Proof.
  intros Hd Hrest.
  pose proof (parseDigits_string_of_uint d 0 rest) as Hvalue.
  rewrite (parseDigits_stop _ _ Hrest) in Hvalue.
  destruct d; [now elim Hd|..];
    (split;
     [unfold SettingsTab.parseInt;
      cbn [NilEmpty.string_of_uint append dropWhileStart] in *;
      change (isWhiteSpace _) with false; cbv iota;
      change (SettingsTab.startsWithDigit (String _ _)) with true; cbv iota;
      rewrite Hvalue; reflexivity
     |unfold SettingsTab.parseInt;
      cbn [NilEmpty.string_of_uint append dropWhileStart] in *;
      change (isWhiteSpace "-") with false; cbv iota;
      change (SettingsTab.startsWithDigit (String _ _)) with true; cbv iota;
      rewrite Hvalue; reflexivity]).
Qed.

Lemma roundToDouble_exact (z : Z) :
  Z.abs z <= 9007199254740991 -> SettingsTab.roundToDouble z = Some z.
Proof.
  intros Hsafe. unfold SettingsTab.roundToDouble. cbv zeta.
  change (2 ^ 53) with 9007199254740992.
  destruct (Z.ltb_spec (Z.abs z) 9007199254740992); [reflexivity | lia].
Qed.

Lemma parseInt_toString (z : Z) (rest : string) :
  Z.abs z <= 9007199254740991 ->
  SettingsTab.startsWithDigit rest = false ->
  SettingsTab.parseInt (toString z ++ rest) = SettingsTab.ParsedWhole z.
Proof.
  intros Hsafe Hrest. unfold toString.
  destruct z as [|p|p]; cbn [Z.to_int NilZero.string_of_int].
  - change (NilZero.string_of_uint (Decimal.D0 Decimal.Nil))
      with (NilEmpty.string_of_uint (Decimal.D0 Decimal.Nil)).
    now rewrite (proj1 (parseInt_digits (Decimal.D0 Decimal.Nil) rest
                          ltac:(discriminate) Hrest)).
  - pose proof (DecimalPos.Unsigned.to_uint_nonnil p) as Hnil.
    replace (NilZero.string_of_uint (Pos.to_uint p))
      with (NilEmpty.string_of_uint (Pos.to_uint p))
      by (destruct (Pos.to_uint p); [now elim Hnil | reflexivity..]).
    rewrite (proj1 (parseInt_digits _ rest Hnil Hrest)).
    rewrite digitsValue_to_uint. unfold SettingsTab.toParsed.
    now rewrite (roundToDouble_exact (Z.pos p) Hsafe).
  - pose proof (DecimalPos.Unsigned.to_uint_nonnil p) as Hnil.
    replace (NilZero.string_of_uint (Pos.to_uint p))
      with (NilEmpty.string_of_uint (Pos.to_uint p))
      by (destruct (Pos.to_uint p); [now elim Hnil | reflexivity..]).
    cbn [append].
    rewrite (proj2 (parseInt_digits _ rest Hnil Hrest)).
    rewrite digitsValue_to_uint. unfold SettingsTab.toParsed.
    now rewrite (roundToDouble_exact (Z.pos p) Hsafe).
Qed.

(** Beyond 2^53 the number read is the nearest double, not the number
    typed. *)
Example parseInt_rounds :
  SettingsTab.parseInt "9007199254740993"
  = SettingsTab.ParsedWhole 9007199254740992
  /\ SettingsTab.parseInt "-9007199254740995"
     = SettingsTab.ParsedWhole (-9007199254740996).
Proof. split; vm_compute; reflexivity. Qed.

(** X22.  The two length fields of the settings tab store any whole number
    that is typed and that a number holds exactly (a magnitude of at most
    2^53 - 1), whatever its sign: after the change handler has run on the
    decimal text of [z], followed or not by characters that do not begin
    with a digit (a fraction or an exponent, say), the setting is [z] and
    no other field of the settings that enter the generation has changed.
    Nothing keeps the stored value within the bounds of the validators: a
    title length under 10 or over 500 is stored all the same, though
    [validateMaxTitleLength] rejects it. *)
Theorem X22_length_fields_store_any_integer :
  forall (z : Z) (rest : string) (s : TitleGeneratorSettings),
    Z.abs z <= 9007199254740991 ->
    SettingsTab.startsWithDigit rest = false ->
    SettingsTab.onMaxTitleLengthChange (toString z ++ rest) s
    = Some (SettingsTab.setMaxTitleLength z s)
    /\ SettingsTab.onMaxContentLengthChange (toString z ++ rest) s
       = Some (SettingsTab.setMaxContentLength z s)
    /\ ((z < 10 \/ 500 < z) ->
        exists stored,
          SettingsTab.onMaxTitleLengthChange (toString z ++ rest) s
          = Some stored
          /\ valid (validateMaxTitleLength (Num (ofZ (maxTitleLength stored))))
             = false).
Proof.
  intros z rest s Hsafe Hrest.
  unfold SettingsTab.onMaxTitleLengthChange,
    SettingsTab.onMaxContentLengthChange.
  rewrite !(parseInt_toString z rest Hsafe Hrest).
  repeat match goal with |- _ /\ _ => split end; try reflexivity.
  intros Hout. eexists. split; [reflexivity|].
  cbn [SettingsTab.setMaxTitleLength maxTitleLength].
  apply not_true_iff_false. intros Hvalid.
  apply validateMaxTitleLength_valid_iff in Hvalid. lia.
Qed.

Lemma X22_length_fields_store_any_integer_witness :
  SettingsTab.onMaxTitleLengthChange "-1.5" Sample.settings
  = Some Sample.negativeMax
  /\ valid (validateMaxTitleLength
              (Num (ofZ (maxTitleLength Sample.negativeMax))))
     = false.
Proof.
  destruct (X22_length_fields_store_any_integer (-1) ".5" Sample.settings
              ltac:(cbn; lia) eq_refl) as (Hstored & _ & Hrejected).
  split; [exact Hstored|].
  destruct (Hrejected ltac:(lia)) as (stored & Hrun & Hinvalid).
  rewrite Hstored in Hrun. injection Hrun as <-. exact Hinvalid.
Defined.

(** *** The model list *)

Lemma existsb_eqb_In (x : string) (l : list string) :
  existsb (String.eqb x) l = true <-> In x l.
Proof.
  rewrite existsb_exists. split.
  - intros (y & Hin & Heq). apply String.eqb_eq in Heq. now subst y.
  - intros Hin. exists x. split; [exact Hin | apply String.eqb_refl].
Qed.

Lemma visibleModels_In (models : list string) (currentModel filter m : string) :
  In m (SettingsTab.visibleModels models currentModel filter)
  <-> SettingsTab.matchesFilter filter m = true
      /\ (In m models \/ (m = currentModel /\ currentModel <> "")).
Proof.
  unfold SettingsTab.visibleModels. cbv zeta.
  set (available := List.filter (SettingsTab.matchesFilter filter) models).
  assert (Havailable : forall x,
             In x available
             <-> In x models /\ SettingsTab.matchesFilter filter x = true)
    by (intros x; apply filter_In).
  destruct (isEmpty currentModel) eqn:Hempty; cbn [negb andb].
  - apply isEmpty_true in Hempty. rewrite Havailable. split.
    + intros [Hin Hmatch]. split; [exact Hmatch | now left].
    + intros [Hmatch [Hin|[_ Hcur]]]; [now split | contradiction].
  - assert (Hcur : currentModel <> "")
      by (intros E; rewrite E in Hempty; discriminate).
    destruct (existsb (String.eqb currentModel) available) eqn:Hshown;
      cbn [negb andb].
    + apply existsb_eqb_In in Hshown. rewrite Havailable. split.
      * intros [Hin Hmatch]. split; [exact Hmatch | now left].
      * intros [Hmatch [Hin|[-> _]]]; [now split|].
        now apply Havailable.
    + destruct (SettingsTab.matchesFilter filter currentModel) eqn:Hmatches.
      * cbn [In]. rewrite Havailable. split.
        -- intros [<-|[Hin Hmatch]];
             [split; [exact Hmatches | now right] | split; [exact Hmatch | now left]].
        -- intros [Hmatch [Hin|[-> _]]]; [right; now split | now left].
      * rewrite Havailable. split.
        -- intros [Hin Hmatch]. split; [exact Hmatch | now left].
        -- intros [Hmatch [Hin|[-> _]]]; [now split | congruence].
Qed.

Lemma visibleModels_NoDup (models : list string) (currentModel filter : string) :
  NoDup models ->
  NoDup (SettingsTab.visibleModels models currentModel filter).
Proof.
  intros Hnodup. unfold SettingsTab.visibleModels. cbv zeta.
  pose proof (NoDup_filter (SettingsTab.matchesFilter filter) Hnodup)
    as Havailable.
  destruct (isEmpty currentModel); cbn [negb andb]; [exact Havailable|].
  destruct (existsb (String.eqb currentModel) _) eqn:Hshown;
    cbn [negb andb]; [exact Havailable|].
  destruct (SettingsTab.matchesFilter filter currentModel);
    [|exact Havailable].
  constructor; [|exact Havailable].
  intros Hin. apply existsb_eqb_In in Hin. congruence.
Qed.

(** Past its two early returns, the list shows the array after the
    [unshift], each entry marked as selected when it is the saved model. *)
Lemma populateModelList_listed (models : list string)
  (cachedError : option string) (provider currentModel filter : string) :
  knownProvider provider ->
  let view :=
    SettingsTab.populateModelList models cachedError provider currentModel
      false filter in
  SettingsTab.listedModels view
  = SettingsTab.visibleModels models currentModel filter
  /\ forall entries model selected,
       view = SettingsTab.ViewModels entries ->
       In (model, selected) entries ->
       (selected = true <-> model = currentModel).
Proof.
  intros Hknown. cbv zeta. unfold SettingsTab.populateModelList.
  assert (Hprovider : String.eqb provider "openai"
                      || String.eqb provider "anthropic"
                      || String.eqb provider "google" = true)
    by (destruct Hknown as [->|[->| ->]]; reflexivity).
  rewrite Hprovider. cbn [negb].
  destruct (SettingsTab.visibleModels models currentModel filter)
    as [|model0 others].
  - split.
    + destruct cachedError as [[|c error]|]; [| reflexivity |];
        destruct (negb (isEmpty filter)); reflexivity.
    + intros entries model selected Hview.
      destruct cachedError as [[|c error]|];
        try destruct (negb (isEmpty filter)); discriminate Hview.
  - split.
    + cbn [SettingsTab.listedModels]. rewrite map_map. cbn [fst].
      apply map_id.
    + intros entries model selected [= <-] Hin.
      change (In (model, selected)
                (map (fun model => (model, String.eqb model currentModel))
                   (model0 :: others))) in Hin.
      apply in_map_iff in Hin as (m & [= <- <-] & _).
      apply String.eqb_eq.
Qed.

(** X23.  While the models load, [populateModelList] shows the loading
    line only, and for a provider outside the three it leaves the list
    empty.  Otherwise the models listed are exactly those that match the
    filter, letter case aside, among the models the model service hands
    over and the saved model when one is set: a saved model that the
    service does not list is still offered, but only while it matches the
    filter.  The entry marked as selected is the saved model, and when the
    service lists no model twice, neither does the list. *)
Theorem X23_model_list_shows_the_matching_models :
  forall (models : list string) (cachedError : option string)
         (provider currentModel filter : string),
    SettingsTab.populateModelList models cachedError provider currentModel
      true filter
    = SettingsTab.ViewText "Loading models..."
    /\ (~ knownProvider provider ->
        SettingsTab.populateModelList models cachedError provider currentModel
          false filter
        = SettingsTab.ViewNothing)
    /\ (knownProvider provider ->
        let view :=
          SettingsTab.populateModelList models cachedError provider
            currentModel false filter in
        (forall m,
            In m (SettingsTab.listedModels view)
            <-> SettingsTab.matchesFilter filter m = true
                /\ (In m models \/ (m = currentModel /\ currentModel <> "")))
        /\ (forall entries model selected,
              view = SettingsTab.ViewModels entries ->
              In (model, selected) entries ->
              (selected = true <-> model = currentModel))
        /\ (NoDup models -> NoDup (SettingsTab.listedModels view))).
Proof.
  intros models cachedError provider currentModel filter.
  split; [reflexivity|]. split.
  - intros Hunknown. unfold SettingsTab.populateModelList.
    destruct (String.eqb_spec provider "openai") as [E|_];
      [elim Hunknown; now left|].
    destruct (String.eqb_spec provider "anthropic") as [E|_];
      [elim Hunknown; now right; left|].
    destruct (String.eqb_spec provider "google") as [E|_];
      [elim Hunknown; now right; right|].
    reflexivity.
  - intros Hknown. cbv zeta.
    destruct (populateModelList_listed models cachedError provider
                currentModel filter Hknown) as [Hlisted Hselected].
    cbv zeta in Hlisted, Hselected. rewrite Hlisted.
    split; [|split].
    + intros m. apply visibleModels_In.
    + exact Hselected.
    + apply visibleModels_NoDup.
Qed.

Lemma X23_model_list_shows_the_matching_models_witness :
  knownProvider "openai"
  /\ NoDup ["gpt-4.1"; "gpt-4o"; "o3"]
  /\ SettingsTab.populateModelList ["gpt-4.1"; "gpt-4o"; "o3"] None "openai"
       "GPT-5" false "gpt"
     = SettingsTab.ViewModels
         [("GPT-5", true); ("gpt-4.1", false); ("gpt-4o", false)]
  /\ NoDup (SettingsTab.listedModels
              (SettingsTab.populateModelList ["gpt-4.1"; "gpt-4o"; "o3"] None
                 "openai" "GPT-5" false "gpt"))
  /\ In "GPT-5"
       (SettingsTab.listedModels
          (SettingsTab.populateModelList ["gpt-4.1"; "gpt-4o"; "o3"] None
             "openai" "GPT-5" false "gpt")).
Proof.
  assert (Hknown : knownProvider "openai") by (now left).
  assert (Hmodels : NoDup ["gpt-4.1"; "gpt-4o"; "o3"]).
  { repeat constructor; cbn; intuition discriminate. }
  destruct (proj2 (proj2 (X23_model_list_shows_the_matching_models
                            ["gpt-4.1"; "gpt-4o"; "o3"] None "openai"
                            "GPT-5" "gpt")) Hknown)
    as (Hin & _ & Hnodup).
  split; [exact Hknown|]. split; [exact Hmodels|].
  split; [vm_compute; reflexivity|]. split; [exact (Hnodup Hmodels)|].
  apply Hin. split; [reflexivity|]. right. split; [reflexivity | discriminate].
Defined.

(** ** The key validator *)

Lemma validateApiKey_value_valid_iff (apiKey : value) (provider : string) :
  valid (validateApiKey apiKey provider) = true
  <-> exists key, apiKey = Str key /\ 10 <= len (trim key) <= 200.
Proof.
  destruct apiKey as [| |b|n|key];
    try (split; [discriminate | intros (key & Hkey & _); discriminate Hkey]).
  rewrite validateApiKey_valid_iff. split.
  - intros Hlen. now exists key.
  - intros (key' & Hkey & Hlen). now injection Hkey as ->.
Qed.

Lemma prefix_app_l (a b s : string) :
  prefix (a ++ b) s = true -> prefix a s = true.
Proof.
  revert s. induction a as [|c a IH]; intros s; [now destruct s|].
  destruct s as [|d s]; simpl; [discriminate|].
  destruct (ascii_dec c d); [apply IH | discriminate].
Qed.

Lemma startsWith_sk (s : string) :
  startsWith "sk-ant-" s = true -> startsWith "sk-" s = true.
Proof.
  unfold startsWith. change "sk-ant-" with ("sk-" ++ "ant-").
  apply prefix_app_l.
Qed.

Lemma validateApiKey_anthropic_openai (apiKey : value) :
  warnings (validateApiKey apiKey "anthropic") = [] ->
  warnings (validateApiKey apiKey "openai") = [].
Proof.
  destruct apiKey as [| |b|n|[|c key]]; try reflexivity.
  unfold validateApiKey. cbv zeta.
  set (trimmedKey := trim (String c key)).
  destruct (len trimmedKey =? 0); [reflexivity|].
  set (checked :=
         if len trimmedKey >? VALIDATION_RULES.API_KEY.MAX_LENGTH
         then fail _ _ else _).
  assert (Hchecked : warnings checked = []).
  { unfold checked.
    destruct (len trimmedKey >? VALIDATION_RULES.API_KEY.MAX_LENGTH);
      destruct (len trimmedKey <? VALIDATION_RULES.API_KEY.MIN_LENGTH);
      reflexivity. }
  cbn [String.eqb Ascii.eqb Bool.eqb andb].
  destruct (startsWith "sk-ant-" trimmedKey) eqn:Hprefix; cbn [negb].
  - intros _. rewrite (startsWith_sk _ Hprefix). exact Hchecked.
  - unfold warn, pushWarnings. cbn [warnings]. rewrite Hchecked.
    discriminate.
Qed.

(** X24.  A key is valid exactly when it is a string whose trimmed length
    lies between 10 and 200: the provider and the shape of the key decide
    warnings only.  Those warnings cannot tell the providers apart in one
    direction: whatever raises no warning as an Anthropic key raises none
    as an OpenAI key either, since the Anthropic prefix begins with the
    OpenAI one. *)
Theorem X24_validateApiKey_validity_and_format_warnings :
  forall (apiKey : value) (provider : string),
    (valid (validateApiKey apiKey provider) = true
     <-> exists key, apiKey = Str key /\ 10 <= len (trim key) <= 200)
    /\ (warnings (validateApiKey apiKey "anthropic") = [] ->
        warnings (validateApiKey apiKey "openai") = []).
Proof.
  intros apiKey provider. split.
  - apply validateApiKey_value_valid_iff.
  - apply validateApiKey_anthropic_openai.
Qed.

Lemma X24_validateApiKey_validity_and_format_warnings_witness :
  warnings (validateApiKey (Str "sk-ant-0123456789") "anthropic") = []
  /\ warnings (validateApiKey (Str "sk-ant-0123456789") "openai") = [].
Proof.
  split; [reflexivity|].
  exact (proj2 (X24_validateApiKey_validity_and_format_warnings
                  (Str "sk-ant-0123456789") "openai") eq_refl).
Defined.
